(** * GitHub Unfollower Pro: the rate-limit-aware client of [app.py]

    A shallow embedding of the network-facing core of [src/app.py]
    (rate tracker, request executor, paginator, relationship cache,
    graph operations and bulk runs), followed by the properties of the
    specification that were checked against it.

    Conventions of the embedding.
    - The module-level globals of [app.py] ([rate_limit_remaining],
      [rate_limit_reset], [cache_data], [cache_timestamp]) together with
      the wall clock read by [time.time()], the remote service and a log
      of the requests sent and of the calls to [time.sleep] form one
      record, [world], threaded through every function.
    - Times and delays are rationals ([Q]); status codes are integers
      ([Z]); a string is a sequence of code points below 256, on which
      white space and letter case are those of Python's [str].
    - A Python function that can raise returns a [result]; state changes
      made before the exception are kept, as in Python.
    - The [while] loop of [get_paginated] has no bound in the source; it
      is run with a fuel argument; when the fuel is exhausted the
      outcome is [None] and the world is the one reached so far.  All
      other loops are over finite lists.
    - A response carries the headers [X-RateLimit-Remaining] and
      [X-RateLimit-Reset] as [int()] sees them: absent, the text of an
      integer, or a text for which [int()] raises.
    - What depends on the interpreter and on the C library is a
      parameter, [platform]: the time stamps that
      [datetime.fromtimestamp] can format and the longest duration that
      [time.sleep] accepts.
    - [print] and [log_api_call] write to the console; they are kept
      only where they can raise, which is where a time stamp is
      formatted.  The texts returned to the interface are kept as the
      values they are built from.
    - The order in which Python lists a set is not specified; the model
      lists it in the order of [elements]. *)

From Stdlib Require Import ZArith QArith Lqa String Ascii List Lia.
From Stdlib Require Import Qround.
From stdpp Require Import base option list gmap sets strings.

Local Open Scope string_scope.

(** ** Small Python helpers *)

(** [a < b] on floats, as a boolean. *)
Definition Qltb (a b : Q) : bool := negb (Qle_bool b a).

(** [max(a, b)] and [min(a, b)] of Python: the first argument wins ties. *)
Definition py_max (a b : Q) : Q := if Qltb a b then b else a.
Definition py_min (a b : Q) : Q := if Qltb b a then b else a.

(** Truthiness of a list and of a string. *)
Definition truthy {A : Type} (l : list A) : bool :=
  match l with [] => false | _ :: _ => true end.

Definition nonempty_str (s : string) : bool :=
  match s with EmptyString => false | String _ _ => true end.

(** The white space removed by [str.strip()], among the code points
    below 256: TAB to CR, FS to US, the space, NEL and the no-break
    space. *)
Definition is_space (c : ascii) : bool :=
  let n := nat_of_ascii c in
  ((9 <=? n)%nat && (n <=? 13)%nat) || ((28 <=? n)%nat && (n <=? 32)%nat)
  || (n =? 133)%nat || (n =? 160)%nat.

Fixpoint lstrip (s : string) : string :=
  match s with
  | EmptyString => EmptyString
  | String c s' => if is_space c then lstrip s' else s
  end.

Fixpoint rstrip (s : string) : string :=
  match s with
  | EmptyString => EmptyString
  | String c s' =>
      match rstrip s' with
      | EmptyString => if is_space c then EmptyString else String c EmptyString
      | r => String c r
      end
  end.

Definition strip (s : string) : string := rstrip (lstrip s).

(** [str.lower()] on the code points below 256: the letters A to Z and
    the capital letters from 192 to 222, the sign at 215 apart. *)
Definition lower_ascii (c : ascii) : ascii :=
  let n := nat_of_ascii c in
  if ((65 <=? n)%nat && (n <=? 90)%nat)
     || ((192 <=? n)%nat && (n <=? 222)%nat && negb (n =? 215)%nat)
  then ascii_of_nat (n + 32) else c.

Fixpoint lower (s : string) : string :=
  match s with
  | EmptyString => EmptyString
  | String c s' => String (lower_ascii c) (lower s')
  end.

(** [s.split(',')]. *)
Fixpoint split_comma (s : string) : list string :=
  match s with
  | EmptyString => [EmptyString]
  | String c s' =>
      if Ascii.eqb c ","%char then EmptyString :: split_comma s'
      else match split_comma s' with
           | h :: t => String c h :: t
           | [] => [String c EmptyString]
           end
  end.

(** ** HTTP data *)

Inductive method := GET | DELETE | PUT.

Definition url := string.

(** One element of a decoded JSON list, as [user["login"].strip()]
    sees it. *)
Inductive item :=
| User (login : string)  (* an object whose "login" is a string *)
| LoginNotString         (* an object whose "login" is not a string *)
| NoLogin                (* an object without "login" *)
| NotObject.             (* a string, a number, a list, true, false, null *)

(** The body of a response as [response.text] and [response.json()]
    see it. *)
Inductive body :=
| Empty                              (* response.text is empty *)
| Malformed (why : string)           (* not JSON; the decoder's message *)
| Array (items : list item)          (* a JSON list *)
| Object (fields : gmap string string) (* a JSON object *)
| Text (s : string)                  (* a JSON string *)
| Scalar.                            (* a number, true, false or null *)

(** The value of a header as [int()] sees it. *)
Inductive header_value :=
| Int (z : Z)
| NotInt (text : string).

Record response := {
  status_code : Z;
  x_ratelimit_remaining : option header_value;
  x_ratelimit_reset : option header_value;
  resp_body : body;
  next_link : option url             (* response.links['next']['url'] *)
}.

Record request := {
  req_method : method;
  req_url : url;
  req_params : option (gmap string Z)
}.

(** The request that [make_api_request] puts on the wire: only GET
    carries the parameters. *)
Definition wire (m : method) (u : url) (params : option (gmap string Z))
  : request :=
  {| req_method := m; req_url := u;
     req_params := match m with GET => params | _ => None end |}.

(** The parameters of the first request of a paginated fetch called
    without parameters of its own. *)
Definition first_page_params : option (gmap string Z) :=
  Some (<["per_page" := 100%Z]> ∅).

(** What [requests.get/delete/put] does: answer, or raise a
    [requests.exceptions.RequestException]. *)
Inductive netresult :=
| Response (r : response)
| RequestException (msg : string).

(** Exceptions.  [RateLimitExceededError] is a subclass of
    [GitHubAPIError] with status code 429. *)
Inductive exn :=
| RateLimitExceededError (reset_time : Z) (u : url)
| GitHubAPIError (status : Z) (message : string) (u : url)
| JSONDecodeError
| HTTPError (status : Z)
| OtherException (what : string).

Definition is_GitHubAPIError (e : exn) : bool :=
  match e with
  | RateLimitExceededError _ _ | GitHubAPIError _ _ _ => true
  | _ => false
  end.

Definition is_RateLimitExceededError (e : exn) : bool :=
  match e with RateLimitExceededError _ _ => true | _ => false end.

Definition exn_status_code (e : exn) : option Z :=
  match e with
  | RateLimitExceededError _ _ => Some 429%Z
  | GitHubAPIError s _ _ => Some s
  | _ => None
  end.

Inductive result (A : Type) : Type :=
| Ok (a : A)
| Raise (e : exn).
Arguments Ok {A} a.
Arguments Raise {A} e.

(** ** The platform *)

(** What the interpreter and the C library decide.
    [fromtimestamp_error t] is [None] when
    [datetime.fromtimestamp(t).strftime('%H:%M:%S')] returns, and
    otherwise the class of the exception it raises ([ValueError] for a
    year outside 1 to 9999, [OverflowError] or [OSError] outside the
    range of the C library).  [time.sleep(d)] raises [OverflowError]
    when [d] is more than [sleep_limit]; the pauses of fixed length of
    the program, 30 seconds at most, are below the limit of every
    platform and are not checked. *)
Class platform := {
  fromtimestamp_error : Z -> option string;
  sleep_limit : Q
}.

(** ** Configuration *)

Definition BASE_URL : string := "https://api.github.com".
Definition CACHE_TIMEOUT : Q := 300.
Definition MIN_RATE_LIMIT_THRESHOLD : Z := 100.

(** A dictionary with exactly the keys ["following"] and ["followers"]. *)
Record per_relation (A : Type) : Type := {
  following : A;
  followers : A
}.
Arguments following {A} _.
Arguments followers {A} _.

Inductive event :=
| Slept (d : Q)
| Sent (r : request).

(** The globals of [app.py], the clock, the remote service and the log. *)
Record world (server : Type) : Type := {
  clock : Q;
  rate_limit_remaining : Z;
  rate_limit_reset : Z;
  cache_data : per_relation (list string);
  cache_timestamp : per_relation Q;
  remote : server;
  log : list event
}.
Arguments clock {server} _.
Arguments rate_limit_remaining {server} _.
Arguments rate_limit_reset {server} _.
Arguments cache_data {server} _.
Arguments cache_timestamp {server} _.
Arguments remote {server} _.
Arguments log {server} _.

(** The requests of a log, oldest first. *)
Definition sent (l : list event) : list request :=
  omap (fun e => match e with Sent r => Some r | Slept _ => None end) l.

(** ** Results of the graph operations and of the bulk runs *)

(** Lines 357-362 of [get_account_stats]: the three derived sets. *)
Record snapshot := {
  mutuals : gset string;
  non_mutuals : gset string;
  not_following_back : gset string
}.

Definition relationship_sets (following followers : list string) : snapshot :=
  let following_set : gset string := list_to_set following in
  let followers_set : gset string := list_to_set followers in
  {| mutuals := following_set ∩ followers_set;
     non_mutuals := following_set ∖ followers_set;
     not_following_back := followers_set ∖ following_set |}.

(** The [stats] dictionary; [reset_time] is kept as the time stamp
    that was formatted. *)
Record stats := {
  total_following : nat;
  total_followers : nat;
  stat_mutuals : nat;
  stat_non_mutuals : nat;
  stat_not_following_back : nat;
  profile_info : option (gmap string string);
  rate_limit : Z * Z
}.

Inductive stats_dict :=
| StatsError (e : exn)               (* {"error": str(e)} *)
| Stats (s : stats).

(** One entry of [results]: the fields of the f-string.  [line_index]
    is [Some (i, total)] for the "[i/total]" prefix of a full unfollow. *)
Record line := {
  line_ok : bool;
  line_index : option (nat * nat);
  line_user : string
}.

(** The number of successful entries of [results]. *)
Definition count_ok (results : list line) : nat :=
  length (filter (fun l => line_ok l = true) results).

(** [[u.strip() for u in usernames.split(',') if u.strip()]]. *)
Definition parse_usernames (usernames : string) : list string :=
  strip <$> filter (fun u => nonempty_str (strip u) = true)
              (split_comma usernames).

(** The DELETE requests of an unfollow run over [users]: one per name
    that is not blank, in the order of the list. *)
Definition unfollow_requests (users : list string) : list request :=
  (fun user =>
     wire DELETE (BASE_URL ++ "/user/following/" ++ strip user) None)
    <$> filter (fun user => nonempty_str (strip user) = true) users.

(** The PUT requests of a log, and those of a follow run over [users]. *)
Definition is_PUT (r : request) : bool :=
  match req_method r with PUT => true | _ => false end.

Definition puts (l : list event) : list request :=
  filter (fun r => is_PUT r = true) (sent l).

Definition follow_request (username : string) : request :=
  wire PUT (BASE_URL ++ "/user/following/" ++ strip (lower username)) None.

(** The text returned by a bulk run, by its fields. *)
Inductive report :=
| NoUsernames
| NoValidUsernames
| EveryoneFollowsBack
| ErrorMessage (e : exn)
| Summary (succeeded attempted : nat) (results : list line).

(** ** Further Python helpers and results *)

(** [int(x)] of a float: truncation toward zero. *)
Definition py_int (x : Q) : Z :=
  if Qle_bool 0 x then Qfloor x else Qceiling x.

(** The slice [l[:n]]: the first [n] elements, or for a negative [n]
    all but the last [-n]. *)
Definition py_slice_to {A : Type} (n : Z) (l : list A) : list A :=
  if (0 <=? n)%Z then take (Z.to_nat n) l
  else take (length l - Z.to_nat (- n)) l.

(** [enumerate(l, start)]. *)
Fixpoint enumerate {A : Type} (start : nat) (l : list A) : list (nat * A) :=
  match l with
  | [] => []
  | x :: rest => (start, x) :: enumerate (S start) rest
  end.

(** The text of [dry_run_analysis], by its fields: the statistics
    shown by [format_stats_display], the numbered names listed and the
    number announced by "... and N more users". *)
Inductive preview :=
| PreviewError (e : exn)
| Preview (st : stats) (listed : list (nat * string)) (more : option nat).

(** The text of [follow_back_suggestions], by its fields. *)
Inductive suggestions :=
| SuggestionsError (e : exn)
| NothingToFollowBack
| Suggestions (total : nat) (listed : list (nat * string))
    (more : option nat).

(** One line of [get_cache_status]: [None] for "Not cached", else the
    number of users and the age in whole seconds. *)
Definition cache_line : Type := option (nat * Z).

Section Client.

(** The remote service: any state machine answering requests.  It sees
    the time at which the request is sent and says how long the exchange
    took. *)
Context {server : Type} {py : platform}.
Variable send : server -> Q -> request -> server * Q * netresult.

(** The acting account, [os.getenv("GITHUB_USERNAME")]. *)
Variable USERNAME : string.

Abbreviation world := (world server).

Definition sleep (d : Q) (w : world) : world :=
  {| clock := clock w + d;
     rate_limit_remaining := rate_limit_remaining w;
     rate_limit_reset := rate_limit_reset w;
     cache_data := cache_data w;
     cache_timestamp := cache_timestamp w;
     remote := remote w;
     log := log w ++ [Slept d] |}.

Definition set_rate_limit (remaining reset : Z) (w : world) : world :=
  {| clock := clock w;
     rate_limit_remaining := remaining;
     rate_limit_reset := reset;
     cache_data := cache_data w;
     cache_timestamp := cache_timestamp w;
     remote := remote w;
     log := log w |}.

Definition set_cache (d : per_relation (list string)) (t : per_relation Q)
    (w : world) : world :=
  {| clock := clock w;
     rate_limit_remaining := rate_limit_remaining w;
     rate_limit_reset := rate_limit_reset w;
     cache_data := d;
     cache_timestamp := t;
     remote := remote w;
     log := log w |}.

(** One exchange with the service. *)
Definition exchange (r : request) (w : world) : netresult * world :=
  let '(srv, elapsed, out) := send (remote w) (clock w) r in
  (out,
   {| clock := clock w + elapsed;
      rate_limit_remaining := rate_limit_remaining w;
      rate_limit_reset := rate_limit_reset w;
      cache_data := cache_data w;
      cache_timestamp := cache_timestamp w;
      remote := srv;
      log := log w ++ [Sent r] |}).

(** ** Rate tracker *)

(** [int(response.headers[name])]. *)
Definition int_of_header (h : header_value) : result Z :=
  match h with
  | Int z => Ok z
  | NotInt _ => Raise (OtherException "ValueError")
  end.

(** The two assignments, each made when its header is present, and the
    [print] that formats the reset time held after them. *)
Definition update_rate_limit_info (r : response) (w : world)
  : result unit * world :=
  match from_option int_of_header (Ok (rate_limit_remaining w))
          (x_ratelimit_remaining r) with
  | Raise e => (Raise e, w)
  | Ok remaining =>
      let w := set_rate_limit remaining (rate_limit_reset w) w in
      match from_option int_of_header (Ok (rate_limit_reset w))
              (x_ratelimit_reset r) with
      | Raise e => (Raise e, w)
      | Ok reset =>
          let w := set_rate_limit (rate_limit_remaining w) reset w in
          match fromtimestamp_error (rate_limit_reset w) with
          | Some what => (Raise (OtherException what), w)
          | None => (Ok tt, w)
          end
      end
  end.

Definition calculate_adaptive_delay (w : world) : Q :=
  if (rate_limit_remaining w <=? MIN_RATE_LIMIT_THRESHOLD)%Z then 2
  else if (rate_limit_remaining w <=? 1000)%Z then 1
  else 0.2.

(** ** Request executor *)

Definition is_DELETE (m : method) : bool :=
  match m with DELETE => true | _ => false end.

Definition make_api_request (m : method) (u : url)
    (params : option (gmap string Z)) (w : world) : result response * world :=
  let delay := calculate_adaptive_delay w in
  let w := sleep delay w in
  match exchange (wire m u params) w with
  | (RequestException msg, w) => (Raise (GitHubAPIError 0 msg u), w)
  | (Response r, w) =>
      match update_rate_limit_info r w with
      | (Raise e, w) => (Raise e, w)    (* not a RequestException *)
      | (Ok _, w) =>
          if (status_code r =? 429)%Z then
            match from_option int_of_header (Ok 0%Z) (x_ratelimit_reset r) with
            | Ok reset_time => (Raise (RateLimitExceededError reset_time u), w)
            | Raise e => (Raise e, w)
            end
          else if (400 <=? status_code r)%Z then
            if is_DELETE m && (status_code r =? 404)%Z then (Ok r, w)
            else
              match resp_body r with
              | Empty =>
                  (Raise (GitHubAPIError (status_code r) "No response body" u),
                   w)
              | Object o =>
                  (Raise (GitHubAPIError (status_code r)
                            (default "Unknown error" (o !! "message")) u), w)
              | Malformed why =>
                  (* requests' JSONDecodeError is a RequestException *)
                  (Raise (GitHubAPIError 0 why u), w)
              | Array _ | Text _ | Scalar =>
                  (* [.get] of a list, a string, a number or None *)
                  (Raise (OtherException "AttributeError"), w)
              end
          else (Ok r, w)
      end
  end.

(** The exchange that [make_api_request m u params] makes in world
    [w]: what the service answers, and the world right after it. *)
Definition answer_to (m : method) (u : url) (params : option (gmap string Z))
    (w : world) : netresult * world :=
  exchange (wire m u params) (sleep (calculate_adaptive_delay w) w).

(** ** Paginator *)

(** [response.json()] followed by [results.extend(data)]: a list is
    appended, a dictionary contributes its keys and a string its
    characters (strings, which are no objects), a number, true, false
    or null cannot be iterated. *)
Definition response_json_items (r : response) : result (list item) :=
  match resp_body r with
  | Array items => Ok items
  | Object o => Ok (replicate (size (dom o)) NotObject)
  | Text s => Ok (replicate (String.length s) NotObject)
  | Scalar => Raise (OtherException "TypeError")
  | Empty | Malformed _ => Raise JSONDecodeError
  end.

(** The loop of [get_paginated], from the top of the [while];
    [while current_url:] holds for a non-empty string only. *)
Fixpoint get_paginated_loop (fuel : nat) (current_url : option url)
    (params : gmap string Z) (page_count : nat) (results : list item)
    (w : world) : option (result (list item)) * world :=
  match current_url with
  | Some u =>
      if nonempty_str u then
        match fuel with
        | O => (None, w)
        | S fuel =>
            let page_count := (page_count + 1)%nat in
            match make_api_request GET u
                    (if (page_count =? 1)%nat then Some params else None) w with
            | (Ok response, w) =>
                if negb (status_code response =? 200)%Z
                   && (400 <=? status_code response)%Z
                   && (status_code response <? 600)%Z
                then (Some (Raise (HTTPError (status_code response))), w)
                else
                  match response_json_items response with
                  | Ok data =>
                      get_paginated_loop fuel (next_link response) params
                        page_count (results ++ data) w
                  | Raise e => (Some (Raise e), w)
                  end
            | (Raise (RateLimitExceededError reset_time _), w) =>
                let wait_time := (inject_Z reset_time - clock w + 5)%Q in
                if Qle_bool (py_max 1 wait_time) sleep_limit then
                  let w := sleep (py_max 1 wait_time) w in
                  get_paginated_loop fuel current_url params page_count
                    results w
                else
                  (* raised inside the handler: nothing catches it *)
                  (Some (Raise (OtherException "OverflowError")), w)
            | (Raise e, w) => (Some (Raise e), w)
            end
        end
      else (Some (Ok results), w)
  | None => (Some (Ok results), w)
  end.

Definition get_paginated (fuel : nat) (u : url)
    (params : option (gmap string Z)) (w : world)
  : option (result (list item)) * world :=
  let params := <["per_page" := 100%Z]> (default ∅ params) in
  get_paginated_loop fuel (Some u) params 0 [] w.

(** ** Relationship cache *)

(** [user["login"].strip()]. *)
Definition login_of (user : item) : result string :=
  match user with
  | User login => Ok (strip login)
  | LoginNotString => Raise (OtherException "AttributeError")
  | NoLogin => Raise (OtherException "KeyError")
  | NotObject => Raise (OtherException "TypeError")
  end.

(** [[user["login"].strip() for user in data]]. *)
Fixpoint logins (data : list item) : result (list string) :=
  match data with
  | [] => Ok []
  | user :: rest =>
      match login_of user with
      | Raise e => Raise e
      | Ok l =>
          match logins rest with
          | Ok ls => Ok (l :: ls)
          | Raise e => Raise e
          end
      end
  end.

(** Lines 212-214 and 244-246: the paginated fetch of a relation and
    the extraction of the logins. *)
Definition fetch_logins (fuel : nat) (u : url) (w : world)
  : option (result (list string)) * world :=
  match get_paginated fuel u None w with
  | (None, w) => (None, w)
  | (Some (Ok data), w) => (Some (logins data), w)
  | (Some (Raise e), w) => (Some (Raise e), w)
  end.

Definition get_following (fuel : nat) (force_refresh : bool) (w : world)
  : option (result (list string)) * world :=
  let current_time := clock w in
  if negb force_refresh
     && truthy (following (cache_data w))
     && Qltb (current_time - following (cache_timestamp w)) CACHE_TIMEOUT
  then (Some (Ok (following (cache_data w))), w)
  else
    match fetch_logins fuel (BASE_URL ++ "/user/following") w with
    | (None, w) => (None, w)
    | (Some (Ok following_list), w) =>
        (Some (Ok following_list),
         set_cache
           {| following := following_list;
              followers := followers (cache_data w) |}
           {| following := current_time;
              followers := followers (cache_timestamp w) |}
           w)
    | (Some (Raise e), w) =>
        if truthy (following (cache_data w))
        then (Some (Ok (following (cache_data w))), w)
        else (Some (Raise e), w)
    end.

Definition get_followers (fuel : nat) (force_refresh : bool) (w : world)
  : option (result (list string)) * world :=
  let current_time := clock w in
  if negb force_refresh
     && truthy (followers (cache_data w))
     && Qltb (current_time - followers (cache_timestamp w)) CACHE_TIMEOUT
  then (Some (Ok (followers (cache_data w))), w)
  else
    match fetch_logins fuel (BASE_URL ++ "/user/followers") w with
    | (None, w) => (None, w)
    | (Some (Ok followers_list), w) =>
        (Some (Ok followers_list),
         set_cache
           {| following := following (cache_data w);
              followers := followers_list |}
           {| following := following (cache_timestamp w);
              followers := current_time |}
           w)
    | (Some (Raise e), w) =>
        if truthy (followers (cache_data w))
        then (Some (Ok (followers (cache_data w))), w)
        else (Some (Raise e), w)
    end.

(** ** Graph operations *)

Definition get_user_info (username : string) (w : world)
  : option (gmap string string) * world :=
  let u := BASE_URL ++ "/users/" ++ username in
  match make_api_request GET u None w with
  | (Ok response, w) =>
      if (status_code response =? 200)%Z then
        match resp_body response with
        | Object user_data => (Some user_data, w)
        | _ => (None, w)              (* caught by [except Exception] *)
        end
      else (None, w)
  | (Raise _, w) => (None, w)
  end.

Definition unfollow_user (username : string) (w : world) : bool * world :=
  let username := strip username in
  if negb (nonempty_str username) then (false, w)
  else
    let unfollow_url := BASE_URL ++ "/user/following/" ++ username in
    match make_api_request DELETE unfollow_url None w with
    | (Ok response, w) =>
        if (status_code response =? 204)%Z then (true, w)
        else if (status_code response =? 404)%Z then (true, w)
        else (false, w)
    | (Raise e, w) =>
        if is_GitHubAPIError e then
          if bool_decide (exn_status_code e = Some 404%Z) then (true, w)
          else (false, w)
        else (false, w)
    end.

(** [cache_timestamp["following"] = 0]. *)
Definition invalidate_following (w : world) : world :=
  set_cache (cache_data w)
    {| following := 0%Q; followers := followers (cache_timestamp w) |} w.

Definition follow_user (fuel : nat) (username : string) (w : world)
  : option bool * world :=
  let username := strip (lower username) in
  match get_following fuel false w with
  | (None, w) => (None, w)
  | (Some (Raise _), w) => (Some false, w)
  | (Some (Ok current), w) =>
      if bool_decide (username ∈ current) then (Some true, w)
      else
        let u := BASE_URL ++ "/user/following/" ++ username in
        match make_api_request PUT u None w with
        | (Ok response, w) =>
            if (status_code response =? 204)%Z
            then (Some true, invalidate_following w)
            else (Some false, w)
        | (Raise _, w) => (Some false, w)
        end
  end.

Definition get_account_stats (fuel : nat) (force_refresh : bool) (w : world)
  : option (stats_dict * list string * list string * list string) * world :=
  let failed (e : exn) := Some (StatsError e, [], [], []) in
  match get_following fuel force_refresh w with
  | (None, w) => (None, w)
  | (Some (Raise e), w) => (failed e, w)
  | (Some (Ok following), w) =>
      match get_followers fuel force_refresh w with
      | (None, w) => (None, w)
      | (Some (Raise e), w) => (failed e, w)
      | (Some (Ok followers), w) =>
          let sets := relationship_sets following followers in
          let '(user_info, w) := get_user_info USERNAME w in
          (* line 383: the reset time is formatted inside the [try] *)
          match fromtimestamp_error (rate_limit_reset w) with
          | Some what => (failed (OtherException what), w)
          | None =>
              let stats :=
                {| total_following := length following;
                   total_followers := length followers;
                   stat_mutuals := size (mutuals sets);
                   stat_non_mutuals := size (non_mutuals sets);
                   stat_not_following_back := size (not_following_back sets);
                   profile_info := user_info;
                   rate_limit :=
                     (rate_limit_remaining w, rate_limit_reset w) |} in
              (Some (Stats stats,
                     elements (non_mutuals sets),
                     elements (not_following_back sets),
                     elements (mutuals sets)), w)
          end
      end
  end.

(** ** Bulk runs *)

(** The pause taken every [batch_size] items and at the last item of a
    full unfollow. *)
Definition batch_pause (w : world) : world :=
  if (rate_limit_remaining w <? MIN_RATE_LIMIT_THRESHOLD)%Z then
    let wait_time := py_min 30 (inject_Z (rate_limit_reset w) - clock w) in
    if Qltb 0 wait_time then sleep wait_time w else w
  else w.

(** The [for] loop of [execute_full_unfollow]; [i] is the index of the
    head of [users], counted from 1, and [total] the length of the whole
    list. *)
Fixpoint full_unfollow_loop (total i : nat) (users : list string)
    (results : list line) (successful_unfollows : nat) (w : world)
  : list line * nat * world :=
  match users with
  | [] => (results, successful_unfollows, w)
  | user :: rest =>
      let '(success, w) := unfollow_user user w in
      let successful_unfollows :=
        if success then S successful_unfollows else successful_unfollows in
      let results :=
        (results ++ [{| line_ok := success; line_index := Some (i, total);
                        line_user := user |}])%list in
      let w :=
        if (i mod 10 =? 0)%nat || (i =? total)%nat then batch_pause w else w in
      let w := sleep (calculate_adaptive_delay w) w in
      full_unfollow_loop total (S i) rest results successful_unfollows w
  end.

(** The refresh made after a bulk run when something succeeded. *)
Definition refresh_after (fuel : nat) (successful : nat) (w : world)
  : option (result unit) * world :=
  if (0 <? successful)%nat then
    match get_following fuel true w with
    | (None, w) => (None, w)
    | (Some (Ok _), w) => (Some (Ok tt), w)
    | (Some (Raise e), w) => (Some (Raise e), w)
    end
  else (Some (Ok tt), w).

Definition execute_full_unfollow (fuel : nat) (w : world)
  : option report * world :=
  match get_account_stats fuel false w with
  | (None, w) => (None, w)
  | (Some (StatsError e, _, _, _), w) => (Some (ErrorMessage e), w)
  | (Some (Stats _, non_mutuals, _, _), w) =>
      if negb (truthy non_mutuals) then (Some EveryoneFollowsBack, w)
      else
        let filtered_non_mutuals := non_mutuals in
        let '(results, successful_unfollows, w) :=
          full_unfollow_loop (length filtered_non_mutuals) 1
            filtered_non_mutuals [] 0 w in
        match refresh_after fuel successful_unfollows w with
        | (None, w) => (None, w)
        | (Some (Raise e), w) => (Some (ErrorMessage e), w)
        | (Some (Ok _), w) =>
            (Some (Summary successful_unfollows (length filtered_non_mutuals)
                     results), w)
        end
  end.

(** The [for] loop of [follow_selected_users]. *)
Fixpoint follow_loop (fuel : nat) (user_list : list string)
    (results : list line) (successful_follows : nat) (w : world)
  : option (list line * nat) * world :=
  match user_list with
  | [] => (Some (results, successful_follows), w)
  | username :: rest =>
      match follow_user fuel username w with
      | (None, w) => (None, w)
      | (Some success, w) =>
          let successful_follows :=
            if success then S successful_follows else successful_follows in
          let results :=
            (results ++ [{| line_ok := success; line_index := None;
                            line_user := username |}])%list in
          let w := sleep (calculate_adaptive_delay w) w in
          follow_loop fuel rest results successful_follows w
      end
  end.

Definition follow_selected_users (fuel : nat) (usernames : string) (w : world)
  : option (result report) * world :=
  if negb (nonempty_str usernames) || negb (nonempty_str (strip usernames))
  then (Some (Ok NoUsernames), w)
  else
    let user_list := parse_usernames usernames in
    if negb (truthy user_list) then (Some (Ok NoValidUsernames), w)
    else
      match follow_loop fuel user_list [] 0 w with
      | (None, w) => (None, w)
      | (Some (results, successful_follows), w) =>
          match refresh_after fuel successful_follows w with
          | (None, w) => (None, w)
          | (Some (Raise e), w) => (Some (Raise e), w)
          | (Some (Ok _), w) =>
              (Some (Ok (Summary successful_follows (length user_list)
                           results)), w)
          end
      end.

(** ** Selective unfollow, previews and cache handlers *)

(** The [for] loop of [execute_selective_unfollow]. *)
Fixpoint selective_unfollow_loop (users_to_unfollow : list string)
    (results : list line) (successful_unfollows : nat) (w : world)
  : list line * nat * world :=
  match users_to_unfollow with
  | [] => (results, successful_unfollows, w)
  | user :: rest =>
      let '(success, w) := unfollow_user user w in
      let successful_unfollows :=
        if success then S successful_unfollows else successful_unfollows in
      let results :=
        (results ++ [{| line_ok := success; line_index := None;
                        line_user := user |}])%list in
      let w := sleep (calculate_adaptive_delay w) w in
      selective_unfollow_loop rest results successful_unfollows w
  end.

(** [unfollow_count] arrives from a number field as a float. *)
Definition execute_selective_unfollow (fuel : nat) (unfollow_count : Q)
    (w : world) : option report * world :=
  let unfollow_count := py_int unfollow_count in
  match get_account_stats fuel false w with
  | (None, w) => (None, w)
  | (Some (StatsError e, _, _, _), w) => (Some (ErrorMessage e), w)
  | (Some (Stats _, non_mutuals, _, _), w) =>
      if negb (truthy non_mutuals) then (Some EveryoneFollowsBack, w)
      else
        let users_to_unfollow := py_slice_to unfollow_count non_mutuals in
        let '(results, successful_unfollows, w) :=
          selective_unfollow_loop users_to_unfollow [] 0 w in
        match refresh_after fuel successful_unfollows w with
        | (None, w) => (None, w)
        | (Some (Raise e), w) => (Some (ErrorMessage e), w)
        | (Some (Ok _), w) =>
            (Some (Summary successful_unfollows (length users_to_unfollow)
                     results), w)
        end
  end.

Definition dry_run_analysis (fuel : nat) (force_refresh : bool) (w : world)
  : option preview * world :=
  match get_account_stats fuel force_refresh w with
  | (None, w) => (None, w)
  | (Some (StatsError e, _, _, _), w) => (Some (PreviewError e), w)
  | (Some (Stats st, non_mutuals, _, _), w) =>
      (Some (Preview st
               (enumerate 1 (take 20 non_mutuals))
               (if (20 <? length non_mutuals)%nat
                then Some (length non_mutuals - 20)%nat else None)), w)
  end.

Definition follow_back_suggestions (fuel : nat) (w : world)
  : option suggestions * world :=
  match get_account_stats fuel false w with
  | (None, w) => (None, w)
  | (Some (StatsError e, _, _, _), w) => (Some (SuggestionsError e), w)
  | (Some (Stats _, _, not_following_back, _), w) =>
      if negb (truthy not_following_back) then (Some NothingToFollowBack, w)
      else
        let display_count := Nat.min 30 (length not_following_back) in
        (Some (Suggestions (length not_following_back)
                 (enumerate 1 (take display_count not_following_back))
                 (if (30 <? length not_following_back)%nat
                  then Some (length not_following_back - 30)%nat else None)),
         w)
  end.

Definition get_cache_status (w : world) : cache_line * cache_line :=
  let current_time := clock w in
  let following_age := (current_time - following (cache_timestamp w))%Q in
  let followers_age := (current_time - followers (cache_timestamp w))%Q in
  (if truthy (following (cache_data w))
   then Some (length (following (cache_data w)), py_int following_age)
   else None,
   if truthy (followers (cache_data w))
   then Some (length (followers (cache_data w)), py_int followers_age)
   else None).

Definition clear_cache_handler (w : world)
  : (cache_line * cache_line) * world :=
  let w :=
    set_cache {| following := []; followers := [] |}
      {| following := 0%Q; followers := 0%Q |} w in
  (get_cache_status w, w).

End Client.

Arguments sleep {server} d w.
Arguments set_cache {server} d t w.
Arguments invalidate_following {server} w.
Arguments calculate_adaptive_delay {server} w.
Arguments batch_pause {server} w.
Arguments get_cache_status {server} w.
Arguments clear_cache_handler {server} w.

(** ** A reference platform and reference services *)

(** A platform on which local time is UTC: dates from year 1 to year
    9999, a 64-bit [time_t], and sleeps of up to 2^63 - 1
    nanoseconds. *)
Definition reference_platform : platform :=
  {| fromtimestamp_error t :=
       if (-62135596800 <=? t)%Z && (t <=? 253402300799)%Z then None
       else if (- 2 ^ 63 <=? t)%Z && (t <? 2 ^ 63)%Z then Some "ValueError"
       else Some "OverflowError";
     sleep_limit := 9223372036854775807 # 1000000000 |}.

(** The closed runs below are runs on the reference platform. *)
#[local] Existing Instance reference_platform.

(** State machines to run the client against: a script of answers, a
    list served page by page, an account with a set of followed
    identities, and a service that refuses everything. *)

Definition plain_response (status : Z) (b : body) (next : option url)
  : response :=
  {| status_code := status;
     x_ratelimit_remaining := None;
     x_ratelimit_reset := None;
     resp_body := b;
     next_link := next |}.

Definition throttled_response (reset : Z) : response :=
  {| status_code := 429;
     x_ratelimit_remaining := Some (Int 0);
     x_ratelimit_reset := Some (Int reset);
     resp_body := Empty;
     next_link := None |}.

(** A script: the answers are given in order whatever is asked; when
    the script is over the connection fails. *)
Definition scripted_send (s : list netresult) (now : Q) (r : request)
  : list netresult * Q * netresult :=
  match s with
  | [] => ([], 0%Q, RequestException "connection refused")
  | out :: rest => (rest, 0%Q, out)
  end.

(** A list served in pages.  Each page has its own address, is
    refused with status 429 once for every element of [page_throttle]
    (the reset times announced) and is then served with a link to the
    page after it.  A request for anything but the page in turn is
    answered 404. *)
Record page := {
  page_url : url;
  page_throttle : list Z;
  page_items : list item
}.

Definition is_GET (m : method) : bool :=
  match m with GET => true | _ => false end.

Definition paged_send (s : list page) (now : Q) (r : request)
  : list page * Q * netresult :=
  match s with
  | [] => (s, 0%Q, Response (plain_response 404 Empty None))
  | p :: rest =>
      if is_GET (req_method r) && String.eqb (req_url r) (page_url p) then
        match page_throttle p with
        | reset :: later =>
            ({| page_url := page_url p; page_throttle := later;
                page_items := page_items p |} :: rest,
             0%Q, Response (throttled_response reset))
        | [] =>
            (rest, 0%Q,
             Response (plain_response 200 (Array (page_items p))
                         (page_url <$> head rest)))
        end
      else (s, 0%Q, Response (plain_response 404 Empty None))
  end.

(** The addresses asked of a paged service when every page is asked
    once more than it is refused, and the number of refusals. *)
Definition page_requests (pages : list page) : list url :=
  concat ((fun p => replicate (S (length (page_throttle p))) (page_url p))
            <$> pages).

Definition throttle_count (pages : list page) : nat :=
  sum_list ((fun p => length (page_throttle p)) <$> pages).

(** An account: the set of identities it follows.  DELETE answers 204
    when the identity was followed and 404 when it was not; PUT answers
    204; a GET of the following list serves the set in one page;
    anything else is answered 404. *)
Definition following_prefix : string := BASE_URL ++ "/user/following/".

Definition account_send (s : gset string) (now : Q) (r : request)
  : gset string * Q * netresult :=
  if String.prefix following_prefix (req_url r) then
    let who :=
      String.substring (String.length following_prefix)
        (String.length (req_url r) - String.length following_prefix)
        (req_url r) in
    match req_method r with
    | DELETE =>
        if bool_decide (who ∈ s)
        then (s ∖ {[who]}, 0%Q, Response (plain_response 204 Empty None))
        else (s, 0%Q, Response (plain_response 404 Empty None))
    | PUT => ({[who]} ∪ s, 0%Q, Response (plain_response 204 Empty None))
    | GET => (s, 0%Q, Response (plain_response 404 Empty None))
    end
  else if is_GET (req_method r)
          && String.eqb (req_url r) (BASE_URL ++ "/user/following")
  then (s, 0%Q,
        Response (plain_response 200 (Array (User <$> elements s)) None))
  else (s, 0%Q, Response (plain_response 404 Empty None)).

(** The reset times that a fetch started in [w] can wait for: each can
    be formatted, and the wait for it is one that [time.sleep] takes. *)
Definition waitable {server : Type} {py : platform} (w : world server)
    (resets : list Z) : Prop :=
  Forall (fun reset =>
            fromtimestamp_error reset = None
            /\ (inject_Z reset - clock w + 5 <= sleep_limit)%Q) resets.

(** The state of the module right after import (lines 32-45), at time
    [now] against service [srv]. *)
Definition initial_world {server : Type} (srv : server) (now : Q)
  : world server :=
  {| clock := now;
     rate_limit_remaining := 5000;
     rate_limit_reset := 0;
     cache_data := {| following := []; followers := [] |};
     cache_timestamp := {| following := 0%Q; followers := 0%Q |};
     remote := srv;
     log := [] |}.

(** A world whose only interesting part is the quota. *)
Definition world_with_remaining (remaining : Z) : world unit :=
  set_rate_limit remaining 0 (initial_world tt 0).

(** The requests of a log that change the account: everything that
    is not a GET. *)
Definition writes (l : list event) : list request :=
  filter (fun r => is_GET (req_method r) = false) (sent l).

(** A service that refuses every request with status 429, announcing
    the reset time it holds. *)
Definition refusing_send (reset : Z) (now : Q) (r : request)
  : Z * Q * netresult :=
  (reset, 0%Q, Response (throttled_response reset)).

(** ** Example runs *)

Definition no_content : netresult := Response (plain_response 204 Empty None).

Definition users_page (logins : list string) : netresult :=
  Response (plain_response 200
              (Array (User <$> logins)) None).

Definition server_error (status : Z) : netresult :=
  Response (plain_response status (Object {["message" := "failed"]}) None).

(** Five unfollows, the second answered 500 and the fourth not
    answered at all. *)
Definition five_unfollows : world (list netresult) :=
  initial_world
    [no_content; server_error 500; no_content;
     RequestException "timed out"; no_content]
    1700000000.

(** Five follows by an account that follows "x": the second PUT is
    answered 500 and the fourth 404; the following list is read again
    after each successful PUT and once more at the end. *)
Definition five_follows : world (list netresult) :=
  initial_world
    [users_page ["x"]; no_content;
     users_page ["x"; "u1"]; server_error 500;
     no_content;
     users_page ["x"; "u1"; "u3"]; server_error 404;
     no_content;
     users_page ["x"; "u1"; "u3"; "u5"]]
    1700000000.

(** A full unfollow by "me", who follows "a" and "b" and is followed
    by "b": the two lists, the profile, one DELETE, the refresh. *)
Definition full_unfollow_run : world (list netresult) :=
  initial_world
    [users_page ["a"; "b"]; users_page ["b"];
     Response (plain_response 200 (Object {["name" := "Me"]}) None);
     no_content; users_page ["b"]]
    1700000000.

(** A list of four items served in three pages, the first refused
    once and the third twice. *)
Definition three_pages : list page :=
  [ {| page_url := BASE_URL ++ "/user/following";
       page_throttle := [1700000060%Z];
       page_items := [User "a";
                      User "b"] |};
    {| page_url := BASE_URL ++ "/user/following?page=2";
       page_throttle := [];
       page_items := [User "c"] |};
    {| page_url := BASE_URL ++ "/user/following?page=3";
       page_throttle := [1700000120%Z; 1700000180%Z];
       page_items := [User "d"] |} ].

(** A world with both lists cached at time [stamp], read at time
    [now] against a script. *)
Definition cached_world (following_list followers_list : list string)
    (stamp now : Q) (script : list netresult) : world (list netresult) :=
  set_cache
    {| following := following_list; followers := followers_list |}
    {| following := stamp; followers := stamp |}
    (initial_world script now).

(** An unfollow answered 429; a second attempt would have succeeded. *)
Definition throttled_unfollow : world (list netresult) :=
  initial_world [Response (throttled_response 1700000060); no_content]
    1700000000.

(** A follow right after start-up, by an account that follows "x". *)
Definition cold_follow : world (list netresult) :=
  initial_world [users_page ["x"]; no_content] 1700000000.

(** A follow of "Octocat" one minute after the following list, which
    contains "Octocat", was cached. *)
Definition warm_follow : world (list netresult) :=
  cached_world ["Octocat"] [] 1700000000 1700000060 [no_content].

(** An account that follows nobody: the list is fetched, found empty,
    and then the service fails. *)
Definition empty_then_failure : world (list netresult) :=
  initial_world [users_page []; server_error 500] 1700000000.

(** An account that follows nobody, read twice in a row. *)
Definition empty_twice : world (list netresult) :=
  initial_world [users_page []; users_page []] 1700000000.

(** An account "me" that follows "a" and "b" and is followed by "b"
    and "c": the two lists, the profile, one DELETE, the refresh. *)
Definition mixed_account : world (list netresult) :=
  initial_world
    [users_page ["a"; "b"]; users_page ["b"; "c"];
     Response (plain_response 200 (Object {["name" := "Me"]}) None);
     no_content; users_page ["b"]]
    1700000000.

Definition mixed_stats : stats :=
  {| total_following := 2; total_followers := 2;
     stat_mutuals := 1; stat_non_mutuals := 1;
     stat_not_following_back := 1;
     profile_info := Some {["name" := "Me"]};
     rate_limit := (5000%Z, 0%Z) |}.

(** A refresh that is refused once and waits 405 seconds for the reset
    time before the list is served. *)
Definition slow_refresh : world (list netresult) :=
  initial_world
    [Response (throttled_response 1700000400); users_page ["x"]]
    1700000000.

(** A follow by an account that follows nobody: the list is read and
    found empty, the PUT is answered 204, and the refresh after the run
    is answered 500. *)
Definition lost_summary : world (list netresult) :=
  initial_world [users_page []; no_content; server_error 500] 1700000000.

(** An unfollow answered 204 with a reset time in the year 33658. *)
Definition far_reset_unfollow : world (list netresult) :=
  initial_world
    [Response {| status_code := 204;
                 x_ratelimit_remaining := Some (Int 4999);
                 x_ratelimit_reset := Some (Int 1000000000000);
                 resp_body := Empty;
                 next_link := None |}]
    1700000000.

(** An unfollow answered 204 with a remaining quota that is no
    integer. *)
Definition garbled_quota_unfollow : world (list netresult) :=
  initial_world
    [Response {| status_code := 204;
                 x_ratelimit_remaining := Some (NotInt "many");
                 x_ratelimit_reset := None;
                 resp_body := Empty;
                 next_link := None |}]
    1700000000.

(** An account following "a" and followed by "b" whose profile lookup
    is answered with a reset time far beyond the year 9999. *)
Definition unformattable_stats : world (list netresult) :=
  initial_world
    [users_page ["a"]; users_page ["b"];
     Response {| status_code := 200;
                 x_ratelimit_remaining := Some (Int 4999);
                 x_ratelimit_reset := Some (Int 1000000000000);
                 resp_body := Object {["name" := "Me"]};
                 next_link := None |}]
    1700000000.

(** * Properties *)

Local Open Scope list_scope.

(** ** What the request executor and the paginator leave alone *)

Section ClientFacts.

Context {server : Type} {py : platform}.
Variable send : server -> Q -> request -> server * Q * netresult.

Implicit Types (w : world server) (u : url) (fuel : nat).

Lemma make_api_request_frame m u params w :
  let w' := (make_api_request send m u params w).2 in
  cache_data w' = cache_data w
  ∧ cache_timestamp w' = cache_timestamp w
  ∧ log w' = log w ++ [Slept (calculate_adaptive_delay w); Sent (wire m u params)].
Proof.
  unfold make_api_request, exchange. cbn.
  destruct (send _ _ _) as [[srv elapsed] [r | msg]]; cbn.
  - unfold update_rate_limit_info.
    repeat case_match; simplify_eq; cbn; rewrite <- ?app_assoc; auto.
  - rewrite <- app_assoc; auto.
Qed.

Lemma make_api_request_log m u params w :
  log (make_api_request send m u params w).2
  = log w ++ [Slept (calculate_adaptive_delay w); Sent (wire m u params)].
Proof. apply make_api_request_frame. Qed.

Lemma make_api_request_cache m u params w :
  cache_data (make_api_request send m u params w).2 = cache_data w
  ∧ cache_timestamp (make_api_request send m u params w).2 = cache_timestamp w.
Proof. split; apply make_api_request_frame. Qed.

(** The two ways the loop of the paginator stops at once: without a
    request, and on an error of the request just made that is not a
    rate-limit error. *)
Ltac loop_stops :=
  cbn; split_and!; auto;
  [exists []; rewrite app_nil_r; reflexivity | intros; discriminate].

Ltac loop_raises Hd Ht Hl :=
  cbn; rewrite Hd, Ht, Hl; split_and!; eauto;
  intros ? [= <-]; reflexivity.

(** The loop of the paginator only ever adds to the log, leaves the
    cache alone, and never lets a rate-limit error out. *)
Lemma get_paginated_loop_frame fuel :
  ∀ current_url params page_count results w,
    let out := get_paginated_loop send fuel current_url params page_count results w in
    cache_data out.2 = cache_data w
    ∧ cache_timestamp out.2 = cache_timestamp w
    ∧ (∃ evs, log out.2 = log w ++ evs)
    ∧ (∀ e, out.1 = Some (Raise e) → is_RateLimitExceededError e = false).
Proof.
  induction fuel as [| fuel IH]; intros [u |] params page_count results w;
    cbn zeta; cbn [get_paginated_loop]; try (destruct (nonempty_str u));
    try solve [loop_stops].
  pose proof (make_api_request_frame GET u
    (if (page_count + 1 =? 1)%nat then Some params else None) w) as Hreq.
  cbn zeta in Hreq.
  destruct (make_api_request send GET u _ w) as [[r | e] w1];
    cbn [snd] in Hreq; destruct Hreq as (Hd & Ht & Hl).
  - destruct (negb _ && _ && _); [loop_raises Hd Ht Hl |].
    destruct (response_json_items r) as [data | e] eqn:Hjson.
    + specialize (IH (next_link r) params (page_count + 1)%nat
                     (results ++ data) w1).
      cbn zeta in IH. destruct IH as (IHd & IHt & [evs IHl] & IHe).
      rewrite IHd, IHt, IHl, Hd, Ht, Hl. split_and!; auto.
      rewrite <- app_assoc. eauto.
    + cbn. rewrite Hd, Ht, Hl. split_and!; eauto.
      intros e' [= <-]. unfold response_json_items in Hjson.
      destruct (resp_body r); try discriminate;
        injection Hjson as <-; reflexivity.
  - destruct e as [reset u' | | | |]; try solve [loop_raises Hd Ht Hl].
    destruct (Qle_bool _ sleep_limit); [| loop_raises Hd Ht Hl].
    specialize (IH (Some u) params (page_count + 1)%nat results
      (sleep (py_max 1 (inject_Z reset - clock w1 + 5)) w1)).
    cbn zeta in IH. destruct IH as (IHd & IHt & [evs IHl] & IHe).
    rewrite IHd, IHt, IHl. cbn. rewrite Hd, Ht, Hl. split_and!; auto.
    rewrite <- !app_assoc. eauto.
Qed.

Lemma get_paginated_loop_first fuel u params page_count results w :
  nonempty_str u = true →
  ∃ evs,
    log (get_paginated_loop send (S fuel) (Some u) params page_count results w).2
    = log w ++ Slept (calculate_adaptive_delay w)
        :: Sent (wire GET u (if (page_count + 1 =? 1)%nat then Some params
                             else None))
        :: evs.
Proof.
  intros Hu. cbn [get_paginated_loop]. rewrite Hu.
  pose proof (make_api_request_log GET u
    (if (page_count + 1 =? 1)%nat then Some params else None) w) as Hl.
  destruct (make_api_request send GET u _ w) as [[r | e] w1]; cbn [snd] in Hl.
  - destruct (negb _ && _ && _); [exists []; exact Hl |].
    destruct (response_json_items r) as [data | e]; [| exists []; exact Hl].
    destruct (get_paginated_loop_frame fuel (next_link r) params
                (page_count + 1)%nat (results ++ data) w1) as (_ & _ & [evs He] & _).
    exists evs. rewrite He, Hl, <- app_assoc. reflexivity.
  - destruct e as [reset u' | | | |]; try (exists []; exact Hl).
    destruct (Qle_bool _ sleep_limit); [| exists []; exact Hl].
    destruct (get_paginated_loop_frame fuel (Some u) params
                (page_count + 1)%nat results
                (sleep (py_max 1 (inject_Z reset - clock w1 + 5)) w1))
      as (_ & _ & [evs He] & _).
    exists (Slept (py_max 1 (inject_Z reset - clock w1 + 5)) :: evs).
    rewrite He. cbn. rewrite Hl, <- !app_assoc. reflexivity.
Qed.

Lemma get_paginated_frame fuel u w :
  let out := get_paginated send fuel u None w in
  cache_data out.2 = cache_data w
  ∧ cache_timestamp out.2 = cache_timestamp w
  ∧ (∃ evs, log out.2 = log w ++ evs)
  ∧ (∀ e, out.1 = Some (Raise e) → is_RateLimitExceededError e = false).
Proof. apply get_paginated_loop_frame. Qed.

Lemma get_paginated_first fuel u w :
  nonempty_str u = true →
  ∃ evs,
    log (get_paginated send (S fuel) u None w).2
    = log w ++ Slept (calculate_adaptive_delay w)
        :: Sent (wire GET u first_page_params) :: evs.
Proof. intros Hu. apply (get_paginated_loop_first fuel u _ 0 [] w Hu). Qed.

Lemma fetch_logins_world fuel u w :
  (fetch_logins send fuel u w).2 = (get_paginated send fuel u None w).2.
Proof.
  unfold fetch_logins.
  destruct (get_paginated send fuel u None w) as [[[data | e] |] w1]; reflexivity.
Qed.

Lemma fetch_logins_frame fuel u w :
  cache_data (fetch_logins send fuel u w).2 = cache_data w
  ∧ cache_timestamp (fetch_logins send fuel u w).2 = cache_timestamp w.
Proof.
  rewrite fetch_logins_world. split; apply get_paginated_frame.
Qed.

(** ** The adaptive delay *)

(** C8.  [calculate_adaptive_delay] returns 2 seconds (at least 2) when
    the remaining quota is at most 100, 1 second when it is above 100
    and at most 1000, and 0.2 seconds above 1000; the delay never
    increases when the quota increases, and at the thresholds 100 and
    1000 the longer delay is taken. *)
Theorem calculate_adaptive_delay_steps w w' :
  ((rate_limit_remaining w <= 100)%Z →
     calculate_adaptive_delay w = 2%Q ∧ (2 <= calculate_adaptive_delay w)%Q)
  ∧ ((100 < rate_limit_remaining w <= 1000)%Z →
     calculate_adaptive_delay w = 1%Q)
  ∧ ((1000 < rate_limit_remaining w)%Z →
     calculate_adaptive_delay w = 0.2%Q)
  ∧ ((rate_limit_remaining w <= rate_limit_remaining w')%Z →
     (calculate_adaptive_delay w' <= calculate_adaptive_delay w)%Q).
Proof.
  unfold calculate_adaptive_delay, MIN_RATE_LIMIT_THRESHOLD.
  split_and!.
  - intros H. apply Z.leb_le in H. rewrite H. split; [reflexivity | apply Qle_refl].
  - intros [H1 H2]. apply Z.leb_gt in H1. apply Z.leb_le in H2.
    rewrite H1, H2. reflexivity.
  - intros H. assert ((rate_limit_remaining w <=? 100)%Z = false) as ->
      by (apply Z.leb_gt; lia).
    assert ((rate_limit_remaining w <=? 1000)%Z = false) as ->
      by (apply Z.leb_gt; lia).
    reflexivity.
  - intros H.
    destruct (Z.leb_spec (rate_limit_remaining w) 100),
             (Z.leb_spec (rate_limit_remaining w) 1000),
             (Z.leb_spec (rate_limit_remaining w') 100),
             (Z.leb_spec (rate_limit_remaining w') 1000);
      try lia; try apply Qle_refl; unfold Qle; cbn; lia.
Qed.

(** ** The relationship cache *)

Lemma Qltb_lt (a b : Q) : Qltb a b = true ↔ (a < b)%Q.
Proof.
  unfold Qltb. rewrite negb_true_iff. split.
  - intros H. apply Qnot_le_lt. intros Hle.
    apply Qle_bool_iff in Hle. congruence.
  - intros H. destruct (Qle_bool b a) eqn:E; [| reflexivity].
    apply Qle_bool_iff in E. exfalso. exact (Qlt_not_le _ _ H E).
Qed.

Lemma Qltb_ge (a b : Q) : Qltb a b = false ↔ (b <= a)%Q.
Proof.
  unfold Qltb. rewrite negb_false_iff. apply Qle_bool_iff.
Qed.

Lemma truthy_true {A : Type} (l : list A) : truthy l = true ↔ l ≠ [].
Proof. destruct l; cbn; split; congruence. Qed.

(** A read is served from the cache exactly when it is not forced, the
    stored list is not empty and its age is below the timeout. *)
Lemma get_following_hit fuel w :
  following (cache_data w) ≠ [] →
  (clock w - following (cache_timestamp w) < CACHE_TIMEOUT)%Q →
  get_following send fuel false w = (Some (Ok (following (cache_data w))), w).
Proof.
  intros Hne Hage. unfold get_following.
  apply truthy_true in Hne. apply Qltb_lt in Hage. rewrite Hne, Hage.
  reflexivity.
Qed.

Lemma get_followers_hit fuel w :
  followers (cache_data w) ≠ [] →
  (clock w - followers (cache_timestamp w) < CACHE_TIMEOUT)%Q →
  get_followers send fuel false w = (Some (Ok (followers (cache_data w))), w).
Proof.
  intros Hne Hage. unfold get_followers.
  apply truthy_true in Hne. apply Qltb_lt in Hage. rewrite Hne, Hage.
  reflexivity.
Qed.

(** Otherwise the relation is fetched once, and what happens next
    depends on the outcome of that fetch. *)
Lemma get_following_miss fuel force w :
  force = true ∨ following (cache_data w) = []
  ∨ (CACHE_TIMEOUT <= clock w - following (cache_timestamp w))%Q →
  get_following send fuel force w
  = match fetch_logins send fuel (BASE_URL ++ "/user/following")%string w with
    | (None, w1) => (None, w1)
    | (Some (Ok l), w1) =>
        (Some (Ok l),
         set_cache {| following := l; followers := followers (cache_data w1) |}
           {| following := clock w;
              followers := followers (cache_timestamp w1) |} w1)
    | (Some (Raise e), w1) =>
        if truthy (following (cache_data w1))
        then (Some (Ok (following (cache_data w1))), w1)
        else (Some (Raise e), w1)
    end.
Proof.
  intros H. unfold get_following.
  assert (negb force && truthy (following (cache_data w))
          && Qltb (clock w - following (cache_timestamp w)) CACHE_TIMEOUT
          = false) as ->; [| reflexivity].
  destruct H as [-> | [-> | H]]; [reflexivity | |].
  - cbn. rewrite andb_false_r. reflexivity.
  - apply Qltb_ge in H. rewrite H. apply andb_false_r.
Qed.

Lemma get_followers_miss fuel force w :
  force = true ∨ followers (cache_data w) = []
  ∨ (CACHE_TIMEOUT <= clock w - followers (cache_timestamp w))%Q →
  get_followers send fuel force w
  = match fetch_logins send fuel (BASE_URL ++ "/user/followers")%string w with
    | (None, w1) => (None, w1)
    | (Some (Ok l), w1) =>
        (Some (Ok l),
         set_cache {| following := following (cache_data w1); followers := l |}
           {| following := following (cache_timestamp w1);
              followers := clock w |} w1)
    | (Some (Raise e), w1) =>
        if truthy (followers (cache_data w1))
        then (Some (Ok (followers (cache_data w1))), w1)
        else (Some (Raise e), w1)
    end.
Proof.
  intros H. unfold get_followers.
  assert (negb force && truthy (followers (cache_data w))
          && Qltb (clock w - followers (cache_timestamp w)) CACHE_TIMEOUT
          = false) as ->; [| reflexivity].
  destruct H as [-> | [-> | H]]; [reflexivity | |].
  - cbn. rewrite andb_false_r. reflexivity.
  - apply Qltb_ge in H. rewrite H. apply andb_false_r.
Qed.

(** The network activity of a read that misses the cache is that of
    one paginated fetch of the relation, which starts by asking for its
    first page. *)
Lemma get_following_miss_net fuel force w :
  force = true ∨ following (cache_data w) = []
  ∨ (CACHE_TIMEOUT <= clock w - following (cache_timestamp w))%Q →
  let out := get_following send (S fuel) force w in
  let fetch :=
    get_paginated send (S fuel) (BASE_URL ++ "/user/following")%string None w in
  log out.2 = log fetch.2
  ∧ remote out.2 = remote fetch.2
  ∧ ∃ evs, log out.2
           = log w ++ Slept (calculate_adaptive_delay w)
               :: Sent (wire GET (BASE_URL ++ "/user/following")%string
                          first_page_params) :: evs.
Proof.
  intros H. cbn zeta. rewrite (get_following_miss _ _ _ H).
  pose proof (get_paginated_first fuel (BASE_URL ++ "/user/following")%string w
                eq_refl) as Hfirst.
  rewrite <- !fetch_logins_world. rewrite <- fetch_logins_world in Hfirst.
  destruct (fetch_logins send (S fuel) _ w) as [[[l | e] |] w1];
    [| destruct (truthy _) |]; cbn in *; auto.
Qed.

Lemma get_followers_miss_net fuel force w :
  force = true ∨ followers (cache_data w) = []
  ∨ (CACHE_TIMEOUT <= clock w - followers (cache_timestamp w))%Q →
  let out := get_followers send (S fuel) force w in
  let fetch :=
    get_paginated send (S fuel) (BASE_URL ++ "/user/followers")%string None w in
  log out.2 = log fetch.2
  ∧ remote out.2 = remote fetch.2
  ∧ ∃ evs, log out.2
           = log w ++ Slept (calculate_adaptive_delay w)
               :: Sent (wire GET (BASE_URL ++ "/user/followers")%string
                          first_page_params) :: evs.
Proof.
  intros H. cbn zeta. rewrite (get_followers_miss _ _ _ H).
  pose proof (get_paginated_first fuel (BASE_URL ++ "/user/followers")%string w
                eq_refl) as Hfirst.
  rewrite <- !fetch_logins_world. rewrite <- fetch_logins_world in Hfirst.
  destruct (fetch_logins send (S fuel) _ w) as [[[l | e] |] w1];
    [| destruct (truthy _) |]; cbn in *; auto.
Qed.

(** C6 (as amended).  For a non-forced read of a relation: when the
    stored list is not empty and its age [now - fetchedAt] is strictly
    below the timeout, the stored list is returned and the world is
    left as it was (no request is sent); when the age has reached the
    timeout, the read performs exactly one paginated fetch of the
    relation, which begins with a GET of its first page. *)
Theorem cache_ttl_read fuel w :
  (following (cache_data w) ≠ [] →
   (clock w - following (cache_timestamp w) < CACHE_TIMEOUT)%Q →
   get_following send fuel false w
   = (Some (Ok (following (cache_data w))), w))
  ∧ (followers (cache_data w) ≠ [] →
     (clock w - followers (cache_timestamp w) < CACHE_TIMEOUT)%Q →
     get_followers send fuel false w
     = (Some (Ok (followers (cache_data w))), w))
  ∧ ((CACHE_TIMEOUT <= clock w - following (cache_timestamp w))%Q →
     let out := get_following send (S fuel) false w in
     let fetch :=
       get_paginated send (S fuel) (BASE_URL ++ "/user/following")%string
         None w in
     log out.2 = log fetch.2
     ∧ remote out.2 = remote fetch.2
     ∧ ∃ evs, log out.2
              = log w ++ Slept (calculate_adaptive_delay w)
                  :: Sent (wire GET (BASE_URL ++ "/user/following")%string
                             first_page_params) :: evs)
  ∧ ((CACHE_TIMEOUT <= clock w - followers (cache_timestamp w))%Q →
     let out := get_followers send (S fuel) false w in
     let fetch :=
       get_paginated send (S fuel) (BASE_URL ++ "/user/followers")%string
         None w in
     log out.2 = log fetch.2
     ∧ remote out.2 = remote fetch.2
     ∧ ∃ evs, log out.2
              = log w ++ Slept (calculate_adaptive_delay w)
                  :: Sent (wire GET (BASE_URL ++ "/user/followers")%string
                             first_page_params) :: evs).
Proof.
  split_and!.
  - apply get_following_hit.
  - apply get_followers_hit.
  - intros H. apply get_following_miss_net. auto.
  - intros H. apply get_followers_miss_net. auto.
Qed.

(** C10.  An empty stored list is never a cache hit: a non-forced read
    of a relation whose stored list is empty sends the request for the
    first page of the relation, whatever the time stamp is; a non-empty
    list younger than the timeout is returned without any request. *)
Theorem empty_list_is_never_a_hit fuel w :
  (following (cache_data w) = [] →
   ∃ evs, log (get_following send (S fuel) false w).2
          = log w ++ Slept (calculate_adaptive_delay w)
              :: Sent (wire GET (BASE_URL ++ "/user/following")%string
                         first_page_params) :: evs)
  ∧ (followers (cache_data w) = [] →
     ∃ evs, log (get_followers send (S fuel) false w).2
            = log w ++ Slept (calculate_adaptive_delay w)
                :: Sent (wire GET (BASE_URL ++ "/user/followers")%string
                           first_page_params) :: evs)
  ∧ (following (cache_data w) ≠ [] →
     (clock w - following (cache_timestamp w) < CACHE_TIMEOUT)%Q →
     (get_following send fuel false w).1 = Some (Ok (following (cache_data w)))
     ∧ log (get_following send fuel false w).2 = log w)
  ∧ (followers (cache_data w) ≠ [] →
     (clock w - followers (cache_timestamp w) < CACHE_TIMEOUT)%Q →
     (get_followers send fuel false w).1 = Some (Ok (followers (cache_data w)))
     ∧ log (get_followers send fuel false w).2 = log w).
Proof.
  split_and!.
  - intros H. apply get_following_miss_net. auto.
  - intros H. apply get_followers_miss_net. auto.
  - intros Hne Hage. rewrite get_following_hit by assumption. auto.
  - intros Hne Hage. rewrite get_followers_hit by assumption. auto.
Qed.

(** C5 (as amended).  When a read refreshes a relation and the refresh
    fails with error [e]: if the stored list is not empty (expired or
    not) it is returned and no error is raised; if the stored list is
    empty the error [e] is raised.  The failed refresh leaves the cache
    as it was. *)
Theorem stale_fallback fuel force w :
  (∀ e w1,
     force = true ∨ following (cache_data w) = []
     ∨ (CACHE_TIMEOUT <= clock w - following (cache_timestamp w))%Q →
     fetch_logins send fuel (BASE_URL ++ "/user/following")%string w
     = (Some (Raise e), w1) →
     cache_data w1 = cache_data w
     ∧ cache_timestamp w1 = cache_timestamp w
     ∧ (following (cache_data w) ≠ [] →
        get_following send fuel force w
        = (Some (Ok (following (cache_data w))), w1))
     ∧ (following (cache_data w) = [] →
        get_following send fuel force w = (Some (Raise e), w1)))
  ∧ (∀ e w1,
       force = true ∨ followers (cache_data w) = []
       ∨ (CACHE_TIMEOUT <= clock w - followers (cache_timestamp w))%Q →
       fetch_logins send fuel (BASE_URL ++ "/user/followers")%string w
       = (Some (Raise e), w1) →
       cache_data w1 = cache_data w
       ∧ cache_timestamp w1 = cache_timestamp w
       ∧ (followers (cache_data w) ≠ [] →
          get_followers send fuel force w
          = (Some (Ok (followers (cache_data w))), w1))
       ∧ (followers (cache_data w) = [] →
          get_followers send fuel force w = (Some (Raise e), w1))).
Proof.
  split; intros e w1 Hmiss Hfetch.
  - destruct (fetch_logins_frame fuel (BASE_URL ++ "/user/following")%string w)
      as [Hd Ht].
    rewrite Hfetch in Hd, Ht. cbn in Hd, Ht.
    rewrite (get_following_miss _ _ _ Hmiss), Hfetch, Hd.
    split_and!; auto.
    + intros Hne. apply truthy_true in Hne. rewrite Hne. reflexivity.
    + intros ->. reflexivity.
  - destruct (fetch_logins_frame fuel (BASE_URL ++ "/user/followers")%string w)
      as [Hd Ht].
    rewrite Hfetch in Hd, Ht. cbn in Hd, Ht.
    rewrite (get_followers_miss _ _ _ Hmiss), Hfetch, Hd.
    split_and!; auto.
    + intros Hne. apply truthy_true in Hne. rewrite Hne. reflexivity.
    + intros ->. reflexivity.
Qed.

(** ** Rate-limit responses *)

Lemma py_max_wait (reset now : Q) :
  (1 <= py_max 1 (reset - now + 5))%Q
  ∧ (reset + 5 <= now + py_max 1 (reset - now + 5))%Q.
Proof.
  unfold py_max. destruct (Qltb 1 (reset - now + 5)) eqn:E.
  - apply Qltb_lt in E. split; lra.
  - apply Qltb_ge in E. split; lra.
Qed.

(** The rate tracker changes nothing but the two quota variables,
    whether it raises or not. *)
Lemma update_rate_limit_info_frame (r : response) w :
  let w' := (update_rate_limit_info r w).2 in
  clock w' = clock w
  ∧ cache_data w' = cache_data w
  ∧ cache_timestamp w' = cache_timestamp w
  ∧ remote w' = remote w
  ∧ log w' = log w.
Proof.
  unfold update_rate_limit_info.
  repeat case_match; cbn; auto.
Qed.

(** When the rate tracker returns, both headers were absent or
    integers, the quota variables hold their values (the old value for
    an absent header), and the reset time could be formatted. *)
Lemma update_rate_limit_info_ok (r : response) w :
  (update_rate_limit_info r w).1 = Ok tt →
  ∃ remaining reset,
    from_option int_of_header (Ok (rate_limit_remaining w))
      (x_ratelimit_remaining r) = Ok remaining
    ∧ from_option int_of_header (Ok (rate_limit_reset w))
        (x_ratelimit_reset r) = Ok reset
    ∧ fromtimestamp_error reset = None
    ∧ (update_rate_limit_info r w).2 = set_rate_limit remaining reset w.
Proof.
  unfold update_rate_limit_info.
  destruct (from_option int_of_header _ (x_ratelimit_remaining r))
    as [remaining | e]; [| discriminate].
  cbn [rate_limit_reset set_rate_limit].
  destruct (from_option int_of_header _ (x_ratelimit_reset r))
    as [reset | e]; [| discriminate].
  cbn [rate_limit_reset set_rate_limit].
  destruct (fromtimestamp_error reset) eqn:E; [discriminate |].
  intros _. exists remaining, reset. auto.
Qed.

(** What the rate tracker raises is a built-in exception. *)
Lemma update_rate_limit_info_raises (r : response) w e :
  (update_rate_limit_info r w).1 = Raise e → ∃ what, e = OtherException what.
Proof.
  unfold update_rate_limit_info.
  destruct (x_ratelimit_remaining r) as [[z | text] |];
    destruct (x_ratelimit_reset r) as [[z' | text'] |]; cbn;
    try destruct (fromtimestamp_error _); cbn;
    intros [= <-]; eauto.
Qed.

(** The service is in the state in which the exchange left it. *)
Lemma make_api_request_remote m u params w :
  remote (make_api_request send m u params w).2
  = remote (answer_to send m u params w).2.
Proof.
  unfold make_api_request, answer_to. cbn zeta.
  destruct (exchange send _ _) as [[r | msg] w1]; cbn [fst snd];
    [| reflexivity].
  pose proof (update_rate_limit_info_frame r w1) as (_ & _ & _ & Hr & _).
  destruct (update_rate_limit_info r w1) as [[[] | e] w2]; cbn [fst snd] in *;
    [| exact Hr].
  repeat case_match; exact Hr.
Qed.

(** An exception of the rate tracker leaves the request executor as it
    is, whatever the status of the answer. *)
Lemma make_api_request_tracker_raises m u params w r e :
  (answer_to send m u params w).1 = Response r →
  (update_rate_limit_info r (answer_to send m u params w).2).1 = Raise e →
  make_api_request send m u params w
  = (Raise e, (update_rate_limit_info r (answer_to send m u params w).2).2).
Proof.
  unfold answer_to, make_api_request. cbn zeta.
  destruct (exchange send _ _) as [[r' | msg] w1]; cbn [fst snd];
    [| discriminate].
  intros [= ->].
  destruct (update_rate_limit_info r w1) as [[[] | e'] w2]; cbn [fst snd];
    [discriminate |].
  intros [= ->]. reflexivity.
Qed.

(** What the request executor does with an answer that the rate
    tracker has accepted. *)
Lemma make_api_request_tracked m u params w r :
  (answer_to send m u params w).1 = Response r →
  (update_rate_limit_info r (answer_to send m u params w).2).1 = Ok tt →
  make_api_request send m u params w
  = (let w1 := (update_rate_limit_info r (answer_to send m u params w).2).2 in
     if (status_code r =? 429)%Z then
       match from_option int_of_header (Ok 0%Z) (x_ratelimit_reset r) with
       | Ok reset_time => (Raise (RateLimitExceededError reset_time u), w1)
       | Raise e => (Raise e, w1)
       end
     else if (400 <=? status_code r)%Z then
       if is_DELETE m && (status_code r =? 404)%Z then (Ok r, w1)
       else
         match resp_body r with
         | Empty =>
             (Raise (GitHubAPIError (status_code r) "No response body" u), w1)
         | Object o =>
             (Raise (GitHubAPIError (status_code r)
                       (default "Unknown error" (o !! "message")) u), w1)
         | Malformed why => (Raise (GitHubAPIError 0 why u), w1)
         | Array _ | Text _ | Scalar =>
             (Raise (OtherException "AttributeError"), w1)
         end
     else (Ok r, w1)).
Proof.
  unfold answer_to, make_api_request. cbn zeta.
  destruct (exchange send _ _) as [[r' | msg] w1]; cbn [fst snd];
    [| discriminate].
  intros [= ->].
  destruct (update_rate_limit_info r w1) as [[[] | e'] w2]; cbn [fst snd];
    [| discriminate].
  intros _. reflexivity.
Qed.

(** A 429 answer that the rate tracker has accepted makes the request
    executor raise the rate-limit error, with the reset time of the
    answer (0 when the header is missing). *)
Lemma make_api_request_429 m u params w r reset :
  (answer_to send m u params w).1 = Response r →
  status_code r = 429%Z →
  (update_rate_limit_info r (answer_to send m u params w).2).1 = Ok tt →
  from_option int_of_header (Ok 0%Z) (x_ratelimit_reset r) = Ok reset →
  make_api_request send m u params w
  = (Raise (RateLimitExceededError reset u),
     (update_rate_limit_info r (answer_to send m u params w).2).2).
Proof.
  intros Hanswer H429 Htrack Hreset.
  rewrite (make_api_request_tracked m u params w r Hanswer Htrack).
  cbn zeta. rewrite H429, Hreset. reflexivity.
Qed.

(** Whatever the rate tracker does with it, a 429 answer makes the
    request executor raise, and what it raises has no status 404. *)
Lemma make_api_request_429_raises m u params w r :
  (answer_to send m u params w).1 = Response r →
  status_code r = 429%Z →
  ∃ e, (make_api_request send m u params w).1 = Raise e
       ∧ exn_status_code e ≠ Some 404%Z.
Proof.
  intros Hanswer H429.
  destruct (update_rate_limit_info r (answer_to send m u params w).2)
    as [[[] | e] w1] eqn:Htrack.
  - rewrite (make_api_request_tracked m u params w r Hanswer)
      by (rewrite Htrack; reflexivity).
    cbn zeta. rewrite H429. cbn [Z.eqb Pos.eqb].
    destruct (from_option int_of_header _ _) as [reset | e] eqn:Hreset.
    + eexists. split; [reflexivity | discriminate].
    + exists e. split; [reflexivity |].
      destruct (x_ratelimit_reset r) as [[z | text] |]; cbn in Hreset;
        try discriminate; injection Hreset as <-; discriminate.
  - pose proof (update_rate_limit_info_raises r
                  (answer_to send m u params w).2 e) as Hother.
    rewrite (make_api_request_tracker_raises m u params w r e Hanswer)
      by (rewrite Htrack; reflexivity).
    exists e. split; [reflexivity |].
    destruct Hother as [what ->]; [rewrite Htrack; reflexivity |].
    discriminate.
Qed.

(** C2 (as amended).  Only the paginated fetch recovers from a 429.
    [get_paginated] never raises a rate-limit error; when a page request
    is answered 429, the rate tracker has taken the answer in and the
    wait is one that [time.sleep] accepts, it sleeps
    [max(1, reset - now + 5)] seconds, which ends no earlier than 5
    seconds after the reset time, and then asks for the same page again:
    a GET to the same address, which from the second page on is the
    very request that was refused.  [unfollow_user], [follow_user] and
    [get_user_info] do not retry: a 429 answer to their single request
    makes them return failure ([False], [False], [None]). *)
Theorem rate_limit_recovery :
  (∀ fuel u params w e,
     (get_paginated send fuel u params w).1 = Some (Raise e) →
     is_RateLimitExceededError e = false)
  ∧ (∀ fuel u params page_count results w r reset,
       nonempty_str u = true →
       let asked := if (page_count + 1 =? 1)%nat then Some params else None in
       (answer_to send GET u asked w).1 = Response r →
       status_code r = 429%Z →
       (update_rate_limit_info r (answer_to send GET u asked w).2).1 = Ok tt →
       from_option int_of_header (Ok 0%Z) (x_ratelimit_reset r) = Ok reset →
       let w1 :=
         (update_rate_limit_info r (answer_to send GET u asked w).2).2 in
       let wait := py_max 1 (inject_Z reset - clock w1 + 5) in
       (wait <= sleep_limit)%Q →
       (1 <= wait)%Q
       ∧ (inject_Z reset + 5 <= clock (sleep wait w1))%Q
       ∧ get_paginated_loop send (S (S fuel)) (Some u) params page_count
           results w
         = get_paginated_loop send (S fuel) (Some u) params (page_count + 1)
             results (sleep wait w1)
       ∧ ∃ retry evs,
           log (get_paginated_loop send (S (S fuel)) (Some u) params
                  page_count results w).2
           = log w ++ Slept (calculate_adaptive_delay w)
               :: Sent (wire GET u asked)
               :: Slept wait
               :: Slept (calculate_adaptive_delay (sleep wait w1))
               :: Sent retry :: evs
           ∧ req_method retry = GET
           ∧ req_url retry = u
           ∧ (page_count ≠ 0%nat → retry = wire GET u asked))
  ∧ (∀ username w r,
       nonempty_str (strip username) = true →
       let u := (BASE_URL ++ "/user/following/" ++ strip username)%string in
       (answer_to send DELETE u None w).1 = Response r →
       status_code r = 429%Z →
       (unfollow_user send username w).1 = false
       ∧ sent (log (unfollow_user send username w).2)
         = sent (log w) ++ [wire DELETE u None])
  ∧ (∀ fuel username w current w0 r,
       get_following send fuel false w = (Some (Ok current), w0) →
       strip (lower username) ∉ current →
       let u :=
         (BASE_URL ++ "/user/following/" ++ strip (lower username))%string in
       (answer_to send PUT u None w0).1 = Response r →
       status_code r = 429%Z →
       (follow_user send fuel username w).1 = Some false
       ∧ sent (log (follow_user send fuel username w).2)
         = sent (log w0) ++ [wire PUT u None])
  ∧ (∀ username w r,
       let u := (BASE_URL ++ "/users/" ++ username)%string in
       (answer_to send GET u None w).1 = Response r →
       status_code r = 429%Z →
       (get_user_info send username w).1 = None
       ∧ sent (log (get_user_info send username w).2)
         = sent (log w) ++ [wire GET u None]).
Proof.
  split_and!.
  - intros fuel u params w e. unfold get_paginated.
    apply get_paginated_loop_frame.
  - intros fuel u params page_count results w r reset Hu asked Hanswer H429
      Htrack Hreset w1 wait Hwait.
    pose proof (make_api_request_429 GET u asked w r reset Hanswer H429
                  Htrack Hreset) as Hreq.
    fold w1 in Hreq.
    pose proof (make_api_request_log GET u asked w) as Hlog.
    rewrite Hreq in Hlog. cbn [snd] in Hlog.
    destruct (py_max_wait (inject_Z reset) (clock w1)) as [H1 H2].
    assert (get_paginated_loop send (S (S fuel)) (Some u) params page_count
              results w
            = get_paginated_loop send (S fuel) (Some u) params (page_count + 1)
                results (sleep wait w1))
      as Hstep.
    { cbn [get_paginated_loop]. rewrite Hu. fold asked. rewrite Hreq.
      fold wait. apply Qle_bool_iff in Hwait. rewrite Hwait. reflexivity. }
    split_and!; auto.
    rewrite Hstep.
    destruct (get_paginated_loop_first fuel u params (page_count + 1) results
                (sleep wait w1) Hu)
      as [evs Hevs].
    exists (wire GET u None), evs. rewrite Hevs. cbn [log sleep].
    replace (page_count + 1 + 1 =? 1)%nat with false
      by (symmetry; apply Nat.eqb_neq; lia).
    rewrite Hlog, <- !app_assoc. split_and!; try reflexivity.
    intros Hpage. unfold asked.
    replace (page_count + 1 =? 1)%nat with false
      by (symmetry; apply Nat.eqb_neq; lia).
    reflexivity.
  - intros username w r Hname u Hanswer H429.
    destruct (make_api_request_429_raises DELETE u None w r Hanswer H429)
      as (e & Hreq & Hstatus).
    pose proof (make_api_request_log DELETE u None w) as Hl.
    assert (unfollow_user send username w
            = (false, (make_api_request send DELETE u None w).2)) as ->.
    { unfold unfollow_user. rewrite Hname. cbn [negb]. fold u.
      destruct (make_api_request send DELETE u None w) as [res w1].
      cbn [fst] in Hreq. subst res. cbn [snd].
      destruct (is_GitHubAPIError e); [| reflexivity].
      rewrite bool_decide_eq_false_2 by assumption. reflexivity. }
    cbn [fst snd]. split; [reflexivity |].
    rewrite Hl. unfold sent. rewrite omap_app. reflexivity.
  - intros fuel username w current w0 r Hget Hnotin u Hanswer H429.
    destruct (make_api_request_429_raises PUT u None w0 r Hanswer H429)
      as (e & Hreq & _).
    pose proof (make_api_request_log PUT u None w0) as Hl.
    assert (follow_user send fuel username w
            = (Some false, (make_api_request send PUT u None w0).2)) as ->.
    { unfold follow_user. rewrite Hget.
      rewrite bool_decide_eq_false_2 by assumption. fold u.
      destruct (make_api_request send PUT u None w0) as [res w1].
      cbn [fst] in Hreq. subst res. reflexivity. }
    cbn [fst snd]. split; [reflexivity |].
    rewrite Hl. unfold sent. rewrite omap_app. reflexivity.
  - intros username w r u Hanswer H429.
    destruct (make_api_request_429_raises GET u None w r Hanswer H429)
      as (e & Hreq & _).
    pose proof (make_api_request_log GET u None w) as Hl.
    assert (get_user_info send username w
            = (None, (make_api_request send GET u None w).2)) as ->.
    { unfold get_user_info. fold u.
      destruct (make_api_request send GET u None w) as [res w1].
      cbn [fst] in Hreq. subst res. reflexivity. }
    cbn [fst snd]. split; [reflexivity |].
    rewrite Hl. unfold sent. rewrite omap_app. reflexivity.
Qed.

(** ** Unfollow *)

(** [unfollow_user] on a name that is not blank: one DELETE, and the
    answer alone decides the result: an answer that the rate tracker
    accepts counts by its status, any other counts as a failure. *)
Lemma unfollow_user_single_delete username w :
  nonempty_str (strip username) = true →
  let u := (BASE_URL ++ "/user/following/" ++ strip username)%string in
  let answer := answer_to send DELETE u None w in
  let out := unfollow_user send username w in
  log out.2 = log w ++ [Slept (calculate_adaptive_delay w);
                        Sent (wire DELETE u None)]
  ∧ remote out.2 = remote answer.2
  ∧ cache_data out.2 = cache_data w
  ∧ cache_timestamp out.2 = cache_timestamp w
  ∧ out.1 = match answer.1 with
            | Response r =>
                match (update_rate_limit_info r answer.2).1 with
                | Ok _ =>
                    (status_code r =? 204)%Z || (status_code r =? 404)%Z
                | Raise _ => false
                end
            | RequestException _ => false
            end.
Proof.
  intros Hname. cbn zeta. unfold unfollow_user. rewrite Hname. cbn [negb].
  set (u := (BASE_URL ++ "/user/following/" ++ strip username)%string).
  pose proof (make_api_request_frame DELETE u None w) as (Hd & Ht & Hl).
  pose proof (make_api_request_remote DELETE u None w) as Hr.
  assert (∀ (b : bool) w1,
            (if b then (true, w1) else (false, w1)) = (b, w1)) as Hif
    by (intros [] ?; reflexivity).
  destruct (answer_to send DELETE u None w) as [[r | msg] w0] eqn:Hanswer.
  - cbn [fst snd] in *.
    destruct (update_rate_limit_info r w0) as [[[] | e] w1] eqn:Htrack.
    + rewrite (make_api_request_tracked DELETE u None w r) in *
        by (rewrite Hanswer; cbn [fst snd]; try rewrite Htrack; reflexivity).
      rewrite Hanswer in *. cbn [fst snd] in *. rewrite Htrack in *.
      cbn [fst snd] in *.
      destruct (Z.eqb_spec (status_code r) 429) as [E429 | E429].
      { rewrite E429. cbn [Z.eqb Pos.eqb orb].
        destruct (x_ratelimit_reset r) as [[z | text] |]; cbn in *; auto. }
      destruct (Z.leb_spec 400 (status_code r)) as [E400 | E400].
      * destruct (Z.eqb_spec (status_code r) 404) as [E404 | E404].
        -- assert ((status_code r =? 204)%Z = false) as E204
             by (apply Z.eqb_neq; lia).
           assert ((status_code r =? 404)%Z = true) as E404b
             by (apply Z.eqb_eq; exact E404).
           cbn. rewrite E204, E404b. cbn. auto.
        -- assert ((status_code r =? 204)%Z = false) as E204
             by (apply Z.eqb_neq; lia).
           assert ((status_code r =? 404)%Z = false) as E404'
             by (apply Z.eqb_neq; lia).
           cbn [is_DELETE andb orb] in *. rewrite ?E204.
           destruct (resp_body r); cbn in *; split_and!; auto;
             rewrite ?bool_decide_eq_false_2 by (intros [= ?]; lia); auto.
      * assert ((status_code r =? 404)%Z = false) as E404
          by (apply Z.eqb_neq; lia).
        cbn in *. rewrite E404.
        destruct (status_code r =? 204)%Z; cbn in *; auto.
    + pose proof (update_rate_limit_info_raises r w0 e) as Hother.
      rewrite (make_api_request_tracker_raises DELETE u None w r e) in *
        by (rewrite Hanswer; cbn [fst snd]; try rewrite Htrack; reflexivity).
      rewrite Hanswer in *. cbn [fst snd] in *. rewrite Htrack in *.
      cbn [fst snd] in *.
      destruct Hother as [what ->]; [reflexivity |]. cbn. auto.
  - unfold answer_to in Hanswer. unfold make_api_request in *.
    cbn zeta in *. rewrite Hanswer in *. cbn in *. auto.
Qed.

End ClientFacts.

(** ** Unfollowing twice *)

Lemma substring_all (s : string) :
  String.substring 0 (String.length s) s = s.
Proof. induction s as [| c s IH]; cbn; [reflexivity | now rewrite IH]. Qed.

Lemma prefix_append (p n : string) : String.prefix p (p +:+ n) = true.
Proof.
  induction p as [| c p IH]; [destruct n; reflexivity |].
  change (String c p +:+ n) with (String c (p +:+ n)). simpl.
  destruct (ascii_dec c c); [exact IH | congruence].
Qed.

Lemma substring_append (p n : string) :
  String.substring (String.length p)
    (String.length (p +:+ n) - String.length p) (p +:+ n) = n.
Proof.
  induction p as [| c p IH]; cbn.
  - rewrite Nat.sub_0_r. apply substring_all.
  - exact IH.
Qed.

Lemma account_send_delete (s : gset string) (now : Q) (name : string) :
  account_send s now
    (wire DELETE (BASE_URL ++ "/user/following/" ++ name)%string None)
  = if bool_decide (name ∈ s)
    then (s ∖ {[name]}, 0%Q, Response (plain_response 204 Empty None))
    else (s, 0%Q, Response (plain_response 404 Empty None)).
Proof.
  change (BASE_URL ++ "/user/following/" ++ name)%string
    with (following_prefix +:+ name).
  unfold account_send, wire. cbn [req_url req_method].
  rewrite prefix_append, substring_append. reflexivity.
Qed.

Lemma unfollow_user_account {py : platform} (username : string)
    (w : world (gset string)) :
  nonempty_str (strip username) = true →
  fromtimestamp_error (rate_limit_reset w) = None →
  let out := unfollow_user account_send username w in
  out.1 = true
  ∧ remote out.2 = remote w ∖ {[strip username]}
  ∧ rate_limit_reset out.2 = rate_limit_reset w
  ∧ cache_data out.2 = cache_data w
  ∧ cache_timestamp out.2 = cache_timestamp w.
Proof.
  intros Hname Hreset. cbn zeta. unfold unfollow_user. rewrite Hname.
  cbn [negb]. unfold make_api_request, exchange. cbn [remote sleep clock].
  rewrite account_send_delete.
  destruct (bool_decide (strip username ∈ remote w)) eqn:E;
    unfold update_rate_limit_info; cbn; rewrite Hreset; cbn;
    split_and!; auto.
  apply bool_decide_eq_false in E. symmetry. apply difference_disjoint_L.
  intros x Hx. rewrite elem_of_singleton. intros ->. contradiction.
Qed.

(** X18.  For every identity that is not blank, [unfollow_user] sends a
    single DELETE and nothing else, without a retry.  It returns [True]
    exactly when the answer has status 204 or 404 and the rate tracker
    has taken the answer in, and [False] for every other outcome.
    Against an account that answers 204 for a followed identity and 404
    otherwise, in a world whose reset time can be formatted, two calls
    in sequence both return [True] and the second leaves the set of
    followed identities, and the cached lists, as they were. *)
Theorem unfollow_user_idempotent :
  (∀ (server : Type) (py : platform)
     (send : server → Q → request → server * Q * netresult)
     (username : string) (w : world server),
     nonempty_str (strip username) = true →
     let u := (BASE_URL ++ "/user/following/" ++ strip username)%string in
     let answer := answer_to send DELETE u None w in
     let out := unfollow_user send username w in
     sent (log out.2) = sent (log w) ++ [wire DELETE u None]
     ∧ (out.1 = true ↔
        ∃ r, answer.1 = Response r
             ∧ (status_code r = 204%Z ∨ status_code r = 404%Z)
             ∧ (update_rate_limit_info r answer.2).1 = Ok tt))
  ∧ (∀ (py : platform) (username : string) (w : world (gset string)),
       nonempty_str (strip username) = true →
       fromtimestamp_error (rate_limit_reset w) = None →
       let first := unfollow_user account_send username w in
       let second := unfollow_user account_send username first.2 in
       first.1 = true
       ∧ second.1 = true
       ∧ remote first.2 = remote w ∖ {[strip username]}
       ∧ remote second.2 = remote first.2
       ∧ cache_data second.2 = cache_data w
       ∧ cache_timestamp second.2 = cache_timestamp w).
Proof.
  split.
  - intros server py send username w Hname. cbn zeta.
    destruct (unfollow_user_single_delete send username w Hname)
      as (Hl & _ & _ & _ & Hr).
    split.
    { rewrite Hl. unfold sent. rewrite omap_app. reflexivity. }
    rewrite Hr. clear Hr Hl.
    destruct (answer_to send DELETE _ None w) as [[r | msg] w0];
      cbn [fst snd].
    + destruct (update_rate_limit_info r w0) as [[[] | e] w1] eqn:Htrack;
        cbn [fst snd].
      * rewrite orb_true_iff, !Z.eqb_eq. split.
        -- intros H. exists r. rewrite Htrack. auto.
        -- intros (r' & [= <-] & H & _). exact H.
      * split; [discriminate |]. intros (r' & [= <-] & _ & Hx).
        rewrite Htrack in Hx. discriminate Hx.
    + split; [discriminate |]. intros (r' & [=] & _).
  - intros py username w Hname Hreset. cbn zeta.
    destruct (unfollow_user_account username w Hname Hreset)
      as (H1 & Hr1 & Hq1 & Hd1 & Ht1).
    rewrite <- Hq1 in Hreset.
    destruct (unfollow_user_account username
                (unfollow_user account_send username w).2 Hname Hreset)
      as (H2 & Hr2 & _ & Hd2 & Ht2).
    rewrite H1, H2, Hr2, Hd2, Ht2, Hr1, Hd1, Ht1. split_and!; auto.
    apply difference_disjoint_L.
    intros x Hx. rewrite elem_of_difference in Hx. tauto.
Qed.

(** ** Pagination against a paged service *)

Lemma sent_sleep {server : Type} (d : Q) (w : world server) :
  sent (log (sleep d w)) = sent (log w).
Proof. unfold sent. cbn. rewrite omap_app. cbn. apply app_nil_r. Qed.

Lemma calculate_adaptive_delay_pos {server : Type} (w : world server) :
  (0 < calculate_adaptive_delay w)%Q.
Proof. unfold calculate_adaptive_delay. repeat case_match; lra. Qed.

Lemma page_requests_cons (p : page) (pages : list page) :
  page_requests (p :: pages)
  = page_url p :: tail (page_requests (p :: pages)).
Proof. reflexivity. Qed.

Section PagedFacts.

Context {py : platform}.

Implicit Types (w : world (list page)) (u : url).

Lemma paged_request_served u (items : list item) (rest : list page)
    (params : option (gmap string Z)) w :
  remote w = {| page_url := u; page_throttle := []; page_items := items |}
             :: rest →
  fromtimestamp_error (rate_limit_reset w) = None →
  ∃ w1,
    make_api_request paged_send GET u params w
    = (Ok (plain_response 200 (Array items) (page_url <$> head rest)), w1)
    ∧ remote w1 = rest
    ∧ sent (log w1) = sent (log w) ++ [wire GET u params]
    ∧ cache_data w1 = cache_data w
    ∧ cache_timestamp w1 = cache_timestamp w
    ∧ rate_limit_reset w1 = rate_limit_reset w
    ∧ (clock w <= clock w1)%Q.
Proof.
  intros Hw Hq. pose proof (calculate_adaptive_delay_pos w) as Hpos.
  unfold make_api_request, exchange. cbn. rewrite Hw. cbn.
  rewrite String.eqb_refl. cbn. unfold update_rate_limit_info. cbn.
  rewrite Hq. cbn.
  eexists. split; [reflexivity |]. cbn. split_and!; auto; [| lra].
  unfold sent. rewrite <- app_assoc, omap_app. reflexivity.
Qed.

Lemma paged_request_refused u (reset : Z) (later : list Z)
    (items : list item) (rest : list page) (params : option (gmap string Z))
    w :
  remote w = {| page_url := u; page_throttle := reset :: later;
                page_items := items |} :: rest →
  fromtimestamp_error reset = None →
  ∃ w1,
    make_api_request paged_send GET u params w
    = (Raise (RateLimitExceededError reset u), w1)
    ∧ remote w1 = {| page_url := u; page_throttle := later;
                     page_items := items |} :: rest
    ∧ sent (log w1) = sent (log w) ++ [wire GET u params]
    ∧ cache_data w1 = cache_data w
    ∧ cache_timestamp w1 = cache_timestamp w
    ∧ rate_limit_reset w1 = reset
    ∧ (clock w <= clock w1)%Q.
Proof.
  intros Hw Hq. pose proof (calculate_adaptive_delay_pos w) as Hpos.
  unfold make_api_request, exchange. cbn. rewrite Hw. cbn.
  rewrite String.eqb_refl. cbn. unfold update_rate_limit_info. cbn.
  rewrite Hq. cbn.
  eexists. split; [reflexivity |]. cbn. split_and!; auto; [| lra].
  unfold sent. rewrite <- app_assoc, omap_app. reflexivity.
Qed.

Lemma waitable_later w w1 (resets : list Z) :
  (clock w <= clock w1)%Q → waitable w resets → waitable w1 resets.
Proof.
  intros Hclock Hwait. apply (Forall_impl _ _ _ Hwait).
  intros reset [Hq Hfits]. split; [exact Hq | lra].
Qed.

(** One page: refused once per element of its throttle list, then
    served; the first request is the one the loop was about to make,
    every repetition is a request for the same address without
    parameters. *)
Lemma paged_page_served (later : list Z) :
  ∀ u (items : list item) (rest : list page) (n : nat)
    (params : gmap string Z) (page_count : nat) (results : list item) w,
    nonempty_str u = true →
    remote w = {| page_url := u; page_throttle := later;
                  page_items := items |} :: rest →
    fromtimestamp_error (rate_limit_reset w) = None →
    (1 <= sleep_limit)%Q →
    waitable w later →
    ∃ w1 page_count1,
      get_paginated_loop paged_send (length later + S n) (Some u) params
        page_count results w
      = get_paginated_loop paged_send n (page_url <$> head rest) params
          page_count1 (results ++ items) w1
      ∧ remote w1 = rest
      ∧ sent (log w1)
        = sent (log w)
          ++ wire GET u (if (page_count + 1 =? 1)%nat then Some params
                         else None)
             :: replicate (length later) (wire GET u None)
      ∧ cache_data w1 = cache_data w
      ∧ cache_timestamp w1 = cache_timestamp w
      ∧ fromtimestamp_error (rate_limit_reset w1) = None
      ∧ (clock w <= clock w1)%Q
      ∧ (1 ≤ page_count1)%nat.
Proof.
  induction later as [| reset later IH];
    intros u items rest n params page_count results w Hu Hw Hq Hlimit Hwait.
  - destruct (paged_request_served u items rest
                (if (page_count + 1 =? 1)%nat then Some params else None) w
                Hw Hq)
      as (w1 & Hreq & Hr & Hs & Hd & Ht & Hq1 & Hc).
    exists w1, (page_count + 1)%nat.
    cbn [length Nat.add get_paginated_loop]. rewrite Hu, Hreq. cbn.
    split_and!; auto; [congruence | lia].
  - apply Forall_cons in Hwait as [[Hreset Hfits] Hwait].
    destruct (paged_request_refused u reset later items rest
                (if (page_count + 1 =? 1)%nat then Some params else None) w
                Hw Hreset)
      as (w1 & Hreq & Hr & Hs & Hd & Ht & Hq1 & Hc).
    destruct (py_max_wait (inject_Z reset) (clock w1)) as [Hone _].
    assert (py_max 1 (inject_Z reset - clock w1 + 5) <= sleep_limit)%Q
      as Hsleep.
    { unfold py_max. destruct (Qltb _ _); lra. }
    set (w1' := sleep (py_max 1 (inject_Z reset - clock w1 + 5)) w1).
    assert (clock w <= clock w1')%Q as Hc' by (cbn; lra).
    destruct (IH u items rest n params (page_count + 1)%nat results w1' Hu Hr)
      as (w2 & pc2 & Hloop & Hr2 & Hs2 & Hd2 & Ht2 & Hq2 & Hc2 & Hpc2);
      [cbn; rewrite Hq1; exact Hreset | exact Hlimit
      | exact (waitable_later w w1' later Hc' Hwait) |].
    exists w2, pc2.
    cbn [length Nat.add get_paginated_loop]. rewrite Hu, Hreq.
    apply Qle_bool_iff in Hsleep. rewrite Hsleep. fold w1'.
    split_and!; auto.
    + rewrite Hs2. unfold w1'. rewrite sent_sleep, Hs.
      replace (page_count + 1 + 1 =? 1)%nat with false
        by (symmetry; apply Nat.eqb_neq; lia).
      rewrite <- app_assoc. reflexivity.
    + rewrite Hd2. exact Hd.
    + rewrite Ht2. exact Ht.
    + lra.
Qed.

Lemma paged_loop_complete (pages : list page) :
  ∀ (first : page) (n : nat) (params : gmap string Z) (page_count : nat)
    (results : list item) w,
    Forall (fun p => nonempty_str (page_url p) = true) (first :: pages) →
    remote w = first :: pages →
    fromtimestamp_error (rate_limit_reset w) = None →
    (1 <= sleep_limit)%Q →
    waitable w (concat (page_throttle <$> first :: pages)) →
    ∃ w',
      get_paginated_loop paged_send
        (length (first :: pages) + throttle_count (first :: pages) + n)
        (Some (page_url first)) params page_count results w
      = (Some (Ok (results ++ concat (page_items <$> first :: pages))), w')
      ∧ remote w' = []
      ∧ sent (log w')
        = sent (log w)
          ++ wire GET (page_url first)
               (if (page_count + 1 =? 1)%nat then Some params else None)
             :: ((fun u => wire GET u None)
                   <$> tail (page_requests (first :: pages)))
      ∧ cache_data w' = cache_data w
      ∧ cache_timestamp w' = cache_timestamp w.
Proof.
  induction pages as [| second pages IH];
    intros [u later items] n params page_count results w Hurls Hw Hq Hlimit
      Hwait;
    inversion Hurls as [| ? ? Hu Hrest]; subst; cbn [page_url] in *;
    rewrite fmap_cons in Hwait; cbn [concat page_throttle] in Hwait;
    apply Forall_app in Hwait as [Hwait1 Hwait2].
  - destruct (paged_page_served later u items [] n params page_count results
                w Hu Hw Hq Hlimit Hwait1)
      as (w1 & pc1 & Hloop & Hr & Hs & Hd & Ht & _).
    exists w1.
    replace (length [{| page_url := u; page_throttle := later;
                        page_items := items |}]
             + throttle_count [{| page_url := u; page_throttle := later;
                                  page_items := items |}] + n)%nat
      with (length later + S n)%nat
      by (unfold throttle_count; cbn; lia).
    rewrite Hloop. cbn [head fmap option_fmap option_map].
    destruct n; cbn; rewrite ?app_nil_r; split_and!; auto;
      rewrite Hs, fmap_replicate; reflexivity.
  - destruct (paged_page_served later u items (second :: pages)
                (length (second :: pages) + throttle_count (second :: pages) + n)
                params page_count results w Hu Hw Hq Hlimit Hwait1)
      as (w1 & pc1 & Hloop & Hr & Hs & Hd & Ht & Hq1 & Hc1 & Hpc1).
    destruct (IH second n params pc1 (results ++ items) w1 Hrest Hr Hq1 Hlimit
                (waitable_later w w1 _ Hc1 Hwait2))
      as (w' & Hloop' & Hr' & Hs' & Hd' & Ht').
    exists w'.
    replace (length ({| page_url := u; page_throttle := later;
                        page_items := items |} :: second :: pages)
             + throttle_count ({| page_url := u; page_throttle := later;
                                  page_items := items |} :: second :: pages)
             + n)%nat
      with (length later
            + S (length (second :: pages) + throttle_count (second :: pages)
                 + n))%nat
      by (unfold throttle_count; cbn; lia).
    rewrite Hloop. cbn [head fmap option_fmap option_map]. rewrite Hloop'.
    split_and!; auto.
    + cbn. rewrite <- app_assoc. reflexivity.
    + rewrite Hs', Hs.
      replace (pc1 + 1 =? 1)%nat with false
        by (symmetry; apply Nat.eqb_neq; lia).
      rewrite (page_requests_cons second pages).
      unfold page_requests at 2. cbn [fmap list_fmap concat page_url
        page_throttle replicate app tail].
      rewrite fmap_app, fmap_replicate, fmap_cons, <- app_assoc.
      reflexivity.
    + rewrite Hd'. exact Hd.
    + rewrite Ht'. exact Ht.
Qed.

Lemma page_requests_length (pages : list page) :
  length (page_requests pages) = (length pages + throttle_count pages)%nat.
Proof.
  unfold page_requests, throttle_count.
  induction pages as [| p pages IH]; [reflexivity |].
  rewrite !fmap_cons. cbn [concat]. rewrite length_app, length_replicate, IH.
  cbn. lia.
Qed.

(** X19.  When a list of N items is served in P pages by next links,
    and every 429 on the way announces a reset time that can be
    formatted and waited for, [get_paginated] returns the items of all
    pages in the order served, each exactly once.  The addresses asked
    are, page after page, the address of the page once for each 429 it
    answered and once more for the answer that served it, P plus the
    number of 429 answers in all (exactly P when there is none).  Only
    the very first request carries the parameters: every later request,
    the repetition of a refused first request included, is sent without
    them. *)
Theorem get_paginated_complete (first : page) (pages : list page)
    (params : option (gmap string Z)) (extra : nat) (w : world (list page)) :
  Forall (fun p => nonempty_str (page_url p) = true) (first :: pages) →
  remote w = first :: pages →
  fromtimestamp_error (rate_limit_reset w) = None →
  (1 <= sleep_limit)%Q →
  waitable w (concat (page_throttle <$> first :: pages)) →
  let P := length (first :: pages) in
  let refused := throttle_count (first :: pages) in
  ∃ w',
    get_paginated paged_send (P + refused + extra) (page_url first) params w
    = (Some (Ok (concat (page_items <$> first :: pages))), w')
    ∧ length (concat (page_items <$> first :: pages))
      = sum_list ((fun p => length (page_items p)) <$> first :: pages)
    ∧ sent (log w')
      = sent (log w)
        ++ wire GET (page_url first)
             (Some (<["per_page" := 100%Z]> (default ∅ params)))
           :: ((fun u => wire GET u None)
                 <$> tail (page_requests (first :: pages)))
    ∧ req_url <$> sent (log w')
      = (req_url <$> sent (log w)) ++ page_requests (first :: pages)
    ∧ length (sent (log w')) = (length (sent (log w)) + P + refused)%nat
    ∧ (refused = 0%nat →
       length (sent (log w')) = (length (sent (log w)) + P)%nat).
Proof.
  intros Hurls Hw Hq Hlimit Hwait P refused. unfold get_paginated.
  destruct (paged_loop_complete pages first extra
              (<["per_page" := 100%Z]> (default ∅ params)) 0 [] w Hurls Hw Hq
              Hlimit Hwait)
    as (w' & Hloop & Hr & Hs & Hd & Ht).
  exists w'. split; [exact Hloop |].
  assert (req_url <$> sent (log w')
          = (req_url <$> sent (log w)) ++ page_requests (first :: pages))
    as Hurl.
  { rewrite Hs, fmap_app, fmap_cons, <- list_fmap_compose.
    rewrite (page_requests_cons first pages) at 2. cbn [req_url wire].
    f_equal. f_equal. clear. generalize (tail (page_requests (first :: pages))).
    intros l. induction l as [| x l IH]; cbn; [reflexivity |].
    f_equal. exact IH. }
  assert (length (sent (log w')) = (length (sent (log w)) + P + refused)%nat)
    as Hcount.
  { rewrite <- (length_fmap req_url (sent (log w'))), Hurl, length_app,
      length_fmap, page_requests_length. subst P refused. lia. }
  split_and!; auto.
  - clear. generalize (first :: pages). intros l.
    induction l as [| p l IH]; cbn; [reflexivity |].
    rewrite length_app, IH. reflexivity.
  - intros H0. rewrite Hcount, H0. lia.
Qed.

End PagedFacts.

(** ** Bulk runs *)

Section BulkFacts.

Context {server : Type} {py : platform}.
Variable send : server -> Q -> request -> server * Q * netresult.

Implicit Types (w : world server) (users : list string).

Lemma unfollow_user_frame username w :
  sent (log (unfollow_user send username w).2)
  = sent (log w) ++ unfollow_requests [username]
  ∧ cache_data (unfollow_user send username w).2 = cache_data w
  ∧ cache_timestamp (unfollow_user send username w).2 = cache_timestamp w.
Proof.
  unfold unfollow_requests.
  destruct (nonempty_str (strip username)) eqn:Hname.
  - destruct (unfollow_user_single_delete send username w Hname)
      as (Hl & _ & Hd & Ht & _).
    rewrite filter_cons_True by assumption.
    rewrite Hl. unfold sent. rewrite omap_app. auto.
  - unfold unfollow_user. rewrite Hname. cbn [negb snd].
    rewrite filter_cons_False by congruence. cbn. rewrite app_nil_r. auto.
Qed.

Lemma batch_pause_frame w :
  sent (log (batch_pause w)) = sent (log w)
  ∧ cache_data (batch_pause w) = cache_data w
  ∧ cache_timestamp (batch_pause w) = cache_timestamp w.
Proof.
  unfold batch_pause. destruct (_ <? _)%Z; [| auto].
  destruct (Qltb _ _); [| auto]. rewrite sent_sleep. auto.
Qed.

Lemma count_ok_app (l1 l2 : list line) :
  count_ok (l1 ++ l2) = (count_ok l1 + count_ok l2)%nat.
Proof. unfold count_ok. rewrite filter_app, length_app. reflexivity. Qed.

(** The loop of a full unfollow goes through the whole list, whatever
    the outcomes of the items. *)
Lemma full_unfollow_loop_spec users :
  ∀ total i results successful w,
    ∃ new,
      (full_unfollow_loop send total i users results successful w).1.1
      = results ++ new
      ∧ line_user <$> new = users
      ∧ line_index <$> new
        = (fun k => Some (k, total)) <$> seq i (length users)
      ∧ (full_unfollow_loop send total i users results successful w).1.2
        = (successful + count_ok new)%nat
      ∧ sent (log (full_unfollow_loop send total i users results successful
                     w).2)
        = sent (log w) ++ unfollow_requests users
      ∧ cache_data (full_unfollow_loop send total i users results successful
                      w).2 = cache_data w
      ∧ cache_timestamp (full_unfollow_loop send total i users results
                           successful w).2 = cache_timestamp w.
Proof.
  induction users as [| user rest IH]; intros total i results successful w.
  - exists []. cbn. rewrite !app_nil_r. unfold count_ok. cbn.
    split_and!; auto.
  - cbn [full_unfollow_loop].
    destruct (unfollow_user_frame user w) as (Hs & Hd & Ht).
    destruct (unfollow_user send user w) as [success w1]. cbn [snd] in *.
    set (w2 := if (i mod 10 =? 0)%nat || (i =? total)%nat
               then batch_pause w1 else w1).
    assert (sent (log w2) = sent (log w1)
            ∧ cache_data w2 = cache_data w1
            ∧ cache_timestamp w2 = cache_timestamp w1) as (Hs2 & Hd2 & Ht2).
    { subst w2. destruct (_ || _); [apply batch_pause_frame | auto]. }
    destruct (IH total (S i)
                (results ++ [{| line_ok := success;
                                line_index := Some (i, total);
                                line_user := user |}])
                (if success then S successful else successful)
                (sleep (calculate_adaptive_delay w2) w2))
      as (new & Hres & Husers & Hidx & Hn & Hsent & Hcd & Hct).
    exists ({| line_ok := success; line_index := Some (i, total);
               line_user := user |} :: new).
    rewrite Hres, Hn, Hsent, Hcd, Hct, sent_sleep, Hs2, Hs.
    cbn [sleep cache_data cache_timestamp]. rewrite Hd2, Ht2.
    split_and!; auto.
    + rewrite <- app_assoc. reflexivity.
    + cbn. rewrite Husers. reflexivity.
    + cbn. rewrite Hidx. reflexivity.
    + change ({| line_ok := success; line_index := Some (i, total);
                 line_user := user |} :: new)
        with ([{| line_ok := success; line_index := Some (i, total);
                  line_user := user |}] ++ new).
      rewrite count_ok_app. unfold count_ok at 2.
      destruct success; cbn; case_decide; try congruence; cbn; lia.
    + rewrite <- app_assoc. f_equal. unfold unfollow_requests.
      change (user :: rest) with ([user] ++ rest).
      rewrite filter_app, fmap_app. reflexivity.
Qed.

(** Reading a relation never sends a PUT. *)
Lemma puts_app (l1 l2 : list event) : puts (l1 ++ l2) = puts l1 ++ puts l2.
Proof. unfold puts, sent. rewrite omap_app, filter_app. reflexivity. Qed.

Lemma get_paginated_loop_puts fuel :
  ∀ current_url params page_count results w,
    puts (log (get_paginated_loop send fuel current_url params page_count
                 results w).2) = puts (log w).
Proof.
  induction fuel as [| fuel IH]; intros [u |] params page_count results w;
    cbn [get_paginated_loop]; try reflexivity.
  - destruct (nonempty_str u); reflexivity.
  - destruct (nonempty_str u); [| reflexivity].
    pose proof (make_api_request_log send GET u
      (if (page_count + 1 =? 1)%nat then Some params else None) w) as Hl.
    assert (∀ w1, log w1 = log w ++ [Slept (calculate_adaptive_delay w);
                                     Sent (wire GET u
                                       (if (page_count + 1 =? 1)%nat
                                        then Some params else None))] →
                  puts (log w1) = puts (log w)) as Hputs.
    { intros w1 ->. rewrite puts_app. cbn. apply app_nil_r. }
    destruct (make_api_request send GET u _ w) as [[r | e] w1];
      cbn [snd] in Hl; specialize (Hputs w1 Hl).
    + destruct (negb _ && _ && _); [exact Hputs |].
      destruct (response_json_items r); [| exact Hputs].
      rewrite IH. exact Hputs.
    + destruct e; try exact Hputs.
      destruct (Qle_bool _ sleep_limit); [| exact Hputs].
      rewrite IH. unfold puts. rewrite sent_sleep. exact Hputs.
Qed.

Lemma get_paginated_puts fuel u params w :
  puts (log (get_paginated send fuel u params w).2) = puts (log w).
Proof. unfold get_paginated. apply get_paginated_loop_puts. Qed.

Lemma get_following_puts fuel force w :
  puts (log (get_following send fuel force w).2) = puts (log w).
Proof.
  unfold get_following. destruct (_ && _ && _); [reflexivity |].
  pose proof (fetch_logins_world send fuel
                (BASE_URL ++ "/user/following")%string w) as Hw.
  pose proof (get_paginated_puts fuel
                (BASE_URL ++ "/user/following")%string None w) as Hp.
  rewrite <- Hw in Hp.
  destruct (fetch_logins send fuel _ w) as [[[l | e] |] w1];
    [| destruct (truthy _) |]; exact Hp.
Qed.

(** [follow_user] sends at most one PUT, for the name it was given. *)
Lemma follow_user_puts fuel username w :
  puts (log (follow_user send fuel username w).2) = puts (log w)
  ∨ puts (log (follow_user send fuel username w).2)
    = puts (log w) ++ [follow_request username].
Proof.
  unfold follow_user.
  pose proof (get_following_puts fuel false w) as Hg.
  destruct (get_following send fuel false w) as [[[current | e] |] w0];
    cbn [snd] in Hg; auto.
  destruct (bool_decide _); auto.
  pose proof (make_api_request_log send PUT
    (BASE_URL ++ "/user/following/" ++ strip (lower username))%string None w0)
    as Hl.
  assert (∀ w1 : world server,
    log w1 = log w0 ++ [Slept (calculate_adaptive_delay w0);
                        Sent (follow_request username)] →
    puts (log w1) = puts (log w) ++ [follow_request username]) as Hputs.
  { intros w1 ->. rewrite puts_app, Hg. reflexivity. }
  right.
  destruct (make_api_request send PUT _ None w0) as [[r | e] w1];
    cbn [snd] in Hl; [| exact (Hputs w1 Hl)].
  destruct (_ =? _)%Z; [| exact (Hputs w1 Hl)].
  exact (Hputs w1 Hl).
Qed.

(** The loop of a bulk follow: when it comes back it has gone through
    the whole list, whatever the outcomes of the items, and the PUT
    requests it sent are for names of the list, in the order of the
    list. *)
Lemma follow_loop_spec fuel users :
  ∀ results successful w res n w',
    follow_loop send fuel users results successful w = (Some (res, n), w') →
    ∃ new asked,
      res = results ++ new
      ∧ line_user <$> new = users
      ∧ Forall (fun l => line_index l = None) new
      ∧ n = (successful + count_ok new)%nat
      ∧ sublist asked users
      ∧ puts (log w') = puts (log w) ++ (follow_request <$> asked).
Proof.
  induction users as [| username rest IH];
    intros results successful w res n w' Hloop.
  - cbn in Hloop. injection Hloop as <- <- <-.
    exists [], []. rewrite !app_nil_r. unfold count_ok. cbn.
    split_and!; auto.
  - cbn [follow_loop] in Hloop.
    pose proof (follow_user_puts fuel username w) as Hputs.
    destruct (follow_user send fuel username w) as [[success |] w1];
      [| discriminate]. cbn [snd] in Hputs.
    apply IH in Hloop.
    destruct Hloop as (new & asked & -> & Husers & Hidx & -> & Hsub & Hp).
    exists ({| line_ok := success; line_index := None;
               line_user := username |} :: new).
    assert (puts (log (sleep (calculate_adaptive_delay w1) w1))
            = puts (log w1)) as Hsl
      by (unfold puts; rewrite sent_sleep; reflexivity).
    rewrite Hsl in Hp.
    assert ((if success then S successful else successful)
            + count_ok new
            = successful
              + count_ok ({| line_ok := success; line_index := None;
                             line_user := username |} :: new))%nat as Hcount.
    { change ({| line_ok := success; line_index := None;
                 line_user := username |} :: new)
        with ([{| line_ok := success; line_index := None;
                  line_user := username |}] ++ new).
      rewrite count_ok_app. unfold count_ok at 2.
      destruct success; cbn; case_decide; try congruence; cbn; lia. }
    destruct Hputs as [Hsame | Hmore].
    + exists asked. rewrite Hp, Hsame, <- app_assoc.
      split_and!; auto.
      * cbn. rewrite Husers. reflexivity.
      * apply sublist_cons. exact Hsub.
    + exists (username :: asked). rewrite Hp, Hmore, <- app_assoc.
      split_and!; auto.
      * cbn. rewrite Husers. reflexivity.
      * apply sublist_skip. exact Hsub.
      * rewrite <- app_assoc. reflexivity.
Qed.

(** The loop comes back as soon as every read of the following list
    does. *)
Lemma follow_loop_returns fuel users :
  (∀ w, (get_following send fuel false w).1 ≠ None) →
  ∀ results successful w,
    (follow_loop send fuel users results successful w).1 ≠ None.
Proof.
  intros Hget. induction users as [| username rest IH];
    intros results successful w; cbn [follow_loop]; [discriminate |].
  assert ((follow_user send fuel username w).1 ≠ None) as Hf.
  { unfold follow_user. specialize (Hget w).
    destruct (get_following send fuel false w) as [[[current | e] |] w0];
      cbn in *; try congruence.
    destruct (bool_decide _); [discriminate |].
    destruct (make_api_request send PUT _ None w0) as [[r | e] w1];
      [destruct (_ =? _)%Z |]; discriminate. }
  destruct (follow_user send fuel username w) as [[success |] w1];
    [apply IH | cbn in Hf; congruence].
Qed.

(** ** The snapshot and the refresh after a run *)

Variable USERNAME : string.

(** What [get_following] returns is what the cache holds afterwards. *)
Lemma get_following_cached fuel force w l w1 :
  get_following send fuel force w = (Some (Ok l), w1) →
  following (cache_data w1) = l.
Proof.
  unfold get_following. destruct (_ && _ && _).
  - intros [= <- <-]. reflexivity.
  - destruct (fetch_logins send fuel _ w) as [[[l' | e] |] w'];
      [| destruct (truthy _) |]; intros [= <- <-]; reflexivity.
Qed.

Lemma get_followers_keeps_following fuel force w :
  following (cache_data (get_followers send fuel force w).2)
  = following (cache_data w).
Proof.
  unfold get_followers. destruct (_ && _ && _); [reflexivity |].
  destruct (fetch_logins_frame send fuel
              (BASE_URL ++ "/user/followers")%string w) as [Hd _].
  destruct (fetch_logins send fuel _ w) as [[[l' | e] |] w'];
    [| destruct (truthy _) |]; cbn in *; rewrite Hd; reflexivity.
Qed.

Lemma get_user_info_cache username w :
  cache_data (get_user_info send username w).2 = cache_data w.
Proof.
  unfold get_user_info.
  destruct (make_api_request_cache send GET
              (BASE_URL ++ "/users/" ++ username)%string None w) as [Hd _].
  destruct (make_api_request send GET _ None w) as [[r | e] w1];
    [| exact Hd].
  destruct (_ =? _)%Z; [| exact Hd]. destruct (resp_body r); exact Hd.
Qed.

(** The lists returned by [get_account_stats] are the three sets of the
    snapshot of the lists read, and the following list read is the one
    left in the cache. *)
Lemma get_account_stats_snapshot fuel force w st nm nfb m w1 :
  get_account_stats send USERNAME fuel force w
  = (Some (Stats st, nm, nfb, m), w1) →
  ∃ following_list followers_list w0 w0',
    let s := relationship_sets following_list followers_list in
    get_following send fuel force w = (Some (Ok following_list), w0)
    ∧ get_followers send fuel force w0 = (Some (Ok followers_list), w0')
    ∧ nm = elements (non_mutuals s)
    ∧ nfb = elements (not_following_back s)
    ∧ m = elements (mutuals s)
    ∧ stat_non_mutuals st = size (non_mutuals s)
    ∧ stat_not_following_back st = size (not_following_back s)
    ∧ stat_mutuals st = size (mutuals s)
    ∧ total_following st = length following_list
    ∧ total_followers st = length followers_list
    ∧ following (cache_data w1) = following_list.
Proof.
  unfold get_account_stats.
  destruct (get_following send fuel force w) as [[[fl | e] |] w0] eqn:Hf;
    try discriminate.
  pose proof (get_followers_keeps_following fuel force w0) as Hk.
  destruct (get_followers send fuel force w0) as [[[gl | e] |] w0'] eqn:Hg;
    try discriminate.
  pose proof (get_user_info_cache USERNAME w0') as Hu.
  destruct (get_user_info send USERNAME w0') as [info w0''].
  destruct (fromtimestamp_error _); [discriminate |].
  cbn [snd] in *. intros [= <- <- <- <- <-].
  exists fl, gl, w0, w0'. cbn. split_and!; auto.
  rewrite Hu, Hk. exact (get_following_cached _ _ _ _ _ Hf).
Qed.

(** With a following list in the cache the refresh cannot fail: it
    either completes or is still running when the fuel is out. *)
Lemma refresh_after_cached fuel successful w :
  following (cache_data w) ≠ [] →
  (refresh_after send fuel successful w).1 = Some (Ok tt)
  ∨ (refresh_after send fuel successful w).1 = None.
Proof.
  intros Hne. unfold refresh_after. destruct (0 <? successful)%nat; [| auto].
  rewrite get_following_miss by auto.
  destruct (fetch_logins_frame send fuel
              (BASE_URL ++ "/user/following")%string w) as [Hd _].
  destruct (fetch_logins send fuel _ w) as [[[l' | e] |] w']; cbn in *; auto.
  rewrite Hd. apply truthy_true in Hne. rewrite Hne. auto.
Qed.

End BulkFacts.

(** ** The relationship snapshot *)

(** C1.  For all lists [following] and [followers], the snapshot of
    [get_account_stats] is [mutuals = following ∩ followers],
    [nonMutuals = following \ followers] and
    [notFollowingBack = followers \ following]; mutuals and non-mutuals
    together are the following set, mutuals and not-following-back the
    followers set, and the three are pairwise disjoint.  The three
    lists that [get_account_stats] returns enumerate these sets for the
    lists read by [get_following] and [get_followers], and the counts
    of its statistics are their sizes.  For following a, b, c and
    followers b, c, d the result is {b, c}, {a}, {d}. *)
Theorem relationship_sets_partition :
  (∀ following followers : list string,
     let s := relationship_sets following followers in
     let A : gset string := list_to_set following in
     let B : gset string := list_to_set followers in
     mutuals s = A ∩ B
     ∧ non_mutuals s = A ∖ B
     ∧ not_following_back s = B ∖ A
     ∧ mutuals s ∪ non_mutuals s = A
     ∧ mutuals s ∪ not_following_back s = B
     ∧ mutuals s ## non_mutuals s
     ∧ mutuals s ## not_following_back s
     ∧ non_mutuals s ## not_following_back s)
  ∧ (∀ (server : Type) (py : platform)
       (send : server → Q → request → server * Q * netresult)
       (USERNAME : string) (fuel : nat) (force : bool) (w : world server)
       st nm nfb m w1,
       get_account_stats send USERNAME fuel force w
       = (Some (Stats st, nm, nfb, m), w1) →
       ∃ following followers w0 w0',
         let s := relationship_sets following followers in
         get_following send fuel force w = (Some (Ok following), w0)
         ∧ get_followers send fuel force w0 = (Some (Ok followers), w0')
         ∧ nm = elements (non_mutuals s)
         ∧ nfb = elements (not_following_back s)
         ∧ m = elements (mutuals s)
         ∧ stat_non_mutuals st = size (non_mutuals s)
         ∧ stat_not_following_back st = size (not_following_back s)
         ∧ stat_mutuals st = size (mutuals s))
  ∧ relationship_sets ["a"; "b"; "c"] ["b"; "c"; "d"]
    = {| mutuals := {["b"; "c"]};
         non_mutuals := {["a"]};
         not_following_back := {["d"]} |}.
Proof.
  split_and!; [| | reflexivity].
  - intros following followers. cbn zeta. unfold relationship_sets.
    cbn [mutuals non_mutuals not_following_back].
    set (A := list_to_set following : gset string).
    set (B := list_to_set followers : gset string).
    split_and!; try reflexivity.
    + apply set_eq; intros x.
      rewrite elem_of_union, elem_of_intersection, elem_of_difference.
      destruct (decide (x ∈ B)); tauto.
    + apply set_eq; intros x.
      rewrite elem_of_union, elem_of_intersection, elem_of_difference.
      destruct (decide (x ∈ A)); tauto.
    + intros x. rewrite elem_of_intersection, elem_of_difference. tauto.
    + intros x. rewrite elem_of_intersection, elem_of_difference. tauto.
    + intros x. rewrite !elem_of_difference. tauto.
  - intros server py send USERNAME fuel force w st nm nfb m w1 Hstats.
    destruct (get_account_stats_snapshot send USERNAME fuel force w st nm nfb
                m w1 Hstats)
      as (fl & gl & w0 & w0' & H1 & H2 & H3 & H4 & H5 & H6 & H7 & H8 & _).
    exists fl, gl, w0, w0'. cbn zeta. auto 10.
Qed.

(** X20.  A bulk run goes through its input list in order and to the
    end.  The loop of [execute_full_unfollow] records one entry per
    identity, in input order and numbered from 1, counts the successful
    ones, and sends its DELETE requests in input order, whatever fails;
    the summary of [execute_full_unfollow] gives that count, the length
    of the list and those entries, and only a refresh that does not
    come back can withhold it.  The loop of [follow_selected_users],
    which comes back whenever every read of the following list does,
    records one entry per identity in input order, counts the
    successful ones and sends its PUT requests in input order.  What
    [follow_selected_users] returns then depends on the refresh after
    the run: the summary with that count, the length of the list and
    those entries when the refresh returns, and no summary but the
    error of the refresh, raised, when it fails.  For five identities
    of which the second and the fourth fail, both runs report 3 out of
    5. *)
Theorem bulk_run_accounting :
  (∀ (server : Type) (py : platform)
     (send : server → Q → request → server * Q * netresult)
     (users : list string) (w : world server),
     let run := full_unfollow_loop send (length users) 1 users [] 0 w in
     line_user <$> run.1.1 = users
     ∧ line_index <$> run.1.1
       = (fun k => Some (k, length users)) <$> seq 1 (length users)
     ∧ run.1.2 = count_ok run.1.1
     ∧ sent (log run.2) = sent (log w) ++ unfollow_requests users)
  ∧ (∀ (server : Type) (py : platform)
       (send : server → Q → request → server * Q * netresult)
       (USERNAME : string) (fuel : nat) (w : world server)
       st nm nfb m w1,
       get_account_stats send USERNAME fuel false w
       = (Some (Stats st, nm, nfb, m), w1) →
       nm ≠ [] →
       let run := full_unfollow_loop send (length nm) 1 nm [] 0 w1 in
       (refresh_after send fuel run.1.2 run.2).1 ≠ None →
       (execute_full_unfollow send USERNAME fuel w).1
       = Some (Summary run.1.2 (length nm) run.1.1))
  ∧ (∀ (server : Type) (py : platform)
       (send : server → Q → request → server * Q * netresult)
       (fuel : nat) (users : list string) (w : world server),
       ((∀ w0, (get_following send fuel false w0).1 ≠ None) →
        (follow_loop send fuel users [] 0 w).1 ≠ None)
       ∧ (∀ res n w',
            follow_loop send fuel users [] 0 w = (Some (res, n), w') →
            line_user <$> res = users
            ∧ n = count_ok res
            ∧ ∃ asked, sublist asked users
                       ∧ puts (log w')
                         = puts (log w) ++ (follow_request <$> asked)))
  ∧ (∀ (server : Type) (py : platform)
       (send : server → Q → request → server * Q * netresult)
       (fuel : nat) (usernames : string) (w : world server) res n w1,
       nonempty_str usernames = true →
       nonempty_str (strip usernames) = true →
       parse_usernames usernames ≠ [] →
       follow_loop send fuel (parse_usernames usernames) [] 0 w
       = (Some (res, n), w1) →
       (follow_selected_users send fuel usernames w).1
       = match (refresh_after send fuel n w1).1 with
         | Some (Ok _) =>
             Some (Ok (Summary n (length (parse_usernames usernames)) res))
         | Some (Raise e) => Some (Raise e)
         | None => None
         end)
  ∧ (full_unfollow_loop scripted_send 5 1 ["a"; "b"; "c"; "d"; "e"] [] 0
       five_unfollows).1
    = ([ {| line_ok := true; line_index := Some (1, 5); line_user := "a" |};
         {| line_ok := false; line_index := Some (2, 5); line_user := "b" |};
         {| line_ok := true; line_index := Some (3, 5); line_user := "c" |};
         {| line_ok := false; line_index := Some (4, 5); line_user := "d" |};
         {| line_ok := true; line_index := Some (5, 5); line_user := "e" |} ],
       3)
  ∧ (follow_selected_users scripted_send 2 "u1, u2, u3, u4, u5"
       five_follows).1
    = Some (Ok (Summary 3 5
        [ {| line_ok := true; line_index := None; line_user := "u1" |};
          {| line_ok := false; line_index := None; line_user := "u2" |};
          {| line_ok := true; line_index := None; line_user := "u3" |};
          {| line_ok := false; line_index := None; line_user := "u4" |};
          {| line_ok := true; line_index := None; line_user := "u5" |} ])).
Proof.
  split_and!.
  - intros server py send users w. cbn zeta.
    destruct (full_unfollow_loop_spec send users (length users) 1 [] 0 w)
      as (new & Hres & Husers & Hidx & Hn & Hsent & _ & _).
    cbn [app] in Hres. rewrite Hres, Hn, Hsent. auto.
  - intros server py send USERNAME fuel w st nm nfb m w1 Hstats Hnm. cbn zeta.
    intros Hrefresh.
    destruct (get_account_stats_snapshot send USERNAME fuel false w st nm nfb
                m w1 Hstats)
      as (fl & gl & w0 & w0' & _ & _ & Hnm' & _ & _ & _ & _ & _ & _ & _ & Hc).
    assert (fl ≠ []) as Hfl.
    { intros ->. apply Hnm. rewrite Hnm'.
      assert (non_mutuals (relationship_sets [] gl) = ∅) as ->;
        [| apply elements_empty].
      apply set_eq. intros x. unfold relationship_sets. cbn.
      rewrite elem_of_difference, elem_of_empty. tauto. }
    destruct (full_unfollow_loop_spec send nm (length nm) 1 [] 0 w1)
      as (_ & _ & _ & _ & _ & _ & Hcd & _).
    unfold execute_full_unfollow. rewrite Hstats.
    apply truthy_true in Hnm. rewrite Hnm. cbn [negb].
    destruct (full_unfollow_loop send (length nm) 1 nm [] 0 w1)
      as [[results n] w2]. cbn [fst snd] in *.
    destruct (refresh_after_cached send fuel n w2) as [Hok | Hnone].
    { rewrite Hcd, Hc. exact Hfl. }
    + destruct (refresh_after send fuel n w2) as [[[[] | e] |] w3];
        cbn in *; congruence.
    + congruence.
  - intros server py send fuel users w. split.
    + intros Hget. apply follow_loop_returns. exact Hget.
    + intros res n w' Hloop.
      destruct (follow_loop_spec send fuel users [] 0 w res n w' Hloop)
        as (new & asked & -> & Husers & _ & -> & Hsub & Hputs).
      cbn [app]. split_and!; eauto.
  - intros server py send fuel usernames w res n w1 Hne Hstrip Hparse Hloop.
    unfold follow_selected_users. rewrite Hne, Hstrip. cbn [negb orb].
    apply truthy_true in Hparse. rewrite Hparse. cbn [negb].
    rewrite Hloop.
    destruct (refresh_after send fuel n w1) as [[[[] | e] |] w2];
      reflexivity.
  - vm_compute. reflexivity.
  - vm_compute. reflexivity.
Qed.

(** ** Behaviour at particular inputs *)

(** C2, as stated, fails: an unfollow answered 429 returns [False]
    after its single request, although the next answer would have been
    204. *)
Lemma unfollow_user_surfaces_rate_limit :
  (unfollow_user scripted_send "octocat" throttled_unfollow).1 = false
  ∧ sent (log (unfollow_user scripted_send "octocat" throttled_unfollow).2)
    = [wire DELETE (BASE_URL ++ "/user/following/octocat")%string None]
  ∧ remote (unfollow_user scripted_send "octocat" throttled_unfollow).2
    = [no_content].
Proof. vm_compute. auto. Qed.

(** C4.  [follow_user] reads the following list through
    [get_following], which goes to the network when the cache is cold:
    right after start-up a follow sends the GET of the whole list before
    its PUT, and the successful PUT resets the time stamp of the
    following list.  With a fresh cache that holds "Octocat", following
    "Octocat" still sends a PUT, because the name is lowered before it
    is looked up. *)
Theorem follow_user_fetches_on_cold_cache :
  (follow_user scripted_send 1 "octocat" cold_follow).1 = Some true
  ∧ sent (log (follow_user scripted_send 1 "octocat" cold_follow).2)
    = [wire GET (BASE_URL ++ "/user/following")%string first_page_params;
       wire PUT (BASE_URL ++ "/user/following/octocat")%string None]
  ∧ following (cache_timestamp
                 (follow_user scripted_send 1 "octocat" cold_follow).2) = 0%Q
  ∧ (follow_user scripted_send 1 "Octocat" warm_follow).1 = Some true
  ∧ sent (log (follow_user scripted_send 1 "Octocat" warm_follow).2)
    = [wire PUT (BASE_URL ++ "/user/following/octocat")%string None].
Proof. vm_compute. auto. Qed.

(** C3.  The request that repeats a refused first page is not the
    request that was refused.  In the fetch of [three_pages], whose
    first page is refused once, all four items are returned, but only
    the very first request carries [per_page]: the request that repeats
    it after the 429 is sent without parameters, [page_count] having
    been incremented a second time, while the two repetitions of the
    third page are the request they repeat. *)
Theorem first_page_retry_drops_per_page :
  let run :=
    get_paginated paged_send 6 (BASE_URL ++ "/user/following")%string None
      (initial_world three_pages 1700000000) in
  run.1 = Some (Ok [User "a"; User "b"; User "c"; User "d"])
  ∧ sent (log run.2)
    = [wire GET (BASE_URL ++ "/user/following")%string first_page_params;
       wire GET (BASE_URL ++ "/user/following")%string None;
       wire GET (BASE_URL ++ "/user/following?page=2")%string None;
       wire GET (BASE_URL ++ "/user/following?page=3")%string None;
       wire GET (BASE_URL ++ "/user/following?page=3")%string None;
       wire GET (BASE_URL ++ "/user/following?page=3")%string None]
  ∧ wire GET (BASE_URL ++ "/user/following")%string first_page_params
    ≠ wire GET (BASE_URL ++ "/user/following")%string None.
Proof. vm_compute. split_and!; [reflexivity | reflexivity | discriminate]. Qed.

(** C7.  An unfollow that the service has carried out and answered 204
    is reported as failed when the rate tracker cannot take the answer
    in: with a reset time that cannot be formatted (on the reference
    platform) and with a quota that is no integer (on every platform)
    [unfollow_user] returns [False] after its single DELETE. *)
Theorem unfollow_user_fails_on_answered_delete :
  (unfollow_user scripted_send "octocat" far_reset_unfollow).1 = false
  ∧ sent (log (unfollow_user scripted_send "octocat" far_reset_unfollow).2)
    = [wire DELETE (BASE_URL ++ "/user/following/octocat")%string None]
  ∧ (∃ r, (answer_to scripted_send DELETE
             (BASE_URL ++ "/user/following/octocat")%string None
             far_reset_unfollow).1 = Response r
          ∧ status_code r = 204%Z)
  ∧ (∀ py : platform,
       (@unfollow_user _ py scripted_send "octocat"
          garbled_quota_unfollow).1 = false).
Proof.
  split_and!.
  - vm_compute. reflexivity.
  - vm_compute. reflexivity.
  - eexists. split; vm_compute; reflexivity.
  - intros py. reflexivity.
Qed.

(** C9.  A follow run whose items all succeeded returns no summary
    when the refresh after it fails on an empty cache: the account
    follows nobody, the PUT for "u1" is answered 204 and recorded as a
    success, the last read of the following list is answered 500, and
    [follow_selected_users] raises that error. *)
Theorem follow_run_loses_summary :
  (follow_selected_users scripted_send 1 "u1" lost_summary).1
  = Some (Raise (GitHubAPIError 500 "failed"
                   (BASE_URL ++ "/user/following")%string))
  ∧ (follow_loop scripted_send 1 ["u1"] [] 0 lost_summary).1
    = Some ([{| line_ok := true; line_index := None; line_user := "u1" |}],
            1%nat)
  ∧ sent (log (follow_selected_users scripted_send 1 "u1" lost_summary).2)
    = [wire GET (BASE_URL ++ "/user/following")%string first_page_params;
       wire PUT (BASE_URL ++ "/user/following/u1")%string None;
       wire GET (BASE_URL ++ "/user/following")%string first_page_params].
Proof. vm_compute. auto. Qed.

(** C5, as stated, fails: the empty list cached by a successful fetch
    is not returned when the next refresh fails; the error is raised. *)
Lemma stale_empty_list_not_returned :
  let first := get_following scripted_send 1 false empty_then_failure in
  let second := get_following scripted_send 1 true first.2 in
  first.1 = Some (Ok [])
  ∧ following (cache_data first.2) = []
  ∧ following (cache_timestamp first.2) = 1700000000%Q
  ∧ second.1
    = Some (Raise (GitHubAPIError 500 "failed"
                     (BASE_URL ++ "/user/following")%string)).
Proof. vm_compute. auto. Qed.

(** C6, as stated, fails: an empty list cached a moment ago is fetched
    again by the next read. *)
Lemma fresh_empty_list_is_refetched :
  let first := get_following scripted_send 1 false empty_twice in
  let second := get_following scripted_send 1 false first.2 in
  first.1 = Some (Ok [])
  ∧ (clock first.2 - following (cache_timestamp first.2) < CACHE_TIMEOUT)%Q
  ∧ second.1 = Some (Ok [])
  ∧ sent (log second.2)
    = sent (log first.2)
      ++ [wire GET (BASE_URL ++ "/user/following")%string first_page_params].
Proof. vm_compute. auto. Qed.

(** ** The theorems at work on the example runs *)

(** The delay at quotas 100, 1000 and 1001. *)
Lemma calculate_adaptive_delay_steps_witness :
  calculate_adaptive_delay (world_with_remaining 100) = 2%Q
  ∧ calculate_adaptive_delay (world_with_remaining 1000) = 1%Q
  ∧ calculate_adaptive_delay (world_with_remaining 1001) = 0.2%Q
  ∧ (calculate_adaptive_delay (world_with_remaining 1001)
     <= calculate_adaptive_delay (world_with_remaining 100))%Q.
Proof.
  destruct (calculate_adaptive_delay_steps (world_with_remaining 100)
              (world_with_remaining 1001)) as (H1 & _ & _ & H4).
  destruct (calculate_adaptive_delay_steps (world_with_remaining 1000)
              (world_with_remaining 1000)) as (_ & H2 & _ & _).
  destruct (calculate_adaptive_delay_steps (world_with_remaining 1001)
              (world_with_remaining 1001)) as (_ & _ & H3 & _).
  split_and!.
  - apply H1. cbn. lia.
  - apply H2. cbn. lia.
  - apply H3. cbn. lia.
  - apply H4. cbn. lia.
Defined.

(** Both lists read one second before and right at the timeout. *)
Lemma cache_ttl_read_witness :
  get_following scripted_send 1 false
    (cached_world ["a"] ["b"] 1700000000 1700000299 [])
  = (Some (Ok ["a"]), cached_world ["a"] ["b"] 1700000000 1700000299 [])
  ∧ get_followers scripted_send 1 false
      (cached_world ["a"] ["b"] 1700000000 1700000299 [])
    = (Some (Ok ["b"]), cached_world ["a"] ["b"] 1700000000 1700000299 [])
  ∧ sent (log (get_following scripted_send 1 false
                 (cached_world ["a"] ["b"] 1700000000 1700000300
                    [users_page ["c"]])).2)
    = sent (log (get_paginated scripted_send 1
                   (BASE_URL ++ "/user/following")%string None
                   (cached_world ["a"] ["b"] 1700000000 1700000300
                      [users_page ["c"]])).2)
  ∧ sent (log (get_followers scripted_send 1 false
                 (cached_world ["a"] ["b"] 1700000000 1700000300
                    [users_page ["c"]])).2)
    = sent (log (get_paginated scripted_send 1
                   (BASE_URL ++ "/user/followers")%string None
                   (cached_world ["a"] ["b"] 1700000000 1700000300
                      [users_page ["c"]])).2).
Proof.
  destruct (cache_ttl_read scripted_send 1
              (cached_world ["a"] ["b"] 1700000000 1700000299 []))
    as (H1 & H2 & _ & _).
  destruct (cache_ttl_read scripted_send 0
              (cached_world ["a"] ["b"] 1700000000 1700000300
                 [users_page ["c"]]))
    as (_ & _ & H3 & H4).
  split_and!.
  - apply H1; [discriminate | reflexivity].
  - apply H2; [discriminate | reflexivity].
  - destruct H3 as (-> & _); [discriminate | reflexivity].
  - destruct H4 as (-> & _); [discriminate | reflexivity].
Defined.

(** An empty and a non-empty cache, both one second old. *)
Lemma empty_list_is_never_a_hit_witness :
  (∃ evs,
     log (get_following scripted_send 1 false
            (cached_world [] [] 1700000000 1700000001 [users_page []])).2
     = Slept 0.2
       :: Sent (wire GET (BASE_URL ++ "/user/following")%string
                  first_page_params) :: evs)
  ∧ (∃ evs,
       log (get_followers scripted_send 1 false
              (cached_world [] [] 1700000000 1700000001 [users_page []])).2
       = Slept 0.2
         :: Sent (wire GET (BASE_URL ++ "/user/followers")%string
                    first_page_params) :: evs)
  ∧ log (get_following scripted_send 1 false
           (cached_world ["a"] ["b"] 1700000000 1700000001
              [users_page []])).2 = []
  ∧ log (get_followers scripted_send 1 false
           (cached_world ["a"] ["b"] 1700000000 1700000001
              [users_page []])).2 = [].
Proof.
  destruct (empty_list_is_never_a_hit scripted_send 0
              (cached_world [] [] 1700000000 1700000001 [users_page []]))
    as (H1 & H2 & _ & _).
  destruct (empty_list_is_never_a_hit scripted_send 1
              (cached_world ["a"] ["b"] 1700000000 1700000001
                 [users_page []]))
    as (_ & _ & H3 & H4).
  split_and!.
  - apply H1. reflexivity.
  - apply H2. reflexivity.
  - apply H3; [discriminate | reflexivity].
  - apply H4; [discriminate | reflexivity].
Defined.

(** A refresh answered 500, with and without lists in the cache. *)
Lemma stale_fallback_witness :
  (get_following scripted_send 1 true
     (cached_world ["a"] ["b"] 1700000000 1700000400 [server_error 500])).1
  = Some (Ok ["a"])
  ∧ (get_following scripted_send 1 true
       (cached_world [] [] 1700000000 1700000400 [server_error 500])).1
    = Some (Raise (GitHubAPIError 500 "failed"
                     (BASE_URL ++ "/user/following")%string))
  ∧ (get_followers scripted_send 1 false
       (cached_world ["a"] ["b"] 1700000000 1700000400 [server_error 500])).1
    = Some (Ok ["b"])
  ∧ (get_followers scripted_send 1 false
       (cached_world [] [] 1700000000 1700000400 [server_error 500])).1
    = Some (Raise (GitHubAPIError 500 "failed"
                     (BASE_URL ++ "/user/followers")%string)).
Proof.
  destruct (stale_fallback scripted_send 1 true
              (cached_world ["a"] ["b"] 1700000000 1700000400
                 [server_error 500])) as [H1 _].
  destruct (stale_fallback scripted_send 1 true
              (cached_world [] [] 1700000000 1700000400 [server_error 500]))
    as [H2 _].
  destruct (stale_fallback scripted_send 1 false
              (cached_world ["a"] ["b"] 1700000000 1700000400
                 [server_error 500])) as [_ H3].
  destruct (stale_fallback scripted_send 1 false
              (cached_world [] [] 1700000000 1700000400 [server_error 500]))
    as [_ H4].
  split_and!.
  - destruct (H1 (GitHubAPIError 500 "failed"
                    (BASE_URL ++ "/user/following")%string)
                (fetch_logins scripted_send 1
                   (BASE_URL ++ "/user/following")%string
                   (cached_world ["a"] ["b"] 1700000000 1700000400
                      [server_error 500])).2)
      as (_ & _ & Hstale & _); [left; reflexivity | reflexivity |].
    rewrite Hstale by discriminate. reflexivity.
  - destruct (H2 (GitHubAPIError 500 "failed"
                    (BASE_URL ++ "/user/following")%string)
                (fetch_logins scripted_send 1
                   (BASE_URL ++ "/user/following")%string
                   (cached_world [] [] 1700000000 1700000400
                      [server_error 500])).2)
      as (_ & _ & _ & Hraise); [left; reflexivity | reflexivity |].
    rewrite Hraise by reflexivity. reflexivity.
  - destruct (H3 (GitHubAPIError 500 "failed"
                    (BASE_URL ++ "/user/followers")%string)
                (fetch_logins scripted_send 1
                   (BASE_URL ++ "/user/followers")%string
                   (cached_world ["a"] ["b"] 1700000000 1700000400
                      [server_error 500])).2)
      as (_ & _ & Hstale & _); [right; right; discriminate | reflexivity |].
    rewrite Hstale by discriminate. reflexivity.
  - destruct (H4 (GitHubAPIError 500 "failed"
                    (BASE_URL ++ "/user/followers")%string)
                (fetch_logins scripted_send 1
                   (BASE_URL ++ "/user/followers")%string
                   (cached_world [] [] 1700000000 1700000400
                      [server_error 500])).2)
      as (_ & _ & _ & Hraise); [right; left; reflexivity | reflexivity |].
    rewrite Hraise by reflexivity. reflexivity.
Defined.

(** The account service serves the following list in one page, so a
    read of the list against it always comes back, on every platform. *)
Lemma account_send_get (s : gset string) (now : Q)
    (params : option (gmap string Z)) :
  account_send s now (wire GET (BASE_URL ++ "/user/following")%string params)
  = (s, 0%Q,
     Response (plain_response 200 (Array (User <$> elements s)) None)).
Proof. reflexivity. Qed.

Lemma account_get_following_returns (py : platform)
    (w : world (gset string)) :
  (get_following account_send 1 false w).1 ≠ None.
Proof.
  unfold get_following. destruct (_ && _ && _); [discriminate |].
  unfold fetch_logins, get_paginated. cbn [get_paginated_loop].
  change (nonempty_str (BASE_URL ++ "/user/following")%string) with true.
  cbv iota. unfold make_api_request, exchange. cbn [remote clock sleep].
  rewrite account_send_get. cbn [fst snd].
  destruct (update_rate_limit_info _ _) as [[[] | e] w1] eqn:Htrack; cbn.
  - repeat case_match; discriminate.
  - destruct (update_rate_limit_info_raises _ _ e (f_equal fst Htrack))
      as [what ->].
    cbn. repeat case_match; discriminate.
Qed.

(** A full unfollow of one identity, two follows on an account, the
    five follows, and a follow whose refresh fails. *)
Lemma bulk_run_accounting_witness :
  (execute_full_unfollow scripted_send "me" 2 full_unfollow_run).1
  = Some (Summary 1 1 [{| line_ok := true; line_index := Some (1, 1);
                          line_user := "a" |}])
  ∧ (follow_loop account_send 1 ["u1"; "u2"] [] 0
       (initial_world ({["x"]} : gset string) 1700000000)).1 ≠ None
  ∧ (∃ asked,
       sublist asked ["u1"; "u2"; "u3"; "u4"; "u5"]
       ∧ puts (log (follow_loop scripted_send 2
                      ["u1"; "u2"; "u3"; "u4"; "u5"] [] 0 five_follows).2)
         = puts (log five_follows) ++ (follow_request <$> asked))
  ∧ (follow_selected_users scripted_send 2 "u1, u2, u3, u4, u5"
       five_follows).1
    = Some (Ok (Summary 3 5
        [ {| line_ok := true; line_index := None; line_user := "u1" |};
          {| line_ok := false; line_index := None; line_user := "u2" |};
          {| line_ok := true; line_index := None; line_user := "u3" |};
          {| line_ok := false; line_index := None; line_user := "u4" |};
          {| line_ok := true; line_index := None; line_user := "u5" |} ]))
  ∧ (follow_selected_users scripted_send 1 "u1" lost_summary).1
    = Some (Raise (GitHubAPIError 500 "failed"
                     (BASE_URL ++ "/user/following")%string)).
Proof.
  destruct bulk_run_accounting as (_ & HB & HC & HD & _ & _).
  split_and!.
  - etransitivity;
      [apply (HB _ reference_platform scripted_send "me" 2%nat
                full_unfollow_run
                {| total_following := 2; total_followers := 1;
                   stat_mutuals := 1; stat_non_mutuals := 1;
                   stat_not_following_back := 0;
                   profile_info := Some {["name" := "Me"]};
                   rate_limit := (5000%Z, 0%Z) |}
                ["a"] [] ["b"]
                (get_account_stats scripted_send "me" 2 false
                   full_unfollow_run).2);
       [vm_compute; reflexivity | discriminate | vm_compute; discriminate]
      | vm_compute; reflexivity].
  - apply (HC _ reference_platform account_send 1%nat ["u1"; "u2"]
             (initial_world ({["x"]} : gset string) 1700000000)).
    exact (account_get_following_returns reference_platform).
  - destruct (HC _ reference_platform scripted_send 2%nat
                ["u1"; "u2"; "u3"; "u4"; "u5"] five_follows) as [_ Hspec].
    apply (Hspec
             [ {| line_ok := true; line_index := None; line_user := "u1" |};
               {| line_ok := false; line_index := None; line_user := "u2" |};
               {| line_ok := true; line_index := None; line_user := "u3" |};
               {| line_ok := false; line_index := None; line_user := "u4" |};
               {| line_ok := true; line_index := None; line_user := "u5" |} ]
             3%nat).
    vm_compute. reflexivity.
  - rewrite (HD _ reference_platform scripted_send 2%nat "u1, u2, u3, u4, u5"
               five_follows
               [ {| line_ok := true; line_index := None; line_user := "u1" |};
                 {| line_ok := false; line_index := None;
                    line_user := "u2" |};
                 {| line_ok := true; line_index := None; line_user := "u3" |};
                 {| line_ok := false; line_index := None;
                    line_user := "u4" |};
                 {| line_ok := true; line_index := None;
                    line_user := "u5" |} ]
               3%nat
               (follow_loop scripted_send 2 ["u1"; "u2"; "u3"; "u4"; "u5"] []
                  0 five_follows).2).
    + vm_compute. reflexivity.
    + reflexivity.
    + reflexivity.
    + discriminate.
    + vm_compute. reflexivity.
  - rewrite (HD _ reference_platform scripted_send 1%nat "u1" lost_summary
               [{| line_ok := true; line_index := None; line_user := "u1" |}]
               1%nat
               (follow_loop scripted_send 1 ["u1"] [] 0 lost_summary).2).
    + vm_compute. reflexivity.
    + reflexivity.
    + reflexivity.
    + discriminate.
    + vm_compute. reflexivity.
Defined.

(** The fetch of [three_pages]: four items, six requests. *)
Lemma get_paginated_complete_witness :
  ∃ w',
    get_paginated paged_send 6 (BASE_URL ++ "/user/following")%string None
      (initial_world three_pages 1700000000)
    = (Some (Ok [User "a"; User "b";
                 User "c"; User "d"]),
       w')
    ∧ sent (log w')
      = [wire GET (BASE_URL ++ "/user/following")%string first_page_params;
         wire GET (BASE_URL ++ "/user/following")%string None;
         wire GET (BASE_URL ++ "/user/following?page=2")%string None;
         wire GET (BASE_URL ++ "/user/following?page=3")%string None;
         wire GET (BASE_URL ++ "/user/following?page=3")%string None;
         wire GET (BASE_URL ++ "/user/following?page=3")%string None]
    ∧ req_url <$> sent (log w')
      = [(BASE_URL ++ "/user/following")%string;
         (BASE_URL ++ "/user/following")%string;
         (BASE_URL ++ "/user/following?page=2")%string;
         (BASE_URL ++ "/user/following?page=3")%string;
         (BASE_URL ++ "/user/following?page=3")%string;
         (BASE_URL ++ "/user/following?page=3")%string]
    ∧ length (sent (log w')) = 6%nat.
Proof.
  destruct (get_paginated_complete
              {| page_url := (BASE_URL ++ "/user/following")%string;
                 page_throttle := [1700000060%Z];
                 page_items := [User "a";
                                User "b"] |}
              (tail three_pages) None 0
              (initial_world three_pages 1700000000))
    as (w' & Hrun & _ & Hsent & Hurls & Hcount & _).
  - repeat constructor.
  - reflexivity.
  - reflexivity.
  - vm_compute. discriminate.
  - repeat constructor; vm_compute; discriminate.
  - exists w'. split_and!;
      [exact Hrun | exact Hsent | exact Hurls | exact Hcount].
Defined.

(** One unfollow answered 204, and two in a row on an account. *)
Lemma unfollow_user_idempotent_witness :
  (unfollow_user scripted_send " octocat " (initial_world [no_content] 0)).1
  = true
  ∧ sent (log (unfollow_user scripted_send " octocat "
                 (initial_world [no_content] 0)).2)
    = [wire DELETE (BASE_URL ++ "/user/following/octocat")%string None]
  ∧ (unfollow_user account_send "octocat"
       (unfollow_user account_send "octocat"
          (initial_world ({["octocat"; "x"]} : gset string) 0)).2).1 = true
  ∧ remote (unfollow_user account_send "octocat"
              (unfollow_user account_send "octocat"
                 (initial_world ({["octocat"; "x"]} : gset string) 0)).2).2
    = remote (unfollow_user account_send "octocat"
                (initial_world ({["octocat"; "x"]} : gset string) 0)).2.
Proof.
  destruct unfollow_user_idempotent as [Hone Htwice].
  destruct (Hone _ reference_platform scripted_send " octocat "
              (initial_world [no_content] 0))
    as [Hsent Hresult]; [reflexivity |].
  destruct (Htwice reference_platform "octocat"
              (initial_world ({["octocat"; "x"]} : gset string) 0))
    as (_ & Hsecond & _ & Hsame & _); [reflexivity | reflexivity |].
  split_and!.
  - apply Hresult. exists (plain_response 204 Empty None).
    split_and!; [reflexivity | left; reflexivity | reflexivity].
  - exact Hsent.
  - exact Hsecond.
  - exact Hsame.
Defined.

(** A 429 answer to each of the four operations. *)
Lemma rate_limit_recovery_witness :
  is_RateLimitExceededError
    (GitHubAPIError 500 "failed" (BASE_URL ++ "/user/following")%string)
  = false
  ∧ (∃ retry evs,
       log (get_paginated scripted_send 2
              (BASE_URL ++ "/user/following")%string None
              (initial_world
                 [Response (throttled_response 1700000060); users_page ["a"]]
                 1700000000)).2
       = [Slept 0.2;
          Sent (wire GET (BASE_URL ++ "/user/following")%string
                  first_page_params)]
         ++ Slept (py_max 1 (inject_Z 1700000060 - (1700000000 + 0.2 + 0) + 5))
         :: Slept 2
         :: Sent retry :: evs
       ∧ req_method retry = GET
       ∧ req_url retry = (BASE_URL ++ "/user/following")%string)
  ∧ (∃ evs,
       log (get_paginated_loop scripted_send 2
              (Some (BASE_URL ++ "/user/following?page=2")%string)
              (<["per_page" := 100%Z]> ∅) 1 []
              (initial_world
                 [Response (throttled_response 1700000060); users_page ["a"]]
                 1700000000)).2
       = [Slept 0.2;
          Sent (wire GET (BASE_URL ++ "/user/following?page=2")%string None)]
         ++ Slept (py_max 1 (inject_Z 1700000060 - (1700000000 + 0.2 + 0) + 5))
         :: Slept 2
         :: Sent (wire GET (BASE_URL ++ "/user/following?page=2")%string None)
         :: evs)
  ∧ (unfollow_user scripted_send "octocat" throttled_unfollow).1 = false
  ∧ (follow_user scripted_send 1 "octocat"
       (cached_world ["x"] [] 1700000000 1700000060
          [Response (throttled_response 1700000120)])).1 = Some false
  ∧ (get_user_info scripted_send "octocat"
       (initial_world [Response (throttled_response 1700000060)]
          1700000000)).1 = None.
Proof.
  destruct (rate_limit_recovery scripted_send)
    as (Hnever & Hretry & Hunfollow & Hfollow & Hlookup).
  split_and!.
  - apply (Hnever 1%nat (BASE_URL ++ "/user/following")%string None
             (initial_world [server_error 500] 1700000000)).
    reflexivity.
  - destruct (Hretry 0%nat (BASE_URL ++ "/user/following")%string
                (<["per_page" := 100%Z]> ∅) 0%nat []
                (initial_world
                   [Response (throttled_response 1700000060);
                    users_page ["a"]] 1700000000)
                (throttled_response 1700000060) 1700000060%Z)
      as (_ & _ & _ & retry & evs & Hlog & Hmethod & Hurl & _);
      [reflexivity | reflexivity | reflexivity | reflexivity | reflexivity
      | vm_compute; discriminate |].
    exists retry, evs. split_and!; [exact Hlog | exact Hmethod | exact Hurl].
  - destruct (Hretry 0%nat (BASE_URL ++ "/user/following?page=2")%string
                (<["per_page" := 100%Z]> ∅) 1%nat []
                (initial_world
                   [Response (throttled_response 1700000060);
                    users_page ["a"]] 1700000000)
                (throttled_response 1700000060) 1700000060%Z)
      as (_ & _ & _ & retry & evs & Hlog & _ & _ & Hsame);
      [reflexivity | reflexivity | reflexivity | reflexivity | reflexivity
      | vm_compute; discriminate |].
    exists evs. rewrite Hsame in Hlog by discriminate. exact Hlog.
  - apply (Hunfollow "octocat" throttled_unfollow
             (throttled_response 1700000060)); reflexivity.
  - apply (Hfollow 1%nat "octocat"
             (cached_world ["x"] [] 1700000000 1700000060
                [Response (throttled_response 1700000120)])
             ["x"]
             (cached_world ["x"] [] 1700000000 1700000060
                [Response (throttled_response 1700000120)])
             (throttled_response 1700000120)).
    + reflexivity.
    + intros Hin. apply list_elem_of_singleton in Hin. discriminate.
    + reflexivity.
    + reflexivity.
  - apply (Hlookup "octocat"
             (initial_world [Response (throttled_response 1700000060)]
                1700000000)
             (throttled_response 1700000060)); reflexivity.
Defined.

(** The snapshot of the account of [full_unfollow_run]. *)
Lemma relationship_sets_partition_witness :
  ∃ following followers w0 w0',
    get_following scripted_send 2 false full_unfollow_run
    = (Some (Ok following), w0)
    ∧ get_followers scripted_send 2 false w0 = (Some (Ok followers), w0')
    ∧ ["a"] = elements (non_mutuals (relationship_sets following followers))
    ∧ [] = elements
             (not_following_back (relationship_sets following followers))
    ∧ ["b"] = elements (mutuals (relationship_sets following followers)).
Proof.
  destruct relationship_sets_partition as (_ & Hstats & _).
  destruct (Hstats _ reference_platform scripted_send "me" 2%nat false
              full_unfollow_run
              {| total_following := 2; total_followers := 1;
                 stat_mutuals := 1; stat_non_mutuals := 1;
                 stat_not_following_back := 0;
                 profile_info := Some {["name" := "Me"]};
                 rate_limit := (5000%Z, 0%Z) |}
              ["a"] [] ["b"]
              (get_account_stats scripted_send "me" 2 false
                 full_unfollow_run).2)
    as (fl & gl & w0 & w0' & H1 & H2 & H3 & H4 & H5 & _).
  - vm_compute. reflexivity.
  - exists fl, gl, w0, w0'. auto.
Defined.

(** * Further properties of the client *)

Section ExecutorFacts.

Context {server : Type} {py : platform}.
Variable send : server -> Q -> request -> server * Q * netresult.

Implicit Types (w : world server) (u : url) (fuel : nat).

(** What the request executor lets through and what it raises. *)
Lemma make_api_request_result m u params w r w1 :
  make_api_request send m u params w = (Ok r, w1) →
  (answer_to send m u params w).1 = Response r
  ∧ update_rate_limit_info r (answer_to send m u params w).2 = (Ok tt, w1)
  ∧ status_code r ≠ 429%Z
  ∧ ((status_code r < 400)%Z ∨ m = DELETE ∧ status_code r = 404%Z).
Proof.
  unfold answer_to, make_api_request. cbn zeta.
  destruct (exchange send _ _) as [[r' | msg] w0]; cbn [fst snd];
    [| discriminate].
  destruct (update_rate_limit_info r' w0) as [[[] | e] w2] eqn:Htrack;
    [| discriminate].
  destruct (Z.eqb_spec (status_code r') 429) as [E429 | E429].
  { destruct (from_option int_of_header _ _); discriminate. }
  destruct (Z.leb_spec 400 (status_code r')) as [E400 | E400].
  - destruct m; cbn [is_DELETE andb];
      try (destruct (resp_body r'); discriminate).
    destruct (Z.eqb_spec (status_code r') 404) as [E404 | E404];
      [| destruct (resp_body r'); discriminate].
    intros [= <- <-]. split_and!; auto.
  - intros [= <- <-]. split_and!; auto.
Qed.

Lemma make_api_request_raises m u params w e :
  (make_api_request send m u params w).1 = Raise e →
  ∀ status, e ≠ HTTPError status.
Proof.
  unfold make_api_request. cbn zeta.
  destruct (exchange send _ _) as [[r | msg] w0]; cbn [fst snd];
    [| intros [= <-]; discriminate].
  pose proof (update_rate_limit_info_raises r w0) as Hother.
  destruct (update_rate_limit_info r w0) as [[[] | e'] w2]; cbn [fst snd] in *.
  - destruct (status_code r =? 429)%Z.
    { destruct (x_ratelimit_reset r) as [[z | text] |]; cbn;
        intros [= <-]; discriminate. }
    destruct (400 <=? status_code r)%Z; [| discriminate].
    destruct (is_DELETE m && _); [discriminate |].
    destruct (resp_body r); intros [= <-]; discriminate.
  - intros [= <-]. destruct (Hother e' eq_refl) as [what ->]. discriminate.
Qed.

(** X1.  What [make_api_request] does with its one exchange.  When the
    rate tracker has taken the answer in, a response is handed back
    exactly when its status is below 400 and not 429, or when a DELETE
    is answered 404; a 429 is raised as the rate-limit error with the
    reset time of the answer (0 when the header is missing); every
    other answer is raised as an error that is no rate-limit error.
    When the rate tracker raises, that exception, a built-in one,
    leaves the executor, whatever the status of the answer.  The rate
    tracker returns exactly when both headers are absent or integers
    and the reset time then held can be formatted; the quota variables
    are then those values.  The world after an answer is the one the
    rate tracker left.  When the request does not get through,
    [GitHubAPIError] with status 0 is raised and the quota is left as
    it was. *)
Theorem make_api_request_outcome m u params w :
  let answer := answer_to send m u params w in
  let out := make_api_request send m u params w in
  (∀ r, out.1 = Ok r →
        answer.1 = Response r
        ∧ (update_rate_limit_info r answer.2).1 = Ok tt
        ∧ status_code r ≠ 429%Z
        ∧ ((status_code r < 400)%Z
           ∨ m = DELETE ∧ status_code r = 404%Z))
  ∧ (∀ r, answer.1 = Response r →
          (update_rate_limit_info r answer.2).1 = Ok tt →
          ((status_code r < 400)%Z ∨ m = DELETE ∧ status_code r = 404%Z) →
          status_code r ≠ 429%Z → out.1 = Ok r)
  ∧ (∀ r, answer.1 = Response r →
          (update_rate_limit_info r answer.2).1 = Ok tt →
          status_code r = 429%Z →
          ∃ reset,
            out.1 = Raise (RateLimitExceededError reset u)
            ∧ (x_ratelimit_reset r = Some (Int reset)
               ∨ x_ratelimit_reset r = None ∧ reset = 0%Z))
  ∧ (∀ r, answer.1 = Response r →
          (update_rate_limit_info r answer.2).1 = Ok tt →
          status_code r ≠ 429%Z →
          (400 <= status_code r)%Z →
          ¬ (m = DELETE ∧ status_code r = 404%Z) →
          ∃ e, out.1 = Raise e ∧ is_RateLimitExceededError e = false)
  ∧ (∀ r e, answer.1 = Response r →
            (update_rate_limit_info r answer.2).1 = Raise e →
            out.1 = Raise e ∧ ∃ what, e = OtherException what)
  ∧ (∀ r, answer.1 = Response r →
          out.2 = (update_rate_limit_info r answer.2).2)
  ∧ (∀ r, answer.1 = Response r →
          ((update_rate_limit_info r answer.2).1 = Ok tt ↔
           ∃ remaining reset,
             from_option int_of_header (Ok (rate_limit_remaining w))
               (x_ratelimit_remaining r) = Ok remaining
             ∧ from_option int_of_header (Ok (rate_limit_reset w))
                 (x_ratelimit_reset r) = Ok reset
             ∧ fromtimestamp_error reset = None)
          ∧ ∀ remaining reset,
              (update_rate_limit_info r answer.2).1 = Ok tt →
              from_option int_of_header (Ok (rate_limit_remaining w))
                (x_ratelimit_remaining r) = Ok remaining →
              from_option int_of_header (Ok (rate_limit_reset w))
                (x_ratelimit_reset r) = Ok reset →
              rate_limit_remaining out.2 = remaining
              ∧ rate_limit_reset out.2 = reset)
  ∧ (∀ msg, answer.1 = RequestException msg →
            out.1 = Raise (GitHubAPIError 0 msg u)
            ∧ rate_limit_remaining out.2 = rate_limit_remaining w
            ∧ rate_limit_reset out.2 = rate_limit_reset w).
Proof.
  cbn zeta.
  assert (rate_limit_remaining (answer_to send m u params w).2
          = rate_limit_remaining w
          ∧ rate_limit_reset (answer_to send m u params w).2
            = rate_limit_reset w) as [Hrem Hres].
  { unfold answer_to, exchange. cbn.
    destruct (send _ _ _) as [[? ?] ?]. cbn. auto. }
  assert (∀ r, (answer_to send m u params w).1 = Response r →
               (make_api_request send m u params w).2
               = (update_rate_limit_info r
                    (answer_to send m u params w).2).2) as Hworld.
  { intros r Hanswer.
    destruct (update_rate_limit_info r (answer_to send m u params w).2)
      as [[[] | e] w1] eqn:Htrack.
    - rewrite (make_api_request_tracked send m u params w r Hanswer)
        by (rewrite Htrack; reflexivity).
      cbn zeta. rewrite Htrack. cbn [snd].
      repeat case_match; reflexivity.
    - rewrite (make_api_request_tracker_raises send m u params w r e Hanswer)
        by (rewrite Htrack; reflexivity).
      rewrite Htrack. reflexivity. }
  split_and!.
  - intros r Hok.
    destruct (make_api_request send m u params w) as [res w1] eqn:Hreq.
    cbn [fst] in Hok. subst res.
    destruct (make_api_request_result m u params w r w1 Hreq)
      as (Hanswer & Htrack & H429 & Hstatus).
    rewrite Htrack. auto.
  - intros r Hanswer Htrack Hstatus H429.
    rewrite (make_api_request_tracked send m u params w r Hanswer Htrack).
    cbn zeta. apply Z.eqb_neq in H429. rewrite H429.
    destruct Hstatus as [Hlow | [-> H404]].
    + assert ((400 <=? status_code r)%Z = false) as ->
        by (apply Z.leb_gt; lia).
      reflexivity.
    + rewrite H404. reflexivity.
  - intros r Hanswer Htrack H429.
    rewrite (make_api_request_tracked send m u params w r Hanswer Htrack).
    cbn zeta. rewrite H429. cbn [Z.eqb Pos.eqb].
    apply update_rate_limit_info_ok in Htrack
      as (remaining & reset & _ & Hreset & _).
    destruct (x_ratelimit_reset r) as [[z | text] |]; cbn in *;
      try discriminate; eexists; split; try reflexivity; auto.
  - intros r Hanswer Htrack H429 H400 Hnot.
    rewrite (make_api_request_tracked send m u params w r Hanswer Htrack).
    cbn zeta. apply Z.eqb_neq in H429. rewrite H429.
    apply Z.leb_le in H400. rewrite H400.
    assert (is_DELETE m && (status_code r =? 404)%Z = false) as ->.
    { destruct m; cbn; try reflexivity. apply Z.eqb_neq. intros H404.
      apply Hnot. auto. }
    destruct (resp_body r); eexists; split; reflexivity.
  - intros r e Hanswer Htrack.
    rewrite (make_api_request_tracker_raises send m u params w r e Hanswer
               Htrack).
    split; [reflexivity |].
    exact (update_rate_limit_info_raises r _ e Htrack).
  - exact Hworld.
  - intros r Hanswer. split; [split |].
    + intros Htrack.
      apply update_rate_limit_info_ok in Htrack
        as (remaining & reset & H1 & H2 & H3 & _).
      rewrite Hrem in H1. rewrite Hres in H2. eauto.
    + intros (remaining & reset & H1 & H2 & H3).
      unfold update_rate_limit_info. rewrite Hrem, H1.
      cbn [rate_limit_reset set_rate_limit]. rewrite Hres, H2.
      cbn [rate_limit_reset set_rate_limit]. rewrite H3. reflexivity.
    + intros remaining reset Htrack H1 H2. rewrite (Hworld r Hanswer).
      apply update_rate_limit_info_ok in Htrack
        as (remaining' & reset' & H1' & H2' & _ & ->).
      rewrite Hrem in H1'. rewrite Hres in H2'. cbn. split; congruence.
  - intros msg Hanswer. unfold make_api_request, answer_to in *.
    cbn zeta in *.
    destruct (exchange send _ _) as [[r | msg'] w0]; cbn [fst snd] in *;
      [discriminate |].
    injection Hanswer as ->. auto.
Qed.

(** A GET that comes back has a status below 400. *)
Lemma make_api_request_get_status u params w r w1 :
  make_api_request send GET u params w = (Ok r, w1) →
  (status_code r < 400)%Z.
Proof.
  intros Hreq.
  destruct (make_api_request_result GET u params w r w1 Hreq)
    as (_ & _ & _ & [Hlow | [? _]]); [exact Hlow | discriminate].
Qed.

Lemma get_paginated_loop_no_http_error fuel :
  ∀ current_url params page_count results w e,
    (get_paginated_loop send fuel current_url params page_count results w).1
    = Some (Raise e) →
    ∀ status, e ≠ HTTPError status.
Proof.
  induction fuel as [| fuel IH];
    intros [u |] params page_count results w e;
    cbn [get_paginated_loop]; try (destruct (nonempty_str u));
    try discriminate.
  destruct (make_api_request send GET u _ w) as [[r | e'] w1] eqn:Hreq.
  - apply make_api_request_get_status in Hreq.
    assert ((400 <=? status_code r)%Z = false) as -> by (apply Z.leb_gt; lia).
    rewrite andb_false_r. cbn [andb].
    destruct (response_json_items r) as [data | e''] eqn:Hjson.
    + apply IH.
    + unfold response_json_items in Hjson.
      destruct (resp_body r); try discriminate; injection Hjson as <-;
        intros [= <-]; discriminate.
  - assert (∀ status, e' ≠ HTTPError status) as Hne.
    { apply (make_api_request_raises GET u
               (if (page_count + 1 =? 1)%nat then Some params else None) w).
      rewrite Hreq. reflexivity. }
    destruct e'; try (intros [= <-]; apply Hne).
    destruct (Qle_bool _ sleep_limit); [apply IH |].
    intros [= <-]. discriminate.
Qed.

(** X2.  [get_paginated] never raises an [HTTPError]: the status check
    behind [response.raise_for_status()] only ever sees statuses that
    [make_api_request] lets through, which are below 400.  The errors of
    a paginated fetch are those of the request executor and of the JSON
    decoding. *)
Theorem get_paginated_never_http_error fuel u params w e :
  (get_paginated send fuel u params w).1 = Some (Raise e) →
  (∀ status, e ≠ HTTPError status)
  ∧ is_RateLimitExceededError e = false.
Proof.
  intros H. split.
  - exact (get_paginated_loop_no_http_error fuel _ _ _ _ _ _ H).
  - exact (proj2 (proj2 (proj2 (get_paginated_loop_frame send fuel _ _ _ _ w)))
             e H).
Qed.

End ExecutorFacts.

(** ** A service that always answers 429 *)

Section RefusingFacts.

Context {py : platform}.

Implicit Types (w : world Z) (u : url).

(** One refused request: the rate-limit error with the reset time the
    service holds, when that reset time can be formatted. *)
Lemma refusing_request u (asked : option (gmap string Z)) w :
  fromtimestamp_error (remote w) = None →
  ∃ w1,
    make_api_request refusing_send GET u asked w
    = (Raise (RateLimitExceededError (remote w) u), w1)
    ∧ sent (log w1) = sent (log w) ++ [wire GET u asked]
    ∧ remote w1 = remote w
    ∧ cache_data w1 = cache_data w
    ∧ (clock w1 == clock w + calculate_adaptive_delay w + 0)%Q.
Proof.
  intros Hq. unfold make_api_request, exchange, refusing_send.
  cbn [remote sleep clock]. unfold update_rate_limit_info. cbn.
  rewrite Hq. eexists. split; [reflexivity |]. cbn.
  split_and!; auto; [| reflexivity].
  unfold sent. rewrite <- app_assoc, omap_app. reflexivity.
Qed.

Lemma refusing_loop_never_returns fuel :
  ∀ u (params : gmap string Z) (page_count : nat) (results : list item) w,
    nonempty_str u = true →
    fromtimestamp_error (remote w) = None →
    (1 <= sleep_limit)%Q →
    (inject_Z (remote w) - clock w + 5 <= sleep_limit)%Q →
    let out :=
      get_paginated_loop refusing_send fuel (Some u) params page_count
        results w in
    out.1 = None
    ∧ length (sent (log out.2)) = (length (sent (log w)) + fuel)%nat
    ∧ remote out.2 = remote w
    ∧ cache_data out.2 = cache_data w.
Proof.
  induction fuel as [| fuel IH];
    intros u params page_count results w Hu Hq Hlimit Hfits;
    cbn zeta; cbn [get_paginated_loop]; rewrite Hu.
  - cbn. split_and!; auto.
  - set (asked := if (page_count + 1 =? 1)%nat then Some params else None).
    destruct (refusing_request u asked w Hq)
      as (w1 & -> & Hs & Hr & Hc & Hclock).
    pose proof (calculate_adaptive_delay_pos w) as Hpos.
    destruct (py_max_wait (inject_Z (remote w)) (clock w1)) as [Hone _].
    assert (py_max 1 (inject_Z (remote w) - clock w1 + 5) <= sleep_limit)%Q
      as Hsleep.
    { unfold py_max. destruct (Qltb _ _); lra. }
    apply Qle_bool_iff in Hsleep. rewrite Hsleep.
    set (w2 := sleep _ w1).
    destruct (IH u params (page_count + 1)%nat results w2 Hu)
      as (H1 & H2 & H3 & H4).
    { subst w2. cbn. rewrite Hr. exact Hq. }
    { exact Hlimit. }
    { subst w2. cbn. rewrite Hr. lra. }
    cbn zeta in *. rewrite H1, H2, H3, H4. subst w2.
    rewrite sent_sleep, Hs, length_app. cbn.
    split_and!; auto. lia.
Qed.

(** X3.  The retry after a 429 has no bound: against a service that
    answers 429 to everything, with a reset time that can be formatted
    and waited for, [get_paginated] is still running after any number
    of iterations, each of which has sent one more request;
    [get_following], which sits on top of it, does not come back either
    and leaves the cache as it was.  When the reset time cannot be
    formatted, or the wait for it is longer than [time.sleep] takes, the
    fetch ends at the first answer with the built-in exception. *)
Theorem get_paginated_unbounded_retry (fuel : nat) w :
  let u := (BASE_URL ++ "/user/following")%string in
  (fromtimestamp_error (remote w) = None →
   (1 <= sleep_limit)%Q →
   (inject_Z (remote w) - clock w + 5 <= sleep_limit)%Q →
   (get_paginated refusing_send fuel u None w).1 = None
   ∧ length (sent (log (get_paginated refusing_send fuel u None w).2))
     = (length (sent (log w)) + fuel)%nat
   ∧ (get_following refusing_send fuel true w).1 = None
   ∧ cache_data (get_following refusing_send fuel true w).2 = cache_data w)
  ∧ (∀ what,
       fromtimestamp_error (remote w) = Some what →
       (get_paginated refusing_send (S fuel) u None w).1
       = Some (Raise (OtherException what)))
  ∧ (fromtimestamp_error (remote w) = None →
     (sleep_limit
      < py_max 1 (inject_Z (remote w)
                  - (clock w + calculate_adaptive_delay w + 0) + 5))%Q →
     (get_paginated refusing_send (S fuel) u None w).1
     = Some (Raise (OtherException "OverflowError"))).
Proof.
  cbn zeta. split_and!.
  - intros Hq Hlimit Hfits.
    destruct (refusing_loop_never_returns fuel
                (BASE_URL ++ "/user/following")%string
                (<["per_page" := 100%Z]> (default ∅ None)) 0 [] w eq_refl Hq
                Hlimit Hfits)
      as (H1 & H2 & _ & H4).
    cbn zeta in *. fold (get_paginated refusing_send fuel
                           (BASE_URL ++ "/user/following")%string None w) in *.
    split_and!; auto.
    + unfold get_following, fetch_logins. cbn [negb andb].
      destruct (get_paginated refusing_send fuel _ None w)
        as [[[d | e] |] w1]; cbn in H1; try discriminate. reflexivity.
    + unfold get_following, fetch_logins. cbn [negb andb].
      destruct (get_paginated refusing_send fuel _ None w)
        as [[[d | e] |] w1]; cbn in H1; try discriminate. exact H4.
  - intros what Hq. unfold get_paginated. cbn [get_paginated_loop].
    change (nonempty_str (BASE_URL ++ "/user/following")%string) with true.
    cbv iota. unfold make_api_request, exchange, refusing_send.
    cbn [remote sleep clock]. unfold update_rate_limit_info. cbn.
    rewrite Hq. reflexivity.
  - intros Hq Hlong. unfold get_paginated. cbn [get_paginated_loop].
    change (nonempty_str (BASE_URL ++ "/user/following")%string) with true.
    cbv iota.
    destruct (refusing_request (BASE_URL ++ "/user/following")%string
                (if (0 + 1 =? 1)%nat
                 then Some (<["per_page" := 100%Z]> (default ∅ None))
                 else None) w Hq)
      as (w1 & -> & _ & _ & _ & Hclock).
    assert (Qle_bool (py_max 1 (inject_Z (remote w) - clock w1 + 5))
              sleep_limit = false) as ->; [| reflexivity].
    apply not_true_is_false. rewrite Qle_bool_iff. intros Hle.
    revert Hlong Hle. unfold py_max.
    destruct (Qltb 1 (inject_Z (remote w) - clock w1 + 5)) eqn:E1;
      destruct (Qltb 1 (inject_Z (remote w)
                        - (clock w + calculate_adaptive_delay w + 0) + 5))
        eqn:E2;
      try apply Qltb_lt in E1; try apply Qltb_ge in E1;
      try apply Qltb_lt in E2; try apply Qltb_ge in E2; lra.
Qed.

End RefusingFacts.

(** ** More on the relationship cache *)

Section CacheFacts.

Context {server : Type} {py : platform}.
Variable send : server -> Q -> request -> server * Q * netresult.

Implicit Types (w : world server) (fuel : nat).

Lemma logins_users (names : list string) :
  logins (User <$> names) = Ok (strip <$> names).
Proof.
  induction names as [| name names IH]; [reflexivity |].
  rewrite !fmap_cons. cbn [logins login_of]. rewrite IH. reflexivity.
Qed.

(** The comprehension stops at the first item whose login cannot be
    taken, with the exception of that item. *)
Lemma logins_first_bad (good : list string) (bad : item) (rest : list item)
    (e : exn) :
  login_of bad = Raise e →
  logins ((User <$> good) ++ bad :: rest) = Raise e.
Proof.
  intros Hbad. induction good as [| name good IH].
  - cbn [fmap list_fmap app logins]. rewrite Hbad. reflexivity.
  - rewrite fmap_cons. cbn [app logins login_of]. rewrite IH. reflexivity.
Qed.

(** X4.  A refresh keeps the logins of the items fetched, stripped of
    surrounding white space, in the order served, and stamps them with
    the time at which the read began.  One item whose login cannot be
    taken makes the whole refresh fail: nothing of the fetched list
    reaches the cache, and the read falls back to the stored list or
    raises the exception of the first such item: [KeyError] for an
    object without a login, [AttributeError] for a login that is no
    string, [TypeError] for an element that is no object. *)
Theorem refresh_takes_stripped_logins fuel force w data w1 :
  force = true ∨ following (cache_data w) = []
  ∨ (CACHE_TIMEOUT <= clock w - following (cache_timestamp w))%Q →
  get_paginated send fuel (BASE_URL ++ "/user/following")%string None w
  = (Some (Ok data), w1) →
  let out := get_following send fuel force w in
  (∀ names,
     data = User <$> names →
     out.1 = Some (Ok (strip <$> names))
     ∧ following (cache_data out.2) = strip <$> names
     ∧ following (cache_timestamp out.2) = clock w)
  ∧ (∀ good bad rest,
       data = (User <$> good) ++ bad :: rest →
       (∀ login, bad ≠ User login) →
       cache_data out.2 = cache_data w
       ∧ cache_timestamp out.2 = cache_timestamp w
       ∧ out.1 = if truthy (following (cache_data w))
                 then Some (Ok (following (cache_data w)))
                 else Some (Raise (OtherException
                                     match bad with
                                     | NoLogin => "KeyError"
                                     | LoginNotString => "AttributeError"
                                     | _ => "TypeError"
                                     end))).
Proof.
  intros Hmiss Hfetch. cbn zeta.
  rewrite (get_following_miss send _ _ _ Hmiss).
  destruct (get_paginated_frame send fuel
              (BASE_URL ++ "/user/following")%string w) as (Hd & Ht & _).
  rewrite Hfetch in Hd, Ht. cbn [snd] in Hd, Ht.
  unfold fetch_logins. rewrite Hfetch. split.
  - intros names ->. rewrite logins_users. cbn. auto.
  - intros good bad rest -> Hbad.
    rewrite (logins_first_bad good bad rest
               (OtherException match bad with
                               | NoLogin => "KeyError"
                               | LoginNotString => "AttributeError"
                               | _ => "TypeError"
                               end)).
    + rewrite Hd. destruct (truthy _); cbn; auto.
    + destruct bad as [login | | |]; try reflexivity.
      contradiction (Hbad login). reflexivity.
Qed.

Lemma get_following_keeps_followers fuel force w :
  followers (cache_data (get_following send fuel force w).2)
  = followers (cache_data w).
Proof.
  pose proof (fetch_logins_frame send fuel
                (BASE_URL ++ "/user/following")%string w) as [Hd1 Ht1].
  unfold get_following.
  destruct (_ && _ && _); [reflexivity |].
  destruct (fetch_logins send fuel _ w) as [[[l | e] |] w1];
    [| destruct (truthy _) |]; cbn in *; congruence.
Qed.

(** X5.  The two cache entries are independent and agree with what is
    returned: [get_following] never changes the followers entry,
    [get_followers] never changes the following entry, and a list that
    either of them returns is the list its entry holds afterwards. *)
Theorem cache_entries_independent fuel force w :
  followers (cache_data (get_following send fuel force w).2)
  = followers (cache_data w)
  ∧ followers (cache_timestamp (get_following send fuel force w).2)
    = followers (cache_timestamp w)
  ∧ following (cache_data (get_followers send fuel force w).2)
    = following (cache_data w)
  ∧ following (cache_timestamp (get_followers send fuel force w).2)
    = following (cache_timestamp w)
  ∧ (∀ l w1, get_following send fuel force w = (Some (Ok l), w1) →
             following (cache_data w1) = l)
  ∧ (∀ l w1, get_followers send fuel force w = (Some (Ok l), w1) →
             followers (cache_data w1) = l).
Proof.
  pose proof (fetch_logins_frame send fuel
                (BASE_URL ++ "/user/following")%string w) as [Hd1 Ht1].
  pose proof (fetch_logins_frame send fuel
                (BASE_URL ++ "/user/followers")%string w) as [Hd2 Ht2].
  split_and!.
  - clear Hd2 Ht2. unfold get_following.
    destruct (_ && _ && _); [reflexivity |].
    destruct (fetch_logins send fuel _ w) as [[[l | e] |] w1];
      [| destruct (truthy _) |]; cbn in *; congruence.
  - clear Hd2 Ht2. unfold get_following.
    destruct (_ && _ && _); [reflexivity |].
    destruct (fetch_logins send fuel _ w) as [[[l | e] |] w1];
      [| destruct (truthy _) |]; cbn in *; congruence.
  - clear Hd1 Ht1. unfold get_followers.
    destruct (_ && _ && _); [reflexivity |].
    destruct (fetch_logins send fuel _ w) as [[[l | e] |] w1];
      [| destruct (truthy _) |]; cbn in *; congruence.
  - clear Hd1 Ht1. unfold get_followers.
    destruct (_ && _ && _); [reflexivity |].
    destruct (fetch_logins send fuel _ w) as [[[l | e] |] w1];
      [| destruct (truthy _) |]; cbn in *; congruence.
  - clear. intros l w1. unfold get_following. destruct (_ && _ && _).
    + intros [= <- <-]. reflexivity.
    + destruct (fetch_logins send fuel _ w) as [[[l' | e] |] w'];
        [| destruct (truthy _) |]; intros [= <- <-]; reflexivity.
  - clear. intros l w1. unfold get_followers. destruct (_ && _ && _).
    + intros [= <- <-]. reflexivity.
    + destruct (fetch_logins send fuel _ w) as [[[l' | e] |] w'];
        [| destruct (truthy _) |]; intros [= <- <-]; reflexivity.
Qed.

(** X6.  The stamp of a refreshed list is the time at which the read
    began, not the time at which the fetch ended.  A read that follows a
    successful refresh is served from the cache when the list is not
    empty and the fetch took less than the timeout; when the fetch took
    the timeout or longer (waiting out 429 answers, say) the list just
    fetched is already expired and the next read fetches it again. *)
Theorem refresh_stamp_is_start_time fuel fuel' force w l w1 :
  force = true ∨ following (cache_data w) = []
  ∨ (CACHE_TIMEOUT <= clock w - following (cache_timestamp w))%Q →
  fetch_logins send fuel (BASE_URL ++ "/user/following")%string w
  = (Some (Ok l), w1) →
  let out := get_following send fuel force w in
  out.1 = Some (Ok l)
  ∧ following (cache_timestamp out.2) = clock w
  ∧ clock out.2 = clock w1
  ∧ (l ≠ [] → (clock w1 - clock w < CACHE_TIMEOUT)%Q →
     get_following send fuel' false out.2 = (Some (Ok l), out.2))
  ∧ ((CACHE_TIMEOUT <= clock w1 - clock w)%Q →
     ∃ evs,
       log (get_following send (S fuel') false out.2).2
       = log out.2 ++ Slept (calculate_adaptive_delay out.2)
           :: Sent (wire GET (BASE_URL ++ "/user/following")%string
                      first_page_params) :: evs).
Proof.
  intros Hmiss Hfetch. cbn zeta.
  rewrite (get_following_miss send _ _ _ Hmiss), Hfetch. cbn [fst snd].
  split_and!; try reflexivity.
  - intros Hne Hage.
    rewrite get_following_hit; [reflexivity | exact Hne | exact Hage].
  - intros Hslow. apply get_following_miss_net. right; right. exact Hslow.
Qed.

End CacheFacts.

(** ** More on the graph operations *)

Section GraphFacts.

Context {server : Type} {py : platform}.
Variable send : server -> Q -> request -> server * Q * netresult.
Variable USERNAME : string.

Implicit Types (w : world server) (fuel : nat).

Lemma sent_make_api_request m u params w :
  sent (log (make_api_request send m u params w).2)
  = sent (log w) ++ [wire m u params].
Proof.
  rewrite make_api_request_log. unfold sent. rewrite omap_app. reflexivity.
Qed.

(** X7.  [follow_user] looks the lowered and stripped name up in the
    list that [get_following] returns.  When the name is there it
    answers [True] at once: no PUT, nothing invalidated.  Otherwise it
    sends one PUT and answers [True] exactly when the answer has status
    204 and the rate tracker has taken it in, and [False] otherwise;
    only on [True] is the time stamp of the following list reset to 0,
    the list itself staying in the cache, so that the next read (at any
    time of day past the first 300 seconds of the epoch) fetches the
    list again.  A failed follow leaves the time stamp alone.  When the
    read of the following list fails, [follow_user] answers [False]
    without sending a PUT. *)
Theorem follow_user_outcome fuel fuel' username w :
  let name := strip (lower username) in
  let out := follow_user send fuel username w in
  (∀ e w0, get_following send fuel false w = (Some (Raise e), w0) →
           out = (Some false, w0))
  ∧ (∀ current w0,
       get_following send fuel false w = (Some (Ok current), w0) →
       (name ∈ current → out = (Some true, w0))
       ∧ (name ∉ current →
          let answer :=
            answer_to send PUT (BASE_URL ++ "/user/following/" ++ name)%string
              None w0 in
          sent (log out.2) = sent (log w0) ++ [follow_request username]
          ∧ cache_data out.2 = cache_data w0
          ∧ (out.1 = Some true ∨ out.1 = Some false)
          ∧ (out.1 = Some true ↔
             ∃ r, answer.1 = Response r
                  ∧ status_code r = 204%Z
                  ∧ (update_rate_limit_info r answer.2).1 = Ok tt)
          ∧ (out.1 = Some true →
             following (cache_timestamp out.2) = 0%Q
             ∧ followers (cache_timestamp out.2)
               = followers (cache_timestamp w0)
             ∧ ((CACHE_TIMEOUT <= clock out.2)%Q →
                ∃ evs,
                  log (get_following send (S fuel') false out.2).2
                  = log out.2 ++ Slept (calculate_adaptive_delay out.2)
                      :: Sent (wire GET (BASE_URL ++ "/user/following")%string
                                 first_page_params) :: evs))
          ∧ (out.1 = Some false →
             cache_timestamp out.2 = cache_timestamp w0))).
Proof.
  cbn zeta. split.
  - intros e w0 Hget. unfold follow_user. rewrite Hget. reflexivity.
  - intros current w0 Hget. split.
    + intros Hin. unfold follow_user. rewrite Hget.
      rewrite bool_decide_eq_true_2 by assumption. reflexivity.
    + intros Hnotin. cbn zeta. unfold follow_user. rewrite Hget.
      rewrite bool_decide_eq_false_2 by assumption.
      set (u := (BASE_URL ++ "/user/following/" ++ strip (lower username))%string).
      pose proof (sent_make_api_request PUT u None w0) as Hsent.
      destruct (make_api_request_cache send PUT u None w0) as [Hd Ht].
      assert (∀ r,
                (answer_to send PUT u None w0).1 = Response r →
                status_code r = 204%Z →
                (update_rate_limit_info r
                   (answer_to send PUT u None w0).2).1 = Ok tt →
                (make_api_request send PUT u None w0).1 = Ok r) as Hgood.
      { intros r Hanswer H204 Htrack.
        rewrite (make_api_request_tracked send PUT u None w0 r Hanswer Htrack).
        cbn zeta. rewrite H204. reflexivity. }
      destruct (make_api_request send PUT u None w0) as [[r | e] w1] eqn:Hreq;
        cbn [fst snd] in *.
      * destruct (make_api_request_result send PUT u None w0 r w1 Hreq)
          as (Hanswer & Htrack & _ & _).
        destruct (Z.eqb_spec (status_code r) 204) as [E | E].
        -- cbn [fst snd invalidate_following set_cache cache_data
                cache_timestamp log following followers].
           rewrite Hd, Ht. split_and!; auto; [| | discriminate].
           ++ split; [| reflexivity]. intros _. exists r.
              rewrite Htrack. auto.
           ++ intros _. split_and!; auto.
              intros Hclock.
              apply (get_following_miss_net send fuel' false
                       (invalidate_following w1)).
              right; right. cbn in *. unfold CACHE_TIMEOUT in *. lra.
        -- cbn [fst snd]. rewrite Hd, Ht.
           split_and!; auto; try discriminate.
           split; [discriminate |].
           intros (r' & Hanswer' & H204 & _).
           rewrite Hanswer in Hanswer'. injection Hanswer' as <-.
           contradiction.
      * rewrite Hd, Ht. split_and!; auto; try discriminate.
        split; [discriminate |].
        intros (r' & Hanswer' & H204 & Htrack).
        specialize (Hgood r' Hanswer' H204 Htrack). discriminate Hgood.
Qed.

(** X8.  [unfollow_user] does not invalidate anything: after it, even
    after a successful unfollow, a read of the following list that is
    still within the timeout returns the stored list, the identity just
    unfollowed included, without asking the service. *)
Theorem unfollow_leaves_cached_list fuel username w :
  let out := unfollow_user send username w in
  cache_data out.2 = cache_data w
  ∧ cache_timestamp out.2 = cache_timestamp w
  ∧ (following (cache_data w) ≠ [] →
     (clock out.2 - following (cache_timestamp w) < CACHE_TIMEOUT)%Q →
     get_following send fuel false out.2
     = (Some (Ok (following (cache_data w))), out.2)).
Proof.
  cbn zeta. destruct (unfollow_user_frame send username w) as (_ & Hd & Ht).
  split_and!; auto.
  intros Hne Hage. rewrite <- Hd, <- Ht in *.
  apply get_following_hit; assumption.
Qed.

(** X9.  [get_user_info] sends one GET and never raises; it returns a
    profile exactly when the answer has status 200 and a JSON object as
    body and the rate tracker has taken it in, and [None] for every
    other answer, error or failure.  The cache is not touched. *)
Theorem get_user_info_outcome username w :
  let u := (BASE_URL ++ "/users/" ++ username)%string in
  let answer := answer_to send GET u None w in
  let out := get_user_info send username w in
  sent (log out.2) = sent (log w) ++ [wire GET u None]
  ∧ cache_data out.2 = cache_data w
  ∧ cache_timestamp out.2 = cache_timestamp w
  ∧ ∀ o, out.1 = Some o
         ↔ ∃ r, answer.1 = Response r ∧ status_code r = 200%Z
                ∧ resp_body r = Object o
                ∧ (update_rate_limit_info r answer.2).1 = Ok tt.
Proof.
  cbn zeta. set (u := (BASE_URL ++ "/users/" ++ username)%string).
  pose proof (sent_make_api_request GET u None w) as Hsent.
  destruct (make_api_request_cache send GET u None w) as [Hd Ht].
  assert (∀ r,
            (answer_to send GET u None w).1 = Response r →
            status_code r = 200%Z →
            (update_rate_limit_info r (answer_to send GET u None w).2).1
            = Ok tt →
            (make_api_request send GET u None w).1 = Ok r) as Hgood.
  { intros r Hanswer H200 Htrack.
    rewrite (make_api_request_tracked send GET u None w r Hanswer Htrack).
    cbn zeta. rewrite H200. reflexivity. }
  unfold get_user_info. fold u.
  destruct (make_api_request send GET u None w) as [[r | e] w1] eqn:Hreq;
    cbn [fst snd] in *.
  - destruct (make_api_request_result send GET u None w r w1 Hreq)
      as (Hanswer & Htrack & _ & _).
    assert (∀ o, (∃ r', (answer_to send GET u None w).1 = Response r'
                        ∧ status_code r' = 200%Z
                        ∧ resp_body r' = Object o
                        ∧ (update_rate_limit_info r'
                             (answer_to send GET u None w).2).1 = Ok tt)
                 ↔ status_code r = 200%Z ∧ resp_body r = Object o) as Hiff.
    { intros o. split.
      - intros (r' & Hanswer' & H200 & Hbody & _).
        rewrite Hanswer in Hanswer'. injection Hanswer' as <-. auto.
      - intros [H200 Hbody]. exists r. rewrite Htrack. auto. }
    destruct (Z.eqb_spec (status_code r) 200) as [E | E].
    + destruct (resp_body r) eqn:Hbody; cbn [fst snd];
        (split_and!; auto); intros o; rewrite Hiff; naive_solver.
    + cbn [fst snd]. split_and!; auto. intros o. rewrite Hiff.
      split; [discriminate | intros [? _]; contradiction].
  - split_and!; auto. intros o. split; [discriminate |].
    intros (r & Hanswer & H200 & _ & Htrack).
    specialize (Hgood r Hanswer H200 Htrack). discriminate Hgood.
Qed.

Lemma get_following_cached_never_raises fuel force w :
  following (cache_data w) ≠ [] →
  ∀ e, (get_following send fuel force w).1 ≠ Some (Raise e).
Proof.
  intros Hne e. unfold get_following.
  destruct (_ && _ && _); [discriminate |].
  destruct (fetch_logins_frame send fuel
              (BASE_URL ++ "/user/following")%string w) as [Hd _].
  destruct (fetch_logins send fuel _ w) as [[[l | e'] |] w1];
    try discriminate.
  cbn in Hd. rewrite Hd. apply truthy_true in Hne. rewrite Hne. discriminate.
Qed.

Lemma get_followers_cached_never_raises fuel force w :
  followers (cache_data w) ≠ [] →
  ∀ e, (get_followers send fuel force w).1 ≠ Some (Raise e).
Proof.
  intros Hne e. unfold get_followers.
  destruct (_ && _ && _); [discriminate |].
  destruct (fetch_logins_frame send fuel
              (BASE_URL ++ "/user/followers")%string w) as [Hd _].
  destruct (fetch_logins send fuel _ w) as [[[l | e'] |] w1];
    try discriminate.
  cbn in Hd. rewrite Hd. apply truthy_true in Hne. rewrite Hne. discriminate.
Qed.

(** X10.  [get_account_stats] returns the error dictionary, with
    three empty lists, in three cases only: the read of the following
    list raised, which needs an empty stored following list; the read
    of the followers list raised, which needs an empty stored followers
    list; or both lists were read and the reset time held at the end
    could not be formatted.  So with a non-empty list stored for both
    relations and a reset time that can be formatted, no error is
    reported, whatever the service answers: every failed refresh falls
    back to the stored list, and a failed profile lookup only leaves
    the profile out. *)
Theorem get_account_stats_degrades fuel force w :
  let out := get_account_stats send USERNAME fuel force w in
  (following (cache_data w) ≠ [] → followers (cache_data w) ≠ [] →
   fromtimestamp_error (rate_limit_reset out.2) = None →
   ∀ e nm nfb m, out.1 ≠ Some (StatsError e, nm, nfb, m))
  ∧ (∀ e nm nfb m,
       out.1 = Some (StatsError e, nm, nfb, m) →
       nm = [] ∧ nfb = [] ∧ m = []
       ∧ ((get_following send fuel force w).1 = Some (Raise e)
          ∧ following (cache_data w) = []
          ∨ (∃ l w0, get_following send fuel force w = (Some (Ok l), w0)
                     ∧ (get_followers send fuel force w0).1 = Some (Raise e)
                     ∧ followers (cache_data w) = [])
          ∨ (∃ l w0 l' w0' what,
               get_following send fuel force w = (Some (Ok l), w0)
               ∧ get_followers send fuel force w0 = (Some (Ok l'), w0')
               ∧ e = OtherException what
               ∧ fromtimestamp_error (rate_limit_reset out.2) = Some what))).
Proof.
  cbn zeta.
  assert (∀ e nm nfb m,
       (get_account_stats send USERNAME fuel force w).1
       = Some (StatsError e, nm, nfb, m) →
       nm = [] ∧ nfb = [] ∧ m = []
       ∧ ((get_following send fuel force w).1 = Some (Raise e)
          ∧ following (cache_data w) = []
          ∨ (∃ l w0, get_following send fuel force w = (Some (Ok l), w0)
                     ∧ (get_followers send fuel force w0).1 = Some (Raise e)
                     ∧ followers (cache_data w) = [])
          ∨ (∃ l w0 l' w0' what,
               get_following send fuel force w = (Some (Ok l), w0)
               ∧ get_followers send fuel force w0 = (Some (Ok l'), w0')
               ∧ e = OtherException what
               ∧ fromtimestamp_error
                   (rate_limit_reset
                      (get_account_stats send USERNAME fuel force w).2)
                 = Some what))) as Herr.
  { intros e nm nfb m. unfold get_account_stats.
    pose proof (get_following_cached_never_raises fuel force w) as Hf.
    pose proof (get_following_keeps_followers send fuel force w) as Hk.
    destruct (get_following send fuel force w) as [[[fl | e0] |] w0];
      cbn [fst snd] in *; try discriminate.
    - pose proof (get_followers_cached_never_raises fuel force w0) as Hg.
      destruct (get_followers send fuel force w0) as [[[gl | e1] |] w0']
        eqn:Hgf; cbn [fst snd] in *; try discriminate.
      + destruct (get_user_info send USERNAME w0') as [info w1].
        destruct (fromtimestamp_error (rate_limit_reset w1)) as [what |]
          eqn:Hq; cbn [fst snd]; [| discriminate].
        intros [= <- <- <- <-]. split_and!; auto. right. right.
        exists fl, w0, gl, w0', what. auto.
      + intros [= <- <- <- <-]. split_and!; auto. right. left.
        exists fl, w0. rewrite Hgf. split_and!; auto.
        destruct (decide (followers (cache_data w) = [])) as [E | E];
          [exact E |].
        exfalso. rewrite <- Hk in E. exact (Hg E e1 eq_refl).
    - intros [= <- <- <- <-]. split_and!; auto. left. split; auto.
      destruct (decide (following (cache_data w) = [])) as [E | E];
        [exact E |].
      exfalso. exact (Hf E e0 eq_refl). }
  split; [| exact Herr].
  intros Hf Hg Hq e nm nfb m Hout.
  destruct (Herr e nm nfb m Hout)
    as (_ & _ & _ & [[_ H] | [(l & w0 & _ & _ & H)
                             | (l & w0 & l' & w0' & what & _ & _ & _ & H)]]);
    try contradiction.
  rewrite Hq in H. discriminate H.
Qed.

End GraphFacts.

(** ** The numbers of the statistics *)

Lemma size_list_to_set_le (l : list string) :
  (size (list_to_set l : gset string) ≤ length l)%nat.
Proof.
  induction l as [| x l IH]; cbn.
  - rewrite size_empty. lia.
  - rewrite size_union_alt, size_singleton.
    pose proof (subseteq_size (list_to_set l ∖ {[x]}) (list_to_set l : gset string)
                  ltac:(intros y; rewrite elem_of_difference; tauto)).
    lia.
Qed.

Lemma relationship_sizes (following followers : list string) :
  let s := relationship_sets following followers in
  (size (mutuals s) + size (non_mutuals s))%nat
  = size (list_to_set following : gset string)
  ∧ (size (mutuals s) + size (not_following_back s))%nat
    = size (list_to_set followers : gset string).
Proof.
  cbn zeta. unfold relationship_sets.
  cbn [mutuals non_mutuals not_following_back].
  set (A := list_to_set following : gset string).
  set (B := list_to_set followers : gset string).
  split.
  - rewrite <- size_union.
    + f_equal. apply set_eq. intros x.
      rewrite elem_of_union, elem_of_intersection, elem_of_difference.
      destruct (decide (x ∈ B)); tauto.
    + intros x. rewrite elem_of_intersection, elem_of_difference. tauto.
  - rewrite <- size_union.
    + f_equal. apply set_eq. intros x.
      rewrite elem_of_union, elem_of_intersection, elem_of_difference.
      destruct (decide (x ∈ A)); tauto.
    + intros x. rewrite elem_of_intersection, elem_of_difference. tauto.
Qed.

(** X11.  The numbers of [get_account_stats] add up only when the
    lists read have no repetition: mutuals plus non-mutuals never
    exceed the total following, mutuals plus not-following-back never
    exceed the total followers, with equality exactly when the list
    read is free of duplicates (the totals count the list, the others
    count sets).  The three lists returned have the lengths announced,
    hold no name twice, and a name is among the non-mutuals exactly
    when it is in the following list read and not in the followers
    list. *)
Theorem stats_numbers_add_up :
  ∀ (server : Type) (py : platform)
    (send : server → Q → request → server * Q * netresult)
    (USERNAME : string) (fuel : nat) (force : bool) (w : world server)
    st nm nfb m w1,
    get_account_stats send USERNAME fuel force w
    = (Some (Stats st, nm, nfb, m), w1) →
    ∃ following followers w0 w0',
      get_following send fuel force w = (Some (Ok following), w0)
      ∧ get_followers send fuel force w0 = (Some (Ok followers), w0')
      ∧ (stat_mutuals st + stat_non_mutuals st ≤ total_following st)%nat
      ∧ (stat_mutuals st + stat_not_following_back st
         ≤ total_followers st)%nat
      ∧ ((stat_mutuals st + stat_non_mutuals st)%nat = total_following st
         ↔ NoDup following)
      ∧ ((stat_mutuals st + stat_not_following_back st)%nat
         = total_followers st
         ↔ NoDup followers)
      ∧ length nm = stat_non_mutuals st
      ∧ length nfb = stat_not_following_back st
      ∧ length m = stat_mutuals st
      ∧ NoDup nm ∧ NoDup nfb ∧ NoDup m
      ∧ (∀ x, x ∈ nm ↔ x ∈ following ∧ x ∉ followers)
      ∧ (∀ x, x ∈ nfb ↔ x ∈ followers ∧ x ∉ following)
      ∧ (∀ x, x ∈ m ↔ x ∈ following ∧ x ∈ followers).
Proof.
  intros server py send USERNAME fuel force w st nm nfb m w1 Hstats.
  destruct (get_account_stats_snapshot send USERNAME fuel force w st nm nfb m
              w1 Hstats)
    as (fl & gl & w0 & w0' & Hf & Hg & -> & -> & -> & Hnm & Hnfb & Hm & Htf
        & Htg & _).
  destruct (relationship_sizes fl gl) as [HA HB]. cbn zeta in HA, HB.
  pose proof (size_list_to_set_le fl) as HlA.
  pose proof (size_list_to_set_le gl) as HlB.
  assert (∀ l : list string,
            size (list_to_set l : gset string) = length l ↔ NoDup l) as Hnd.
  { intros l. split; [| apply size_list_to_set].
    induction l as [| x l IH]; [constructor |]. cbn. intros Hsz.
    pose proof (size_list_to_set_le l).
    destruct (decide (x ∈ l)) as [Hin | Hin].
    - exfalso.
      assert ({[x]} ∪ list_to_set l = (list_to_set l : gset string)) as Heq.
      { apply set_eq. intros y.
        rewrite elem_of_union, elem_of_singleton, elem_of_list_to_set.
        split; [intros [-> | ?]; assumption | auto]. }
      rewrite Heq in Hsz. lia.
    - constructor; [exact Hin |]. apply IH.
      rewrite size_union, size_singleton in Hsz; [lia |].
      intros y. rewrite elem_of_singleton, elem_of_list_to_set.
      intros -> ?. contradiction. }
  exists fl, gl, w0, w0'.
  rewrite Hnm, Hnfb, Hm, Htf, Htg, HA, HB.
  unfold relationship_sets. cbn [mutuals non_mutuals not_following_back].
  split_and!; auto; try apply NoDup_elements; try reflexivity.
  - intros x. rewrite elem_of_elements, elem_of_difference,
      !elem_of_list_to_set. reflexivity.
  - intros x. rewrite elem_of_elements, elem_of_difference,
      !elem_of_list_to_set. reflexivity.
  - intros x. rewrite elem_of_elements, elem_of_intersection,
      !elem_of_list_to_set. reflexivity.
Qed.

(** ** What changes the account and what does not *)

Section WriteFacts.

Context {server : Type} {py : platform}.
Variable send : server -> Q -> request -> server * Q * netresult.
Variable USERNAME : string.

Implicit Types (w : world server) (fuel : nat).

Lemma writes_extend w w' (rs : list request) :
  sent (log w') = sent (log w) ++ rs →
  writes (log w')
  = writes (log w) ++ filter (fun r => is_GET (req_method r) = false) rs.
Proof. intros H. unfold writes. rewrite H, filter_app. reflexivity. Qed.

Lemma writes_sleep d w : writes (log (sleep d w)) = writes (log w).
Proof. unfold writes. rewrite sent_sleep. reflexivity. Qed.

Lemma writes_get u params w :
  writes (log (make_api_request send GET u params w).2) = writes (log w).
Proof.
  rewrite (writes_extend w _ [wire GET u params]).
  - cbn. apply app_nil_r.
  - rewrite make_api_request_log. unfold sent. rewrite omap_app. reflexivity.
Qed.

Lemma get_paginated_loop_writes fuel :
  ∀ current_url params page_count results w,
    writes (log (get_paginated_loop send fuel current_url params page_count
                   results w).2) = writes (log w).
Proof.
  induction fuel as [| fuel IH]; intros [u |] params page_count results w;
    cbn [get_paginated_loop]; try reflexivity.
  - destruct (nonempty_str u); reflexivity.
  - destruct (nonempty_str u); [| reflexivity].
    pose proof (writes_get u
      (if (page_count + 1 =? 1)%nat then Some params else None) w) as Hw.
    destruct (make_api_request send GET u _ w) as [[r | e] w1];
      cbn [snd] in Hw.
    + destruct (negb _ && _ && _); [exact Hw |].
      destruct (response_json_items r); [| exact Hw].
      rewrite IH. exact Hw.
    + destruct e; try exact Hw.
      destruct (Qle_bool _ sleep_limit); [| exact Hw].
      rewrite IH, writes_sleep. exact Hw.
Qed.

Lemma get_following_writes fuel force w :
  writes (log (get_following send fuel force w).2) = writes (log w).
Proof.
  unfold get_following. destruct (_ && _ && _); [reflexivity |].
  pose proof (fetch_logins_world send fuel
                (BASE_URL ++ "/user/following")%string w) as Hw.
  pose proof (get_paginated_loop_writes fuel
                (Some (BASE_URL ++ "/user/following")%string)
                (<["per_page" := 100%Z]> (default ∅ None)) 0 [] w) as Hp.
  change (get_paginated_loop send fuel _ _ 0 [] w)
    with (get_paginated send fuel (BASE_URL ++ "/user/following")%string
            None w) in Hp.
  rewrite <- Hw in Hp.
  destruct (fetch_logins send fuel _ w) as [[[l | e] |] w1];
    [| destruct (truthy _) |]; exact Hp.
Qed.

Lemma get_followers_writes fuel force w :
  writes (log (get_followers send fuel force w).2) = writes (log w).
Proof.
  unfold get_followers. destruct (_ && _ && _); [reflexivity |].
  pose proof (fetch_logins_world send fuel
                (BASE_URL ++ "/user/followers")%string w) as Hw.
  pose proof (get_paginated_loop_writes fuel
                (Some (BASE_URL ++ "/user/followers")%string)
                (<["per_page" := 100%Z]> (default ∅ None)) 0 [] w) as Hp.
  change (get_paginated_loop send fuel _ _ 0 [] w)
    with (get_paginated send fuel (BASE_URL ++ "/user/followers")%string
            None w) in Hp.
  rewrite <- Hw in Hp.
  destruct (fetch_logins send fuel _ w) as [[[l | e] |] w1];
    [| destruct (truthy _) |]; exact Hp.
Qed.

Lemma get_user_info_writes username w :
  writes (log (get_user_info send username w).2) = writes (log w).
Proof.
  unfold get_user_info.
  pose proof (writes_get (BASE_URL ++ "/users/" ++ username)%string None w)
    as Hw.
  destruct (make_api_request send GET _ None w) as [[r | e] w1];
    [| exact Hw].
  destruct (_ =? _)%Z; [| exact Hw]. destruct (resp_body r); exact Hw.
Qed.

Lemma get_account_stats_writes fuel force w :
  writes (log (get_account_stats send USERNAME fuel force w).2)
  = writes (log w).
Proof.
  unfold get_account_stats.
  pose proof (get_following_writes fuel force w) as Hf.
  destruct (get_following send fuel force w) as [[[fl | e] |] w0];
    cbn [snd] in Hf; try exact Hf.
  pose proof (get_followers_writes fuel force w0) as Hg.
  destruct (get_followers send fuel force w0) as [[[gl | e] |] w0'];
    cbn [snd] in Hg; cbn zeta; cbn [snd];
    try (rewrite Hg; exact Hf).
  pose proof (get_user_info_writes USERNAME w0') as Hu.
  destruct (get_user_info send USERNAME w0') as [info w0''].
  destruct (fromtimestamp_error _); cbn [snd] in *; rewrite Hu, Hg; exact Hf.
Qed.

Lemma refresh_after_writes fuel successful w :
  writes (log (refresh_after send fuel successful w).2) = writes (log w).
Proof.
  unfold refresh_after. destruct (_ <? _)%nat; [| reflexivity].
  pose proof (get_following_writes fuel true w) as Hf.
  destruct (get_following send fuel true w) as [[[fl | e] |] w0]; exact Hf.
Qed.

Lemma enumerate_spec {A : Type} (l : list A) :
  ∀ start, (enumerate start l).*1 = seq start (length l)
           ∧ (enumerate start l).*2 = l.
Proof.
  induction l as [| x l IH]; intros start; cbn; [auto |].
  destruct (IH (S start)) as [-> ->]. auto.
Qed.

(** X12.  The previews only read.  [dry_run_analysis],
    [follow_back_suggestions] and [get_account_stats] send GET requests
    and nothing else: no identity is followed or unfollowed by looking
    at the analysis.  The preview lists the first 20 non-mutuals,
    numbered from 1 in the order of the list, and announces the
    remaining ones exactly when there are more than 20; the suggestions
    do the same with the first 30 of those not followed back. *)
Theorem previews_only_read fuel force w :
  writes (log (get_account_stats send USERNAME fuel force w).2)
  = writes (log w)
  ∧ writes (log (dry_run_analysis send USERNAME fuel force w).2)
    = writes (log w)
  ∧ writes (log (follow_back_suggestions send USERNAME fuel w).2)
    = writes (log w)
  ∧ (∀ st nm nfb m w1,
       get_account_stats send USERNAME fuel force w
       = (Some (Stats st, nm, nfb, m), w1) →
       ∃ listed more,
         dry_run_analysis send USERNAME fuel force w
         = (Some (Preview st listed more), w1)
         ∧ listed.*2 = take 20 nm
         ∧ listed.*1 = seq 1 (Nat.min 20 (length nm))
         ∧ length nm
           = (length listed + default 0%nat more)%nat
         ∧ (more = None ↔ (length nm ≤ 20)%nat))
  ∧ (∀ st nm nfb m w1,
       get_account_stats send USERNAME fuel false w
       = (Some (Stats st, nm, nfb, m), w1) →
       nfb ≠ [] →
       ∃ listed more,
         follow_back_suggestions send USERNAME fuel w
         = (Some (Suggestions (length nfb) listed more), w1)
         ∧ listed.*2 = take 30 nfb
         ∧ listed.*1 = seq 1 (Nat.min 30 (length nfb))
         ∧ length nfb
           = (length listed + default 0%nat more)%nat
         ∧ (more = None ↔ (length nfb ≤ 30)%nat)).
Proof.
  pose proof (get_account_stats_writes fuel force w) as Hs.
  pose proof (get_account_stats_writes fuel false w) as Hs'.
  split_and!.
  - exact Hs.
  - unfold dry_run_analysis.
    destruct (get_account_stats send USERNAME fuel force w)
      as [[[[[[e | st] nm] nfb] m] |] w1]; exact Hs.
  - unfold follow_back_suggestions.
    destruct (get_account_stats send USERNAME fuel false w)
      as [[[[[[e | st] nm] nfb] m] |] w1]; try exact Hs'.
    destruct (negb _); exact Hs'.
  - intros st nm nfb m w1 Hstats. unfold dry_run_analysis. rewrite Hstats.
    eexists _, _. split; [reflexivity |].
    destruct (enumerate_spec (take 20 nm) 1) as [H1 H2].
    rewrite H1, H2, length_take.
    assert (length (enumerate 1 (take 20 nm)) = Nat.min 20 (length nm)) as Hl.
    { rewrite <- (length_fmap snd), H2, length_take. reflexivity. }
    rewrite Hl. split_and!; auto.
    + destruct (Nat.ltb_spec 20 (length nm)); cbv [default from_option id];
        lia.
    + destruct (Nat.ltb_spec 20 (length nm)); split; intros; try discriminate;
        try lia; reflexivity.
  - intros st nm nfb m w1 Hstats Hne. unfold follow_back_suggestions.
    rewrite Hstats. apply truthy_true in Hne. rewrite Hne. cbn [negb].
    assert (take (Nat.min 30 (length nfb)) nfb = take 30 nfb) as Htake.
    { destruct (Nat.le_ge_cases 30 (length nfb)).
      - rewrite Nat.min_l by assumption. reflexivity.
      - rewrite Nat.min_r by assumption.
        rewrite !take_ge by lia. reflexivity. }
    rewrite Htake.
    eexists _, _. split; [reflexivity |].
    destruct (enumerate_spec (take 30 nfb) 1) as [H1 H2].
    rewrite H1, H2, length_take.
    assert (length (enumerate 1 (take 30 nfb)) = Nat.min 30 (length nfb))
      as Hl.
    { rewrite <- (length_fmap snd), H2, length_take. reflexivity. }
    rewrite Hl. split_and!; auto.
    + destruct (Nat.ltb_spec 30 (length nfb)); cbv [default from_option id];
        lia.
    + destruct (Nat.ltb_spec 30 (length nfb)); split; intros; try discriminate;
        try lia; reflexivity.
Qed.

End WriteFacts.

(** ** Who gets unfollowed *)

Section UnfollowFacts.

Context {server : Type} {py : platform}.
Variable send : server -> Q -> request -> server * Q * netresult.
Variable USERNAME : string.

Implicit Types (w : world server) (fuel : nat).

Lemma unfollow_requests_are_writes (users : list string) :
  filter (fun r => is_GET (req_method r) = false) (unfollow_requests users)
  = unfollow_requests users.
Proof.
  unfold unfollow_requests.
  induction (filter _ users) as [| x l IH]; [reflexivity |].
  rewrite fmap_cons, filter_cons_True by reflexivity. rewrite IH. reflexivity.
Qed.

Lemma selective_unfollow_loop_spec (users : list string) :
  ∀ results successful w,
    ∃ new,
      (selective_unfollow_loop send users results successful w).1.1
      = results ++ new
      ∧ line_user <$> new = users
      ∧ (selective_unfollow_loop send users results successful w).1.2
        = (successful + count_ok new)%nat
      ∧ sent (log (selective_unfollow_loop send users results successful w).2)
        = sent (log w) ++ unfollow_requests users
      ∧ cache_data (selective_unfollow_loop send users results successful w).2
        = cache_data w.
Proof.
  induction users as [| user rest IH]; intros results successful w.
  - exists []. cbn. rewrite !app_nil_r. unfold count_ok. cbn.
    split_and!; auto.
  - cbn [selective_unfollow_loop].
    destruct (unfollow_user_frame send user w) as (Hs & Hd & _).
    destruct (unfollow_user send user w) as [success w1]. cbn [snd] in *.
    destruct (IH (results ++ [{| line_ok := success; line_index := None;
                                 line_user := user |}])
                (if success then S successful else successful)
                (sleep (calculate_adaptive_delay w1) w1))
      as (new & Hres & Husers & Hn & Hsent & Hcd).
    exists ({| line_ok := success; line_index := None; line_user := user |}
            :: new).
    rewrite Hres, Hn, Hsent, Hcd, sent_sleep, Hs. cbn [sleep cache_data].
    rewrite Hd. split_and!; auto.
    + rewrite <- app_assoc. reflexivity.
    + cbn. rewrite Husers. reflexivity.
    + change ({| line_ok := success; line_index := None; line_user := user |}
              :: new)
        with ([{| line_ok := success; line_index := None;
                  line_user := user |}] ++ new).
      rewrite count_ok_app. unfold count_ok at 2.
      destruct success; cbn; case_decide; try congruence; cbn; lia.
    + rewrite <- app_assoc. f_equal. unfold unfollow_requests.
      change (user :: rest) with ([user] ++ rest).
      rewrite filter_app, fmap_app. reflexivity.
Qed.

(** The non-mutuals of a snapshot come from a following list that is
    not empty and is the one left in the cache. *)
Lemma non_mutuals_cached fuel force w st nm nfb m w1 :
  get_account_stats send USERNAME fuel force w
  = (Some (Stats st, nm, nfb, m), w1) →
  nm ≠ [] → following (cache_data w1) ≠ [].
Proof.
  intros Hstats Hnm.
  destruct (get_account_stats_snapshot send USERNAME fuel force w st nm nfb m
              w1 Hstats)
    as (fl & gl & w0 & w0' & _ & _ & Hnm' & _ & _ & _ & _ & _ & _ & _ & Hc).
  rewrite Hc. intros ->. apply Hnm. rewrite Hnm'.
  assert (non_mutuals (relationship_sets [] gl) = ∅) as ->;
    [| apply elements_empty].
  apply set_eq. intros x. unfold relationship_sets. cbn.
  rewrite elem_of_difference, elem_of_empty. tauto.
Qed.

(** X13.  [execute_full_unfollow] never follows anyone and unfollows
    only non-mutuals: the requests it sends that are not GET are the
    DELETE requests for the non-mutual list of the snapshot it took, one
    per name, in the order of the list.  Each of these names is in the
    following list read and not in the followers list read, and none is
    asked twice.  When the snapshot fails, no such request is sent. *)
Theorem full_unfollow_touches_only_non_mutuals fuel w :
  ∃ targets,
    writes (log (execute_full_unfollow send USERNAME fuel w).2)
    = writes (log w) ++ unfollow_requests targets
    ∧ NoDup targets
    ∧ (∀ st nm nfb m w1,
         get_account_stats send USERNAME fuel false w
         = (Some (Stats st, nm, nfb, m), w1) → targets = nm)
    ∧ (∀ e nm nfb m w1,
         get_account_stats send USERNAME fuel false w
         = (Some (StatsError e, nm, nfb, m), w1) → targets = [])
    ∧ (∀ x, x ∈ targets →
         ∃ following followers w0 w0',
           get_following send fuel false w = (Some (Ok following), w0)
           ∧ get_followers send fuel false w0 = (Some (Ok followers), w0')
           ∧ x ∈ following ∧ x ∉ followers).
Proof.
  pose proof (get_account_stats_writes send USERNAME fuel false w) as Hw.
  unfold execute_full_unfollow.
  destruct (get_account_stats send USERNAME fuel false w)
    as [[[[[[e | st] nm] nfb] m] |] w1] eqn:Hstats; cbn [snd] in Hw.
  - exists []. cbn. rewrite app_nil_r.
    split_and!; auto; try (intros; discriminate);
      [constructor | intros x Hx; inversion Hx].
  - destruct (get_account_stats_snapshot send USERNAME fuel false w st nm nfb
                m w1 Hstats)
      as (fl & gl & w0 & w0' & Hf & Hg & Hnm & _).
    assert (NoDup nm) as Hnd by (rewrite Hnm; apply NoDup_elements).
    assert (∀ x, x ∈ nm ↔ x ∈ fl ∧ x ∉ gl) as Hin.
    { intros x. rewrite Hnm. unfold relationship_sets. cbn [non_mutuals].
      rewrite elem_of_elements, elem_of_difference, !elem_of_list_to_set.
      reflexivity. }
    clear Hnm.
    exists nm. split_and!; auto.
    + destruct nm as [| x nm']; cbn [truthy negb].
      { cbn. rewrite app_nil_r. exact Hw. }
      destruct (full_unfollow_loop_spec send (x :: nm') (length (x :: nm')) 1
                  [] 0 w1) as (new & _ & _ & _ & _ & Hsent & _ & _).
      destruct (full_unfollow_loop send (length (x :: nm')) 1 (x :: nm') [] 0
                  w1) as [[results n] w2]. cbn [fst snd] in Hsent.
      pose proof (refresh_after_writes send fuel n w2) as Hr.
      assert (writes (log w2) = writes (log w) ++ unfollow_requests (x :: nm'))
        as Hw2.
      { rewrite (writes_extend w1 w2 _ Hsent), unfollow_requests_are_writes, Hw.
        reflexivity. }
      destruct (refresh_after send fuel n w2) as [[[[] | e] |] w3];
        cbn [snd] in *; rewrite Hr; exact Hw2.
    + intros st' nm'' nfb' m' w1' [= <- <- <- <- <-]. reflexivity.
    + intros; discriminate.
    + intros x Hx. exists fl, gl, w0, w0'. split_and!; auto;
        apply Hin in Hx; tauto.
  - exists []. cbn. rewrite app_nil_r.
    split_and!; auto; try (intros; discriminate);
      [constructor | intros x Hx; inversion Hx].
Qed.

End UnfollowFacts.

(** ** Selective unfollow *)

Section SelectiveFacts.

Context {server : Type} {py : platform}.
Variable send : server -> Q -> request -> server * Q * netresult.
Variable USERNAME : string.

Implicit Types (w : world server) (fuel : nat).

Lemma py_slice_to_prefix {A : Type} (n : Z) (l : list A) :
  ∃ k, py_slice_to n l = take k l
       ∧ ((0 <= n)%Z → k = Z.to_nat n)
       ∧ ((n < 0)%Z → k = (length l - Z.to_nat (- n))%nat).
Proof.
  unfold py_slice_to. destruct (Z.leb_spec 0 n).
  - exists (Z.to_nat n). split_and!; auto. lia.
  - exists (length l - Z.to_nat (- n))%nat. split_and!; auto. lia.
Qed.

Lemma selective_unfollow_run fuel count w st nm nfb m w1 :
  get_account_stats send USERNAME fuel false w
  = (Some (Stats st, nm, nfb, m), w1) →
  nm ≠ [] →
  let n := py_int count in
  let targets := py_slice_to n nm in
  let run := selective_unfollow_loop send targets [] 0 w1 in
  let out := execute_selective_unfollow send USERNAME fuel count w in
  writes (log out.2) = writes (log w) ++ unfollow_requests targets
  ∧ (∃ k, targets = take k nm)
  ∧ ((0 <= n)%Z →
     targets = take (Z.to_nat n) nm
     ∧ length targets = Nat.min (Z.to_nat n) (length nm))
  ∧ (n = 0%Z → out.1 = Some (Summary 0 0 []) ∧ writes (log out.2) = writes (log w))
  ∧ ((n < 0)%Z →
     length targets = (length nm - Z.to_nat (- n))%nat)
  ∧ line_user <$> run.1.1 = targets
  ∧ run.1.2 = count_ok run.1.1
  ∧ ((refresh_after send fuel run.1.2 run.2).1 ≠ None →
     out.1 = Some (Summary run.1.2 (length targets) run.1.1)).
Proof.
  intros Hstats Hnm. cbn zeta.
  set (n := py_int count). set (targets := py_slice_to n nm).
  pose proof (get_account_stats_writes send USERNAME fuel false w) as Hw.
  pose proof (non_mutuals_cached send USERNAME fuel false w st nm nfb m w1
                Hstats Hnm) as Hcached.
  destruct (selective_unfollow_loop_spec send targets [] 0 w1)
    as (new & Hres & Husers & Hn & Hsent & Hcd).
  cbn [app] in Hres.
  assert (execute_selective_unfollow send USERNAME fuel count w
          = match refresh_after send fuel
                    (selective_unfollow_loop send targets [] 0 w1).1.2
                    (selective_unfollow_loop send targets [] 0 w1).2 with
            | (None, w3) => (None, w3)
            | (Some (Raise e), w3) => (Some (ErrorMessage e), w3)
            | (Some (Ok _), w3) =>
                (Some (Summary
                         (selective_unfollow_loop send targets [] 0 w1).1.2
                         (length targets)
                         (selective_unfollow_loop send targets [] 0 w1).1.1),
                 w3)
            end) as Hexec.
  { unfold execute_selective_unfollow. rewrite Hstats.
    apply truthy_true in Hnm. rewrite Hnm. cbn [negb]. fold n. fold targets.
    destruct (selective_unfollow_loop send targets [] 0 w1) as [[res k] w2].
    reflexivity. }
  rewrite Hstats in Hw. cbn [snd] in Hw.
  destruct (selective_unfollow_loop send targets [] 0 w1) as [[res k] w2].
  cbn [fst snd] in *.
  pose proof (refresh_after_writes send fuel k w2) as Hr.
  destruct (refresh_after_cached send fuel k w2) as [Hok | Hnone].
  { rewrite Hcd. exact Hcached. }
  all: assert (writes (log w2) = writes (log w) ++ unfollow_requests targets)
    as Hw2
    by (rewrite (writes_extend w1 w2 _ Hsent), unfollow_requests_are_writes,
          Hw; reflexivity).
  all: assert (writes (log (execute_selective_unfollow send USERNAME fuel
                              count w).2)
               = writes (log w) ++ unfollow_requests targets) as Hwrites
    by (rewrite Hexec;
        destruct (refresh_after send fuel k w2) as [[[[] | e] |] w3];
        cbn [snd] in *; rewrite Hr; exact Hw2).
  all: destruct (py_slice_to_prefix n nm) as (j & Hj & Hpos & Hneg);
    fold targets in Hj.
  all: split_and!; auto.
  all: try (exists j; exact Hj).
  all: try (intros Hn0; rewrite Hj, (Hpos Hn0); split;
            [reflexivity | apply length_take]).
  all: try (intros Hn0; rewrite Hj, (Hneg Hn0), length_take; lia).
  all: try (subst res; exact Husers).
  all: try (subst res k; reflexivity).
  - intros Hz. assert (targets = []) as Ht.
    { rewrite Hj, Hpos by lia. rewrite Hz. reflexivity. }
    split.
    + rewrite Hexec. revert Hok Hres Hn Husers. rewrite Ht.
      intros Hok -> -> Hu. destruct new; [| discriminate].
      destruct (refresh_after send fuel _ w2) as [[[[] | e] |] w3];
        cbn in *; try discriminate. reflexivity.
    + rewrite Hwrites, Ht. cbn. apply app_nil_r.
  - intros _. rewrite Hexec.
    destruct (refresh_after send fuel k w2) as [[[[] | e] |] w3];
      cbn in *; try discriminate. reflexivity.
  - intros Hz. assert (targets = []) as Ht.
    { rewrite Hj, Hpos by lia. rewrite Hz. reflexivity. }
    split.
    + exfalso. revert Hnone Hn. rewrite Ht in Husers.
      destruct new; [| discriminate]. intros Hnone ->.
      unfold refresh_after in Hnone. cbn in Hnone. discriminate.
    + rewrite Hwrites, Ht. cbn. apply app_nil_r.
  - intros Hnn. contradiction.
Qed.

Lemma py_int_inject_Z (z : Z) : py_int (inject_Z z) = z.
Proof.
  unfold py_int. destruct (Qle_bool 0 (inject_Z z));
    [apply Qfloor_Z | apply Qceiling_Z].
Qed.

Lemma py_int_small (x : Q) : (-1 < x)%Q → (x < 1)%Q → py_int x = 0%Z.
Proof.
  intros Hlo Hhi. unfold py_int. destruct (Qle_bool 0 x) eqn:E.
  - apply Qle_bool_iff in E.
    pose proof (Qfloor_le x) as H1. pose proof (Qlt_floor x) as H2.
    assert (inject_Z (Qfloor x) < inject_Z 1)%Q as H3
      by (eapply Qle_lt_trans; [exact H1 | exact Hhi]).
    assert (inject_Z (-1) < inject_Z (Qfloor x))%Q as H4.
    { rewrite inject_Z_plus in H2. change (inject_Z 1) with 1%Q in H2.
      change (inject_Z (-1)) with (-1)%Q. lra. }
    rewrite <- Zlt_Qlt in H3, H4. lia.
  - assert (x < 0)%Q as Hneg.
    { apply Qnot_le_lt. intros H. apply Qle_bool_iff in H. congruence. }
    pose proof (Qle_ceiling x) as H1. pose proof (Qceiling_lt x) as H2.
    assert (inject_Z (Qceiling x - 1) < inject_Z 0)%Q as H3
      by (eapply Qlt_trans; [exact H2 | exact Hneg]).
    assert (inject_Z (-1) < inject_Z (Qceiling x))%Q as H4
      by (eapply Qlt_le_trans; [exact Hlo | exact H1]).
    rewrite <- Zlt_Qlt in H3, H4. lia.
Qed.

(** X14.  [execute_selective_unfollow] works on the slice
    [non_mutuals[:int(count)]] of the snapshot it took.  The requests it
    sends that are not GET are the DELETE requests for that slice, in
    order; the slice is a prefix of the non-mutual list, of
    [min(count, len)] names for a count that is not negative.  A
    count below 1 and above -1 selects nobody: the run reports 0 of 0.
    A count of -1 or less is not refused: all non-mutuals but the last
    [-count] are unfollowed.  The summary counts the successes over the
    length of the slice, one entry per name of the slice in order, and
    only a refresh that does not come back can withhold it. *)
Theorem selective_unfollow_slice :
  (∀ z : Z, py_int (inject_Z z) = z)
  ∧ (∀ x : Q, (-1 < x)%Q → (x < 1)%Q → py_int x = 0%Z)
  ∧ (∀ fuel count w st nm nfb m w1,
       get_account_stats send USERNAME fuel false w
       = (Some (Stats st, nm, nfb, m), w1) →
       nm ≠ [] →
       let n := py_int count in
       let targets := py_slice_to n nm in
       let run := selective_unfollow_loop send targets [] 0 w1 in
       let out := execute_selective_unfollow send USERNAME fuel count w in
       writes (log out.2) = writes (log w) ++ unfollow_requests targets
       ∧ (∃ k, targets = take k nm)
       ∧ ((0 <= n)%Z →
          targets = take (Z.to_nat n) nm
          ∧ length targets = Nat.min (Z.to_nat n) (length nm))
       ∧ (n = 0%Z →
          out.1 = Some (Summary 0 0 [])
          ∧ writes (log out.2) = writes (log w))
       ∧ ((n < 0)%Z →
          length targets = (length nm - Z.to_nat (- n))%nat)
       ∧ line_user <$> run.1.1 = targets
       ∧ run.1.2 = count_ok run.1.1
       ∧ ((refresh_after send fuel run.1.2 run.2).1 ≠ None →
          out.1 = Some (Summary run.1.2 (length targets) run.1.1))).
Proof.
  split_and!.
  - exact py_int_inject_Z.
  - exact py_int_small.
  - exact selective_unfollow_run.
Qed.

End SelectiveFacts.

(** ** The pause of a full unfollow *)

(** X15.  The pause taken between batches of a full unfollow is
    bounded: it never sets the clock back and never lasts more than 30
    seconds.  It is only taken when fewer than 100 requests remain and
    the reset time is still ahead, and then lasts until the reset time
    or 30 seconds, whichever comes first.  It sends nothing and changes
    neither the quota nor the cache. *)
Theorem batch_pause_bounded {server : Type} (w : world server) :
  (clock w <= clock (batch_pause w))%Q
  ∧ (clock (batch_pause w) <= clock w + 30)%Q
  ∧ sent (log (batch_pause w)) = sent (log w)
  ∧ rate_limit_remaining (batch_pause w) = rate_limit_remaining w
  ∧ rate_limit_reset (batch_pause w) = rate_limit_reset w
  ∧ cache_data (batch_pause w) = cache_data w
  ∧ ((100 <= rate_limit_remaining w)%Z → batch_pause w = w)
  ∧ ((inject_Z (rate_limit_reset w) <= clock w)%Q → batch_pause w = w)
  ∧ ((rate_limit_remaining w < 100)%Z →
     (clock w < inject_Z (rate_limit_reset w))%Q →
     ((inject_Z (rate_limit_reset w) - clock w < 30)%Q →
      (clock (batch_pause w) == inject_Z (rate_limit_reset w))%Q)
     ∧ ((30 <= inject_Z (rate_limit_reset w) - clock w)%Q →
        (clock (batch_pause w) == clock w + 30)%Q)).
Proof.
  unfold batch_pause, MIN_RATE_LIMIT_THRESHOLD, py_min.
  destruct (Z.ltb_spec (rate_limit_remaining w) 100) as [Hlow | Hhigh].
  - destruct (Qltb (inject_Z (rate_limit_reset w) - clock w) 30) eqn:E30.
    + apply Qltb_lt in E30.
      destruct (Qltb 0 (inject_Z (rate_limit_reset w) - clock w)) eqn:E0.
      * apply Qltb_lt in E0. rewrite sent_sleep. cbn.
        split_and!; auto; try lra; try (intros; lia); try (intros; lra).
      * apply Qltb_ge in E0.
        split_and!; auto; try lra; try (intros; lia); try (intros; lra).
    + apply Qltb_ge in E30.
      assert (Qltb 0 30 = true) as -> by reflexivity.
      rewrite sent_sleep. cbn.
      split_and!; auto; try lra; try (intros; lia); try (intros; lra).
  - split_and!; auto; try lra; try (intros; lia).
Qed.

(** ** Clearing the cache *)

Section ClearFacts.

Context {server : Type} {py : platform}.
Variable send : server -> Q -> request -> server * Q * netresult.

Implicit Types (w : world server) (fuel : nat).

(** X16.  [clear_cache_handler] puts the cache back to its state at
    start-up and reports both relations as not cached; quota, clock and
    log are left alone.  After it every read goes to the service, and a
    refresh that fails has nothing to fall back on: the error is
    raised. *)
Theorem clear_cache_forgets fuel w :
  let w' := (clear_cache_handler w).2 in
  (clear_cache_handler w).1 = (None, None)
  ∧ cache_data w' = cache_data (initial_world (remote w) (clock w))
  ∧ cache_timestamp w' = cache_timestamp (initial_world (remote w) (clock w))
  ∧ rate_limit_remaining w' = rate_limit_remaining w
  ∧ rate_limit_reset w' = rate_limit_reset w
  ∧ clock w' = clock w ∧ log w' = log w ∧ remote w' = remote w
  ∧ (∃ evs,
       log (get_following send (S fuel) false w').2
       = log w ++ Slept (calculate_adaptive_delay w)
           :: Sent (wire GET (BASE_URL ++ "/user/following")%string
                      first_page_params) :: evs)
  ∧ (∃ evs,
       log (get_followers send (S fuel) false w').2
       = log w ++ Slept (calculate_adaptive_delay w)
           :: Sent (wire GET (BASE_URL ++ "/user/followers")%string
                      first_page_params) :: evs)
  ∧ (∀ e w1,
       fetch_logins send fuel (BASE_URL ++ "/user/following")%string w'
       = (Some (Raise e), w1) →
       get_following send fuel false w' = (Some (Raise e), w1))
  ∧ (∀ e w1,
       fetch_logins send fuel (BASE_URL ++ "/user/followers")%string w'
       = (Some (Raise e), w1) →
       get_followers send fuel false w' = (Some (Raise e), w1)).
Proof.
  cbn zeta. unfold clear_cache_handler, get_cache_status. cbn [fst snd].
  set (w' := set_cache _ _ w).
  split_and!; try reflexivity.
  - destruct (get_following_miss_net send fuel false w') as (_ & _ & H);
      [right; left; reflexivity | exact H].
  - destruct (get_followers_miss_net send fuel false w') as (_ & _ & H);
      [right; left; reflexivity | exact H].
  - intros e w1 Hfetch.
    destruct (fetch_logins_frame send fuel
                (BASE_URL ++ "/user/following")%string w') as [Hd _].
    rewrite Hfetch in Hd. cbn in Hd.
    rewrite (get_following_miss send fuel false w'), Hfetch, Hd;
      [reflexivity | right; left; reflexivity].
  - intros e w1 Hfetch.
    destruct (fetch_logins_frame send fuel
                (BASE_URL ++ "/user/followers")%string w') as [Hd _].
    rewrite Hfetch in Hd. cbn in Hd.
    rewrite (get_followers_miss send fuel false w'), Hfetch, Hd;
      [reflexivity | right; left; reflexivity].
Qed.

End ClearFacts.

(** ** The names of a follow run *)

Lemma lstrip_head (s : string) :
  match lstrip s with
  | String c _ => is_space c = false
  | EmptyString => True
  end.
Proof.
  induction s as [| c s IH]; cbn; [exact I |].
  destruct (is_space c) eqn:E; [exact IH | exact E].
Qed.

Lemma lstrip_id (t : string) :
  match t with String c _ => is_space c = false | EmptyString => True end →
  lstrip t = t.
Proof. destruct t as [| c t]; cbn; [reflexivity |]. intros ->. reflexivity. Qed.

Lemma rstrip_head (t : string) :
  match t with String c _ => is_space c = false | EmptyString => True end →
  match rstrip t with
  | String c _ => is_space c = false
  | EmptyString => True
  end.
Proof.
  destruct t as [| c t]; cbn; [auto |]. intros Hc.
  destruct (rstrip t); [rewrite Hc |]; exact Hc.
Qed.

Lemma rstrip_idem (s : string) : rstrip (rstrip s) = rstrip s.
Proof.
  induction s as [| c s IH]; cbn; [reflexivity |].
  destruct (rstrip s) as [| d r] eqn:E.
  - destruct (is_space c) eqn:Ec; cbn; [reflexivity |]. rewrite Ec.
    reflexivity.
  - change (rstrip (String c (String d r))) with
      (match rstrip (String d r) with
       | EmptyString =>
           if is_space c then EmptyString else String c EmptyString
       | r' => String c r'
       end).
    rewrite IH. reflexivity.
Qed.

Lemma strip_idem (s : string) : strip (strip s) = strip s.
Proof.
  unfold strip.
  rewrite (lstrip_id (rstrip (lstrip s))) by apply rstrip_head, lstrip_head.
  apply rstrip_idem.
Qed.

Lemma is_space_lower (c : ascii) : is_space (lower_ascii c) = is_space c.
Proof. destruct c as [[] [] [] [] [] [] [] []]; reflexivity. Qed.

Lemma lstrip_lower (s : string) : lstrip (lower s) = lower (lstrip s).
Proof.
  induction s as [| c s IH]; cbn; [reflexivity |].
  rewrite is_space_lower. destruct (is_space c); [exact IH | reflexivity].
Qed.

Lemma rstrip_lower (s : string) : rstrip (lower s) = lower (rstrip s).
Proof.
  induction s as [| c s IH]; cbn; [reflexivity |].
  rewrite IH, is_space_lower.
  destruct (rstrip s); cbn; [destruct (is_space c) |]; reflexivity.
Qed.

Lemma strip_lower (s : string) : strip (lower s) = lower (strip s).
Proof. unfold strip. rewrite lstrip_lower. apply rstrip_lower. Qed.

Lemma nonempty_lower (s : string) : nonempty_str (lower s) = nonempty_str s.
Proof. destruct s; reflexivity. Qed.

Section NameFacts.

Context {server : Type} {py : platform}.
Variable send : server -> Q -> request -> server * Q * netresult.

Implicit Types (w : world server) (fuel : nat).

(** X17.  The names that [follow_selected_users] works on are the
    stripped pieces of its input that are not blank, in the order of
    the input: none is empty, none has white space around it, and there
    are no more of them than pieces.  [follow_user] has no guard against
    a blank name, but none reaches it from here: the request for each
    name ends in the lower-cased name, which is not empty.  An input
    without any such piece ends the run before anything is sent, with
    one of the two messages for a missing name. *)
Theorem parse_usernames_clean (usernames : string) :
  (∀ u, u ∈ parse_usernames usernames ↔
        ∃ piece, piece ∈ split_comma usernames
                 ∧ nonempty_str (strip piece) = true ∧ u = strip piece)
  ∧ (∀ u, u ∈ parse_usernames usernames →
          nonempty_str u = true ∧ strip u = u
          ∧ nonempty_str (lower u) = true
          ∧ follow_request u
            = wire PUT (BASE_URL ++ "/user/following/" ++ lower u)%string
                None)
  ∧ (length (parse_usernames usernames) ≤ length (split_comma usernames))%nat
  ∧ (∀ fuel w,
       parse_usernames usernames = [] →
       ∃ r, follow_selected_users send fuel usernames w = (Some (Ok r), w)
            ∧ (r = NoUsernames ∨ r = NoValidUsernames)).
Proof.
  assert (∀ u, u ∈ parse_usernames usernames ↔
        ∃ piece, piece ∈ split_comma usernames
                 ∧ nonempty_str (strip piece) = true ∧ u = strip piece)
    as Hspec.
  { intros u. unfold parse_usernames. rewrite list_elem_of_fmap. split.
    - intros (piece & -> & Hin). apply list_elem_of_filter in Hin as [Hne Hin].
      exists piece. auto.
    - intros (piece & Hin & Hne & ->). exists piece. split; [reflexivity |].
      apply list_elem_of_filter. auto. }
  split_and!.
  - exact Hspec.
  - intros u Hu. apply Hspec in Hu as (piece & _ & Hne & ->).
    rewrite nonempty_lower, strip_idem. split_and!; auto.
    unfold follow_request. rewrite strip_lower, strip_idem. reflexivity.
  - unfold parse_usernames. rewrite length_fmap. apply length_filter.
  - intros fuel w Hnil. unfold follow_selected_users.
    destruct (negb (nonempty_str usernames)
              || negb (nonempty_str (strip usernames))).
    + exists NoUsernames. auto.
    + rewrite Hnil. cbn. exists NoValidUsernames. auto.
Qed.

End NameFacts.

(** ** Instances of the further properties *)

Lemma make_api_request_outcome_witness :
  (make_api_request scripted_send DELETE "u" None
     (initial_world [server_error 404] 1700000000)).1
  = Ok (plain_response 404 (Object {["message" := "failed"]}) None)
  ∧ (∃ reset,
       (make_api_request scripted_send GET "u" None throttled_unfollow).1
       = Raise (RateLimitExceededError reset "u"))
  ∧ (∃ e,
       (make_api_request scripted_send GET "u" None
          (initial_world [server_error 500] 1700000000)).1 = Raise e
       ∧ is_RateLimitExceededError e = false)
  ∧ (make_api_request scripted_send DELETE "u" None far_reset_unfollow).1
    = Raise (OtherException "ValueError")
  ∧ (make_api_request scripted_send GET "u" None
       (initial_world [] 1700000000)).1
    = Raise (GitHubAPIError 0 "connection refused" "u").
Proof.
  split_and!.
  - destruct (make_api_request_outcome scripted_send DELETE "u" None
                (initial_world [server_error 404] 1700000000))
      as (_ & H & _).
    apply H;
      [reflexivity | reflexivity | right; split; reflexivity | discriminate].
  - destruct (make_api_request_outcome scripted_send GET "u" None
                throttled_unfollow) as (_ & _ & H & _).
    destruct (H (throttled_response 1700000060)) as (reset & Hraise & _);
      [reflexivity | reflexivity | reflexivity |].
    exists reset. exact Hraise.
  - destruct (make_api_request_outcome scripted_send GET "u" None
                (initial_world [server_error 500] 1700000000))
      as (_ & _ & _ & H & _).
    apply (H (plain_response 500 (Object {["message" := "failed"]}) None));
      [reflexivity | reflexivity | discriminate | discriminate
      | intros [? _]; discriminate].
  - destruct (make_api_request_outcome scripted_send DELETE "u" None
                far_reset_unfollow) as (_ & _ & _ & _ & H & _).
    destruct (H {| status_code := 204;
                   x_ratelimit_remaining := Some (Int 4999);
                   x_ratelimit_reset := Some (Int 1000000000000);
                   resp_body := Empty;
                   next_link := None |}
                (OtherException "ValueError")) as [Hraise _];
      [reflexivity | reflexivity | exact Hraise].
  - destruct (make_api_request_outcome scripted_send GET "u" None
                (initial_world [] 1700000000))
      as (_ & _ & _ & _ & _ & _ & _ & H).
    destruct (H "connection refused") as [H1 _];
      [reflexivity | exact H1].
Defined.

Lemma get_paginated_never_http_error_witness :
  (get_paginated scripted_send 1 "u" None
     (initial_world [server_error 500] 1700000000)).1
  = Some (Raise (GitHubAPIError 500 "failed" "u"))
  ∧ (∀ status, GitHubAPIError 500 "failed" "u" ≠ HTTPError status)
  ∧ is_RateLimitExceededError (GitHubAPIError 500 "failed" "u") = false.
Proof.
  split; [reflexivity |].
  apply (get_paginated_never_http_error scripted_send 1 "u" None
           (initial_world [server_error 500] 1700000000)).
  reflexivity.
Defined.

Lemma get_paginated_unbounded_retry_witness :
  (get_paginated refusing_send 3 (BASE_URL ++ "/user/following")%string None
     (initial_world 1700000060%Z 1700000000)).1 = None
  ∧ (get_paginated refusing_send 1 (BASE_URL ++ "/user/following")%string
       None (initial_world 1000000000000%Z 1700000000)).1
    = Some (Raise (OtherException "ValueError"))
  ∧ (get_paginated refusing_send 1 (BASE_URL ++ "/user/following")%string
       None (initial_world 20000000000%Z 1700000000)).1
    = Some (Raise (OtherException "OverflowError")).
Proof.
  split_and!.
  - destruct (get_paginated_unbounded_retry 3
                (initial_world 1700000060%Z 1700000000)) as [H _].
    destruct H as (H1 & _);
      [reflexivity | vm_compute; discriminate | vm_compute; discriminate
      | exact H1].
  - destruct (get_paginated_unbounded_retry 0
                (initial_world 1000000000000%Z 1700000000)) as (_ & H & _).
    apply H. reflexivity.
  - destruct (get_paginated_unbounded_retry 0
                (initial_world 20000000000%Z 1700000000)) as (_ & _ & H).
    apply H; [reflexivity | vm_compute; reflexivity].
Defined.

Lemma refresh_takes_stripped_logins_witness :
  (get_following scripted_send 1 true
     (initial_world [users_page [" a "; "b"]] 1700000000)).1
  = Some (Ok ["a"; "b"])
  ∧ (get_following scripted_send 1 true
       (cached_world ["x"] [] 1700000000 1700000060
          [Response (plain_response 200 (Array [User "a"; NoLogin]) None)])).1
    = Some (Ok ["x"])
  ∧ (get_following scripted_send 1 true
       (initial_world
          [Response (plain_response 200 (Object {["message" := "moved"]})
                       None)]
          1700000000)).1
    = Some (Raise (OtherException "TypeError")).
Proof.
  split_and!.
  - destruct (refresh_takes_stripped_logins scripted_send 1 true
                (initial_world [users_page [" a "; "b"]] 1700000000)
                [User " a "; User "b"]
                (get_paginated scripted_send 1
                   (BASE_URL ++ "/user/following")%string None
                   (initial_world [users_page [" a "; "b"]] 1700000000)).2)
      as [H _]; [left; reflexivity | reflexivity |].
    destruct (H [" a "; "b"]) as (Hout & _); [reflexivity | exact Hout].
  - destruct (refresh_takes_stripped_logins scripted_send 1 true
                (cached_world ["x"] [] 1700000000 1700000060
                   [Response (plain_response 200 (Array [User "a"; NoLogin])
                                None)])
                [User "a"; NoLogin]
                (get_paginated scripted_send 1
                   (BASE_URL ++ "/user/following")%string None
                   (cached_world ["x"] [] 1700000000 1700000060
                      [Response (plain_response 200
                                   (Array [User "a"; NoLogin]) None)])).2)
      as [_ H]; [left; reflexivity | reflexivity |].
    destruct (H ["a"] NoLogin []) as (_ & _ & Hout);
      [reflexivity | discriminate | exact Hout].
  - destruct (refresh_takes_stripped_logins scripted_send 1 true
                (initial_world
                   [Response (plain_response 200
                                (Object {["message" := "moved"]}) None)]
                   1700000000)
                [NotObject]
                (get_paginated scripted_send 1
                   (BASE_URL ++ "/user/following")%string None
                   (initial_world
                      [Response (plain_response 200
                                   (Object {["message" := "moved"]}) None)]
                      1700000000)).2)
      as [_ H]; [left; reflexivity | vm_compute; reflexivity |].
    destruct (H [] NotObject []) as (_ & _ & Hout);
      [reflexivity | discriminate | exact Hout].
Defined.

Lemma cache_entries_independent_witness :
  following (cache_data (get_following scripted_send 1 false cold_follow).2)
  = ["x"].
Proof.
  destruct (cache_entries_independent scripted_send 1 false cold_follow)
    as (_ & _ & _ & _ & H & _).
  apply (H ["x"] (get_following scripted_send 1 false cold_follow).2).
  reflexivity.
Defined.

Lemma refresh_stamp_is_start_time_witness :
  get_following scripted_send 0 false
    (get_following scripted_send 1 false cold_follow).2
  = (Some (Ok ["x"]), (get_following scripted_send 1 false cold_follow).2)
  ∧ ∃ evs,
      log (get_following scripted_send 1 false
             (get_following scripted_send 2 false slow_refresh).2).2
      = log (get_following scripted_send 2 false slow_refresh).2
        ++ Slept (calculate_adaptive_delay
                    (get_following scripted_send 2 false slow_refresh).2)
          :: Sent (wire GET (BASE_URL ++ "/user/following")%string
                     first_page_params) :: evs.
Proof.
  split.
  - destruct (refresh_stamp_is_start_time scripted_send 1 0 false cold_follow
                ["x"]
                (fetch_logins scripted_send 1
                   (BASE_URL ++ "/user/following")%string cold_follow).2)
      as (_ & _ & _ & H & _);
      [right; left; reflexivity | reflexivity |].
    apply H; [discriminate | reflexivity].
  - destruct (refresh_stamp_is_start_time scripted_send 2 0 false slow_refresh
                ["x"]
                (fetch_logins scripted_send 2
                   (BASE_URL ++ "/user/following")%string slow_refresh).2)
      as (_ & _ & _ & _ & H);
      [right; left; reflexivity | reflexivity |].
    apply H. vm_compute. discriminate.
Defined.

Lemma follow_user_outcome_witness :
  (follow_user scripted_send 1 "Octocat" cold_follow).1 = Some true
  ∧ following
      (cache_timestamp (follow_user scripted_send 1 "Octocat" cold_follow).2)
    = 0%Q
  ∧ follow_user scripted_send 1 "Octocat"
      (cached_world ["octocat"] [] 1700000000 1700000060 [])
    = (Some true, cached_world ["octocat"] [] 1700000000 1700000060 [])
  ∧ follow_user scripted_send 1 "Octocat"
      (initial_world [server_error 500] 1700000000)
    = (Some false,
       (get_following scripted_send 1 false
          (initial_world [server_error 500] 1700000000)).2).
Proof.
  split_and!.
  - reflexivity.
  - destruct (follow_user_outcome scripted_send 1 0 "Octocat" cold_follow)
      as [_ H].
    assert (Hget : get_following scripted_send 1 false cold_follow
                   = (Some (Ok ["x"]),
                      (get_following scripted_send 1 false cold_follow).2))
      by (vm_compute; reflexivity).
    destruct (H ["x"] _ Hget) as [_ H2].
    destruct H2 as (_ & _ & _ & _ & Ht & _).
    + apply (bool_decide_unpack _). vm_compute. exact I.
    + apply Ht. vm_compute. reflexivity.
  - destruct (follow_user_outcome scripted_send 1 0 "Octocat"
                (cached_world ["octocat"] [] 1700000000 1700000060 []))
      as [_ H].
    assert (Hget : get_following scripted_send 1 false
                     (cached_world ["octocat"] [] 1700000000 1700000060 [])
                   = (Some (Ok ["octocat"]),
                      cached_world ["octocat"] [] 1700000000 1700000060 []))
      by (vm_compute; reflexivity).
    destruct (H ["octocat"] _ Hget) as [H1 _].
    apply H1. apply (bool_decide_unpack _). vm_compute. exact I.
  - destruct (follow_user_outcome scripted_send 1 0 "Octocat"
                (initial_world [server_error 500] 1700000000)) as [H _].
    apply (H (GitHubAPIError 500 "failed"
                (BASE_URL ++ "/user/following")%string)).
    reflexivity.
Defined.

Lemma unfollow_leaves_cached_list_witness :
  (get_following scripted_send 0 false
     (unfollow_user scripted_send "a"
        (cached_world ["a"] [] 1700000000 1700000060 [no_content])).2).1
  = Some (Ok ["a"]).
Proof.
  destruct (unfollow_leaves_cached_list scripted_send 0 "a"
              (cached_world ["a"] [] 1700000000 1700000060 [no_content]))
    as (_ & _ & H).
  rewrite H; [reflexivity | discriminate | reflexivity].
Defined.

Lemma get_user_info_outcome_witness :
  (get_user_info scripted_send "me"
     (initial_world
        [Response (plain_response 200 (Object {["name" := "Me"]}) None)]
        1700000000)).1
  = Some {["name" := "Me"]}.
Proof.
  destruct (get_user_info_outcome scripted_send "me"
              (initial_world
                 [Response (plain_response 200 (Object {["name" := "Me"]})
                              None)]
                 1700000000)) as (_ & _ & _ & H).
  apply H.
  exists (plain_response 200 (Object {["name" := "Me"]}) None).
  split_and!; reflexivity.
Defined.

Lemma get_account_stats_degrades_witness :
  (get_account_stats scripted_send "me" 1 true
     (cached_world ["a"] ["b"] 1700000000 1700000400 [])).1
  ≠ Some (StatsError (GitHubAPIError 0 "connection refused"
                        (BASE_URL ++ "/user/following")%string), [], [], [])
  ∧ following
      (cache_data (initial_world [server_error 500] 1700000000)) = []
  ∧ fromtimestamp_error
      (rate_limit_reset
         (get_account_stats scripted_send "me" 1 false unformattable_stats).2)
    = Some "ValueError".
Proof.
  split_and!.
  - destruct (get_account_stats_degrades scripted_send "me" 1 true
                (cached_world ["a"] ["b"] 1700000000 1700000400 []))
      as [H _].
    apply H; [discriminate | discriminate | reflexivity].
  - destruct (get_account_stats_degrades scripted_send "me" 1 false
                (initial_world [server_error 500] 1700000000)) as [_ H].
    destruct (H (GitHubAPIError 500 "failed"
                   (BASE_URL ++ "/user/following")%string) [] [] [])
      as (_ & _ & _ & [[_ Hc] | [(l & w0 & Hf & _)
                                | (l & w0 & l' & w0' & what & Hf & _)]]).
    + vm_compute. reflexivity.
    + exact Hc.
    + discriminate Hf.
    + discriminate Hf.
  - destruct (get_account_stats_degrades scripted_send "me" 1 false
                unformattable_stats) as [_ H].
    destruct (H (OtherException "ValueError") [] [] [])
      as (_ & _ & _ & [[Hf _] | [(l & w0 & Hf & Hg & _)
                                | (l & w0 & l' & w0' & what & _ & _ & He
                                   & Hwhat)]]).
    + vm_compute. reflexivity.
    + discriminate Hf.
    + pose proof (f_equal snd Hf) as Hw. cbn [snd] in Hw. subst w0.
      vm_compute in Hg. discriminate Hg.
    + injection He as <-. exact Hwhat.
Defined.

Lemma stats_numbers_add_up_witness :
  ∃ following followers w0 w0',
    get_following scripted_send 1 false mixed_account
    = (Some (Ok following), w0)
    ∧ get_followers scripted_send 1 false w0 = (Some (Ok followers), w0')
    ∧ (∀ x, x ∈ ["a"] ↔ x ∈ following ∧ x ∉ followers)
    ∧ (∀ x, x ∈ ["c"] ↔ x ∈ followers ∧ x ∉ following)
    ∧ (∀ x, x ∈ ["b"] ↔ x ∈ following ∧ x ∈ followers).
Proof.
  destruct (stats_numbers_add_up _ reference_platform scripted_send "me"
              1%nat false mixed_account mixed_stats ["a"] ["c"] ["b"]
              (get_account_stats scripted_send "me" 1 false
                 mixed_account).2)
    as (fl & gl & w0 & w0' & H1 & H2 & _ & _ & _ & _ & _ & _ & _ & _ & _ & _
        & H3 & H4 & H5).
  - vm_compute. reflexivity.
  - exists fl, gl, w0, w0'. auto.
Defined.

Lemma previews_only_read_witness :
  (∃ listed more,
     dry_run_analysis scripted_send "me" 1 false mixed_account
     = (Some (Preview mixed_stats listed more),
        (get_account_stats scripted_send "me" 1 false mixed_account).2)
     ∧ listed.*2 = take 20 ["a"]
     ∧ (more = None ↔ (length ["a"] ≤ 20)%nat))
  ∧ (∃ listed more,
       follow_back_suggestions scripted_send "me" 1 mixed_account
       = (Some (Suggestions (length ["c"]) listed more),
          (get_account_stats scripted_send "me" 1 false mixed_account).2)
       ∧ listed.*2 = take 30 ["c"]
       ∧ (more = None ↔ (length ["c"] ≤ 30)%nat)).
Proof.
  destruct (previews_only_read scripted_send "me" 1 false mixed_account)
    as (_ & _ & _ & Hdry & Hsug).
  split.
  - destruct (Hdry mixed_stats ["a"] ["c"] ["b"]
                (get_account_stats scripted_send "me" 1 false
                   mixed_account).2)
      as (listed & more & H1 & H2 & _ & _ & H3).
    + vm_compute. reflexivity.
    + exists listed, more. auto.
  - destruct (Hsug mixed_stats ["a"] ["c"] ["b"]
                (get_account_stats scripted_send "me" 1 false
                   mixed_account).2)
      as (listed & more & H1 & H2 & _ & _ & H3).
    + vm_compute. reflexivity.
    + discriminate.
    + exists listed, more. auto.
Defined.

Lemma full_unfollow_touches_only_non_mutuals_witness :
  writes (log (execute_full_unfollow scripted_send "me" 1 mixed_account).2)
  = unfollow_requests ["a"].
Proof.
  destruct (full_unfollow_touches_only_non_mutuals scripted_send "me" 1
              mixed_account) as (targets & Hw & _ & Hstats & _).
  rewrite Hw.
  rewrite (Hstats mixed_stats ["a"] ["c"] ["b"]
             (get_account_stats scripted_send "me" 1 false mixed_account).2).
  - reflexivity.
  - vm_compute. reflexivity.
Defined.

Lemma selective_unfollow_slice_witness :
  py_int (1 # 2) = 0%Z
  ∧ writes (log (execute_selective_unfollow scripted_send "me" 1 1
                   mixed_account).2)
    = unfollow_requests (py_slice_to (py_int 1) ["a"])
  ∧ (execute_selective_unfollow scripted_send "me" 1 (1 # 2)
       mixed_account).1
    = Some (Summary 0 0 []).
Proof.
  destruct (selective_unfollow_slice scripted_send "me") as (_ & H2 & H3).
  split_and!.
  - apply H2; reflexivity.
  - destruct (H3 1%nat 1%Q mixed_account mixed_stats ["a"] ["c"] ["b"]
                (get_account_stats scripted_send "me" 1 false
                   mixed_account).2) as [Hw _].
    + vm_compute. reflexivity.
    + discriminate.
    + exact Hw.
  - destruct (H3 1%nat (1 # 2)%Q mixed_account mixed_stats ["a"] ["c"] ["b"]
                (get_account_stats scripted_send "me" 1 false
                   mixed_account).2) as (_ & _ & _ & H0 & _).
    + vm_compute. reflexivity.
    + discriminate.
    + destruct H0 as [Hout _]; [reflexivity | exact Hout].
Defined.

Lemma batch_pause_bounded_witness :
  batch_pause (world_with_remaining 50) = world_with_remaining 50
  ∧ batch_pause (world_with_remaining 5000) = world_with_remaining 5000
  ∧ (clock (batch_pause (set_rate_limit 50 10 (initial_world tt 0))) == 10)%Q
  ∧ (clock (batch_pause (set_rate_limit 50 100 (initial_world tt 0)))
     == 0 + 30)%Q.
Proof.
  split_and!.
  - destruct (batch_pause_bounded (world_with_remaining 50))
      as (_ & _ & _ & _ & _ & _ & _ & H & _).
    apply H. vm_compute. discriminate.
  - destruct (batch_pause_bounded (world_with_remaining 5000))
      as (_ & _ & _ & _ & _ & _ & H & _).
    apply H. vm_compute. discriminate.
  - destruct (batch_pause_bounded (set_rate_limit 50 10 (initial_world tt 0)))
      as (_ & _ & _ & _ & _ & _ & _ & _ & H).
    destruct H as [H _]; [reflexivity | reflexivity |].
    apply H. reflexivity.
  - destruct (batch_pause_bounded
                (set_rate_limit 50 100 (initial_world tt 0)))
      as (_ & _ & _ & _ & _ & _ & _ & _ & H).
    destruct H as [_ H]; [reflexivity | reflexivity |].
    apply H. vm_compute. discriminate.
Defined.

Lemma clear_cache_forgets_witness :
  (get_following scripted_send 1 false
     (clear_cache_handler
        (cached_world ["a"] ["b"] 1700000000 1700000060
           [server_error 500])).2).1
  = Some (Raise (GitHubAPIError 500 "failed"
                   (BASE_URL ++ "/user/following")%string))
  ∧ (get_followers scripted_send 1 false
       (clear_cache_handler
          (cached_world ["a"] ["b"] 1700000000 1700000060
             [server_error 500])).2).1
    = Some (Raise (GitHubAPIError 500 "failed"
                     (BASE_URL ++ "/user/followers")%string)).
Proof.
  destruct (clear_cache_forgets scripted_send 1
              (cached_world ["a"] ["b"] 1700000000 1700000060
                 [server_error 500]))
    as (_ & _ & _ & _ & _ & _ & _ & _ & _ & _ & H1 & H2).
  split.
  - rewrite (H1 (GitHubAPIError 500 "failed"
                   (BASE_URL ++ "/user/following")%string)
               (fetch_logins scripted_send 1
                  (BASE_URL ++ "/user/following")%string
                  (clear_cache_handler
                     (cached_world ["a"] ["b"] 1700000000 1700000060
                        [server_error 500])).2).2);
      reflexivity.
  - rewrite (H2 (GitHubAPIError 500 "failed"
                   (BASE_URL ++ "/user/followers")%string)
               (fetch_logins scripted_send 1
                  (BASE_URL ++ "/user/followers")%string
                  (clear_cache_handler
                     (cached_world ["a"] ["b"] 1700000000 1700000060
                        [server_error 500])).2).2);
      reflexivity.
Defined.

Lemma parse_usernames_clean_witness :
  (nonempty_str "a" = true ∧ strip "a" = "a"
   ∧ follow_request "a"
     = wire PUT (BASE_URL ++ "/user/following/" ++ lower "a")%string None)
  ∧ ∃ r, follow_selected_users scripted_send 1 " , " cold_follow
         = (Some (Ok r), cold_follow)
         ∧ (r = NoUsernames ∨ r = NoValidUsernames).
Proof.
  split.
  - destruct (parse_usernames_clean (server := list netresult) scripted_send
                " a , ,b,") as (_ & H & _).
    destruct (H "a") as (H1 & H2 & _ & H3).
    + apply (bool_decide_unpack _). vm_compute. exact I.
    + auto.
  - destruct (parse_usernames_clean scripted_send " , ") as (_ & _ & _ & H).
    apply H. reflexivity.
Defined.
